(** * The test harness of boiler-plate-next-fast-api

    A shallow embedding of the four Node.js scripts that make up the
    health-check and test-orchestration harness:

      - [tests/health-check.js]          (module [HealthCheck])
      - [tests/ci-health-check.js]       (module [CIHealthCheck])
      - [tests/integration/run-tests.js] (module [Integration])
      - [run-tests.js]                   (module [Orchestrator])

    Every async function of the scripts becomes a computation in a small
    state-and-completion monad: the state is the outside world (the
    services, the clock, the console), a completion is a normal return,
    a thrown exception or a [process.exit].  *)

From Stdlib Require Import ZArith List String Ascii Bool Lia DecimalString.
Import ListNotations.

#[local] Set Warnings "-register-all".
#[local] Open Scope string_scope.
#[local] Open Scope Z_scope.

(* ------------------------------------------------------------------ *)
(** * JavaScript exceptions, completions and the async monad *)

(** A thrown [Error] object: its constructor name and its [message]. *)
Record exn : Type := MkExn { exn_name : string; message : string }.

Definition Error (msg : string) : exn := MkExn "Error" msg.
Definition TypeError (msg : string) : exn := MkExn "TypeError" msg.
Definition SyntaxError (msg : string) : exn := MkExn "SyntaxError" msg.

(** How a piece of code ends: it returns, it throws (a rejected promise
    under [await]), or it calls [process.exit], which no [catch] sees. *)
Inductive Completion (A : Type) : Type :=
| Normal (a : A)
| Throw (e : exn)
| Exit (code : Z).

Arguments Normal {A} a.
Arguments Throw {A} e.
Arguments Exit {A} code.

(** A computation over a state [S].  The scripts are single-threaded and
    [await] every promise at once, so sequencing is all there is. *)
Definition M (S A : Type) : Type := S -> Completion A * S.

Definition ret {S A} (a : A) : M S A := fun s => (Normal a, s).

Definition bind {S A B} (m : M S A) (k : A -> M S B) : M S B :=
  fun s =>
    match m s with
    | (Normal a, s') => k a s'
    | (Throw e, s') => (Throw e, s')
    | (Exit c, s') => (Exit c, s')
    end.

Definition throw {S A} (e : exn) : M S A := fun s => (Throw e, s).

(** [process.exit(code)] *)
Definition process_exit {S A} (code : Z) : M S A := fun s => (Exit code, s).

(** [try { m } catch (error) { handler error }] *)
Definition try_catch {S A} (m : M S A) (handler : exn -> M S A) : M S A :=
  fun s =>
    match m s with
    | (Throw e, s') => handler e s'
    | r => r
    end.

Declare Scope js_scope.
Delimit Scope js_scope with js.
Notation "x <- m ;; k" := (bind m (fun x => k))
  (at level 61, m at next level, right associativity) : js_scope.
Notation "m ;; k" := (bind m (fun _ => k))
  (at level 61, right associativity) : js_scope.
#[local] Open Scope js_scope.

(** Control after one turn of a loop body: go on with the updated local
    variables, or leave the enclosing function through [return]. *)
Inductive Ctl (L R : Type) : Type :=
| Continue (locals : L)
| Return (r : R).

Arguments Continue {L R} locals.
Arguments Return {L R} r.

(** [for (const x of xs) { body }], threading the local variables the
    body updates.  A [throw] or [process.exit] in the body ends the loop
    through [bind]. *)
Fixpoint for_of {S X L R} (xs : list X) (body : X -> L -> M S (Ctl L R))
    (locals : L) : M S (Ctl L R) :=
  match xs with
  | [] => ret (Continue locals)
  | x :: rest =>
      c <- body x locals ;;
      match c with
      | Continue locals' => for_of rest body locals'
      | Return r => ret (Return r)
      end
  end.

(** The indices of [for (let i = 0; i < n; i++)], whose body never
    assigns [i]: 0, 1, ..., n-1, and none at all when [n <= 0].  The
    bound is a count, an integer. *)
Definition indices (n : Z) : list Z :=
  map Z.of_nat (seq 0 (Z.to_nat n)).

(* ------------------------------------------------------------------ *)
(** * JavaScript values *)

(** The values [JSON.parse] yields, and [undefined] for an absent
    property.  Of the numbers those are kept that [String(x)] shows as
    an integer numeral, and [VNumber n] is the number shown as the
    numeral of [n]; the scripts only print the numbers of a body and
    test them for truth. *)
Inductive value : Type :=
| VUndefined
| VNull
| VBool (b : bool)
| VNumber (n : Z)
| VString (s : string)
| VArray (items : list value)
| VObject (fields : list (string * value)).

(** ToBoolean, as [if (!v)] applies it. *)
Definition truthy (v : value) : bool :=
  match v with
  | VUndefined | VNull => false
  | VBool b => b
  | VNumber n => negb (n =? 0)
  | VString s => negb (s =? "")%string
  | VArray _ | VObject _ => true
  end.

Definition string_of_Z (n : Z) : string :=
  NilZero.string_of_int (Z.to_int n).

Fixpoint join (sep : string) (parts : list string) : string :=
  match parts with
  | [] => ""
  | [p] => p
  | p :: rest => p ++ sep ++ join sep rest
  end.

Fixpoint assoc {A} (k : string) (kvs : list (string * A)) : option A :=
  match kvs with
  | [] => None
  | (k', v) :: rest => if (k =? k')%string then Some v else assoc k rest
  end.

(** The strings of a list of conversions, if every one of them
    succeeded. *)
Fixpoint all_shown (parts : list (option string)) : option (list string) :=
  match parts with
  | [] => Some []
  | Some p :: rest =>
      match all_shown rest with
      | Some ps => Some (p :: ps)
      | None => None
      end
  | None :: _ => None
  end.

(** ToString, as a template literal [`${v}`] applies it; [None] where
    it throws a [TypeError].  An object out of [JSON.parse] is shown by
    [Object.prototype.toString] unless it has a property [toString] of
    its own, which, being no function, leaves nothing to convert it
    with ([valueOf] returns the object itself).  An array is shown by
    joining its elements, each converted in turn. *)
Fixpoint to_string (v : value) : option string :=
  match v with
  | VUndefined => Some "undefined"
  | VNull => Some "null"
  | VBool true => Some "true"
  | VBool false => Some "false"
  | VNumber n => Some (string_of_Z n)
  | VString s => Some s
  | VArray items =>
      match all_shown
              (map (fun x => match x with
                             | VUndefined | VNull => Some ""
                             | _ => to_string x
                             end) items) with
      | Some parts => Some (join "," parts)
      | None => None
      end
  | VObject fields =>
      match assoc "toString" fields with
      | Some _ => None
      | None => Some "[object Object]"
      end
  end.

(** [items.join(sep)]: the elements are converted like those of an
    array in a template literal. *)
Definition array_join (sep : string) (items : list value) : option string :=
  match all_shown
          (map (fun x => match x with
                         | VUndefined | VNull => Some ""
                         | _ => to_string x
                         end) items) with
  | Some parts => Some (join sep parts)
  | None => None
  end.

(** Property read [v.k] for the property names the scripts use, none of
    which is inherited from a prototype: an own property of an object,
    [undefined] on any other value, a [TypeError] on [null] and
    [undefined]. *)
Definition get_prop {S} (v : value) (k : string) : M S value :=
  match v with
  | VUndefined =>
      throw (TypeError ("Cannot read properties of undefined (reading '" ++ k ++ "')"))
  | VNull =>
      throw (TypeError ("Cannot read properties of null (reading '" ++ k ++ "')"))
  | VObject fields =>
      ret (match assoc k fields with Some x => x | None => VUndefined end)
  | _ => ret VUndefined
  end.

(** [`${v}`] where it stands in the script: the string, or the
    [TypeError] thrown there. *)
Definition show {S} (v : value) : M S string :=
  match to_string v with
  | Some shown => ret shown
  | None => throw (TypeError "Cannot convert object to primitive value")
  end.

(** Strict equality [v === 'text'] against a string literal. *)
Definition is_string (v : value) (text : string) : bool :=
  match v with
  | VString s => (s =? text)%string
  | _ => false
  end.

(** [s.includes(t)] on strings. *)
Fixpoint includes (s t : string) : bool :=
  prefix t s ||
  match s with
  | EmptyString => false
  | String _ rest => includes rest t
  end.

(** ASCII lower case; the other bytes stay as they are. *)
Definition lower_ascii (c : ascii) : ascii :=
  let n := nat_of_ascii c in
  if (65 <=? n)%nat && (n <=? 90)%nat then ascii_of_nat (n + 32) else c.

Fixpoint lower (s : string) : string :=
  match s with
  | EmptyString => EmptyString
  | String c rest => String (lower_ascii c) (lower rest)
  end.

(** [/literal/i.test(s)] for a pattern without metacharacters. *)
Definition regex_test_i (literal s : string) : bool :=
  includes (lower s) (lower literal).

(** [s.substring(0, n)], on a string of ASCII characters: JavaScript
    counts the UTF-16 units of [s] and this function its bytes, which
    are the same there.  The one use is the excerpt of a response body
    that tests/ci-health-check.js logs after a failed parse. *)
Fixpoint substring0 (n : nat) (s : string) : string :=
  match n, s with
  | S n', String c rest => String c (substring0 n' rest)
  | _, _ => ""
  end.

(** A parameter with a default value, [f(x = fallback)]. *)
Definition default_arg {A} (arg : option A) (fallback : A) : A :=
  match arg with
  | Some a => a
  | None => fallback
  end.

(** [if (b) { m }] *)
Definition when {S} (b : bool) (m : M S unit) : M S unit :=
  if b then m else ret tt.

(** A loop whose body has no [return]: only the local variables come
    out of it. *)
Definition for_each {S X L} (xs : list X) (body : X -> L -> M S L)
    (locals : L) : M S L :=
  c <- for_of (R := Empty_set) xs
         (fun x l => l' <- body x l ;; ret (Continue l')) locals ;;
  match c with
  | Continue l => ret l
  | Return r => match r with end
  end.

(* ------------------------------------------------------------------ *)
(** * The platform: network, timers, subprocesses *)

(** What [makeRequest] resolves with. *)
Record ProbeResult : Type := MkProbeResult {
  statusCode : Z;
  headers : list (string * string);
  body : string
}.

(** What one [http.get] comes to once the promise made around it
    settles: the response arrives to its ['end'], the request emits
    ['error'], nothing happens before the caller's timer fires, or
    [http.get] itself throws before anything is sent (a URL it does not
    take, such as an [https:] one given to the [http] module).

    The [makeRequest] functions clear their timer when the head of the
    response arrives and resolve at the body's ['end'] only, so a
    response whose body never ends leaves their promise pending for
    good.  Such a request has no event here: [Responded] is a response
    that arrived to its end, and what is proved of a run is proved of
    the runs all of whose requests settle. *)
Inductive NetEvent : Type :=
| Responded (statusCode : Z) (headers : list (string * string)) (body : string)
| Failed (err : exn)
| Silent
| Refused (err : exn).

(** The options the orchestrator passes to [spawn]. *)
Record SpawnOptions : Type := MkSpawnOptions {
  spawn_env : list (string * string);
  spawn_cwd : option string
}.

(** How a spawned process ends: the ['close'] event with its exit code
    ([None] for [null], a process killed by a signal) or ['error']. *)
Inductive SpawnEvent : Type :=
| Closed (code : option Z)
| SpawnFailed (err : exn).

(** Node.js and the services behind it, as the scripts see them.  [Env]
    is the state of everything outside the script. *)
Class Platform (Env : Type) : Type := {
  process_env : string -> option string;
  process_platform : string;
  process_version : string;
  process_arch : string;
  http_get : string -> list (string * string) -> Z -> Env -> NetEvent * Env;
  timer_elapse : Z -> Env -> Env;
  Date_now : Env -> Z;
  JSON_parse : string -> value + exn;
  seconds_toFixed2 : Z -> string;
  child_spawn : string -> list string -> SpawnOptions -> Env -> SpawnEvent * Env;
  fs_existsSync : string -> Env -> bool;
  path_join : list string -> string;
  process_cwd : Env -> string
}.

(** [process.env.NAME || fallback] *)
Definition env_or {Env} `{Platform Env} (name fallback : string) : string :=
  match process_env name with
  | Some v => if (v =? "")%string then fallback else v
  | None => fallback
  end.

(** The script's view of the world: the environment and the lines
    written to the console so far. *)
Record World (Env : Type) : Type := MkWorld {
  env : Env;
  console : list string
}.

Arguments MkWorld {Env} env console.
Arguments env {Env} w.
Arguments console {Env} w.

(** The harness adds a record of what the retry wrapper did: which test
    function it invoked, how that invocation ended, and which delays it
    waited for, in order.  A test function runs on the [World] only and
    cannot touch it. *)
Inductive Event : Type :=
| Invoked (testName : string) (outcome : Completion unit)
| Slept (ms : Z).

Definition forget {A} (c : Completion A) : Completion unit :=
  match c with
  | Normal _ => Normal tt
  | Throw e => Throw e
  | Exit code => Exit code
  end.

Record Harness (Env : Type) : Type := MkHarness {
  world : World Env;
  history : list Event
}.

Arguments MkHarness {Env} world history.
Arguments world {Env} h.
Arguments history {Env} h.

(** Run a computation on the world inside the harness. *)
Definition lift {Env A} (m : M (World Env) A) : M (Harness Env) A :=
  fun h =>
    let (r, w) := m (world h) in
    (r, MkHarness w (history h)).

(** [await testFn()] in the retry wrapper. *)
Definition invoke {Env A} (testName : string) (testFn : M (World Env) A)
    : M (Harness Env) A :=
  fun h =>
    let (r, w) := testFn (world h) in
    (r, MkHarness w (history h ++ [Invoked testName (forget r)])).

Definition is_invoked (e : Event) : bool :=
  match e with Invoked _ _ => true | Slept _ => false end.

Definition is_slept (e : Event) : bool :=
  match e with Slept _ => true | Invoked _ _ => false end.

(** How often the test function was invoked, and how often the delay. *)
Definition invocations (evs : list Event) : nat :=
  List.length (filter is_invoked evs).

Definition delays (evs : list Event) : nat :=
  List.length (filter is_slept evs).

(** ANSI colours of the scripts. *)
Definition ESC : string := String (ascii_of_nat 27) "".

(** The line feed the orchestrator ends some messages with. *)
Definition LF : string := String (ascii_of_nat 10) "".

Module colors.
Definition green := ESC ++ "[32m".
Definition red := ESC ++ "[31m".
Definition yellow := ESC ++ "[33m".
Definition blue := ESC ++ "[34m".
Definition magenta := ESC ++ "[35m".
Definition cyan := ESC ++ "[36m".
Definition white := ESC ++ "[37m".
Definition reset := ESC ++ "[0m".
Definition bold := ESC ++ "[1m".
Definition underline := ESC ++ "[4m".
End colors.

(** [console.log(`${color}${message}${colors.reset}`)], the [log] of all
    four scripts. *)
Definition log {Env} (msg : string) (color : string) : M (World Env) unit :=
  fun w => (Normal tt, MkWorld (env w) (console w ++ [color ++ msg ++ colors.reset])).

(** The script configuration object [CONFIG]. *)
Record Config : Type := MkConfig {
  API_URL : string;
  WEB_URL : string;
  TIMEOUT : Z;
  RETRY_COUNT : Z;
  RETRY_DELAY : Z
}.

(** [Date.now()] *)
Definition now {Env} `{Platform Env} : M (World Env) Z :=
  fun w => (Normal (Date_now (env w)), w).

(** [JSON.parse(text)], throwing its [SyntaxError]. *)
Definition parse {Env} `{Platform Env} {S} (text : string) : M S value :=
  match JSON_parse text with
  | inl v => ret v
  | inr e => throw e
  end.

(** The test cases a suite registers: [{ name, fn }]. *)
Record TestCase (Env : Type) : Type := MkTest {
  name : string;
  fn : M (World Env) value
}.

Arguments MkTest {Env} name fn.
Arguments name {Env} t.
Arguments fn {Env} t.

(* ------------------------------------------------------------------ *)
(** * tests/health-check.js *)

Module HealthCheck.
Section Script.
Context {Env : Type} {P : Platform Env}.

(** The [CONFIG] object as the module creates it. *)
Definition CONFIG : Config := {|
  API_URL := env_or "API_URL" "http://localhost:8000";
  WEB_URL := env_or "WEB_URL" "http://localhost:3000";
  TIMEOUT := 10000;
  RETRY_COUNT := 3;
  RETRY_DELAY := 2000
|}.

(** [CONFIG] is exported and its fields are read when a function runs,
    so the functions take the object as they find it. *)
Variable cfg : Config.

(** [makeRequest(url, options)]: the promise resolves at the
    response's ['end'], rejects with the request's ['error'], and
    rejects with the timeout when the timer fires before the head of
    the response; an exception thrown in the executor rejects it.  A
    head followed by a body that never ends would leave it pending:
    [NetEvent] has no such case, the function is defined on the
    requests that settle.  [options] carries the request headers; the
    [http]/[https] choice follows the URL and is left to the
    platform. *)
Definition makeRequest (url : string) (options : list (string * string))
    : M (World Env) ProbeResult :=
  fun w =>
    match http_get url options (TIMEOUT cfg) (env w) with
    | (Responded sc hs b, e') =>
        (Normal (MkProbeResult sc hs b), MkWorld e' (console w))
    | (Failed err, e') =>
        (Throw err, MkWorld e' (console w))
    | (Silent, e') =>
        (Throw (Error ("Request timeout after " ++ string_of_Z (TIMEOUT cfg) ++ "ms")),
         MkWorld e' (console w))
    | (Refused err, e') =>
        (Throw err, MkWorld e' (console w))
    end.

(** [sleep(ms)] *)
Definition sleep (ms : Z) : M (Harness Env) unit :=
  fun h =>
    (Normal tt,
     MkHarness (MkWorld (timer_elapse ms (env (world h))) (console (world h)))
               (history h ++ [Slept ms])).

(** One turn of the loop of [testWithRetry], at index [i]. *)
Definition testWithRetry_attempt {A} (testFn : M (World Env) A) (testName : string)
    (retries : Z) (i : Z) (_ : unit) : M (Harness Env) (Ctl unit unit) :=
  try_catch
    (invoke testName testFn ;;
     ret (Return tt))
    (fun error =>
       when (i =? retries - 1) (throw error) ;;
       lift (log ("  " ++ colors.yellow ++ "Retry " ++ string_of_Z (i + 1)
                  ++ "/" ++ string_of_Z retries ++ " for " ++ testName
                  ++ "..." ++ colors.reset) colors.reset) ;;
       sleep (RETRY_DELAY cfg) ;;
       ret (Continue tt)).

(** [testWithRetry(testFn, testName, retries = CONFIG.RETRY_COUNT)]:
    falling out of the loop returns [undefined] like the [return]. *)
Definition testWithRetry {A} (testFn : M (World Env) A) (testName : string)
    (retries_arg : option Z) : M (Harness Env) unit :=
  let retries := default_arg retries_arg (RETRY_COUNT cfg) in
  for_of (indices retries) (testWithRetry_attempt testFn testName retries) tt ;;
  ret tt.

Definition testApiHealth : M (World Env) value :=
  log (colors.blue ++ "Testing API Health Endpoint..." ++ colors.reset) colors.reset ;;
  response <- makeRequest (API_URL cfg ++ "/health") [] ;;
  when (negb (statusCode response =? 200))
    (throw (Error ("API health check failed with status "
                   ++ string_of_Z (statusCode response)))) ;;
  data <- parse (body response) ;;
  status <- get_prop data "status" ;;
  when (negb (is_string status "ok"))
    (shown <- show status ;;
     throw (Error ("API health status is not 'ok': " ++ shown))) ;;
  log ("  " ++ colors.green ++ "✓ API health check passed" ++ colors.reset) colors.reset ;;
  ret data.

Definition testApiDetailedHealth : M (World Env) value :=
  log (colors.blue ++ "Testing API Detailed Health Endpoint..." ++ colors.reset) colors.reset ;;
  response <- makeRequest (API_URL cfg ++ "/health/detailed") [] ;;
  when (negb (statusCode response =? 200))
    (throw (Error ("API detailed health check failed with status "
                   ++ string_of_Z (statusCode response)))) ;;
  data <- parse (body response) ;;
  status <- get_prop data "status" ;;
  when (negb (is_string status "healthy"))
    (shown <- show status ;;
     throw (Error ("API detailed health status is not 'healthy': " ++ shown))) ;;
  let requiredFields := ["timestamp"; "version"; "python_version"; "system"; "services"] in
  for_each requiredFields
    (fun field (_ : unit) =>
       v <- get_prop data field ;;
       when (negb (truthy v))
         (throw (Error ("Missing required field in detailed health: " ++ field))))
    tt ;;
  log ("  " ++ colors.green ++ "✓ API detailed health check passed" ++ colors.reset) colors.reset ;;
  python_version <- get_prop data "python_version" ;;
  shown <- show python_version ;;
  log ("    Python version: " ++ shown) colors.reset ;;
  platform <- get_prop data "platform" ;;
  shown <- show platform ;;
  log ("    Platform: " ++ shown) colors.reset ;;
  ret data.

Definition testApiStatus : M (World Env) value :=
  log (colors.blue ++ "Testing API Status Endpoint..." ++ colors.reset) colors.reset ;;
  response <- makeRequest (API_URL cfg ++ "/api/status") [] ;;
  when (negb (statusCode response =? 200))
    (throw (Error ("API status check failed with status "
                   ++ string_of_Z (statusCode response)))) ;;
  data <- parse (body response) ;;
  api_status <- get_prop data "api_status" ;;
  when (negb (is_string api_status "operational"))
    (shown <- show api_status ;;
     throw (Error ("API status is not 'operational': " ++ shown))) ;;
  log ("  " ++ colors.green ++ "✓ API status check passed" ++ colors.reset) colors.reset ;;
  environment <- get_prop data "environment" ;;
  shown <- show environment ;;
  log ("    Environment: " ++ shown) colors.reset ;;
  ret data.

Definition testApiDocs : M (World Env) value :=
  log (colors.blue ++ "Testing API Documentation Endpoint..." ++ colors.reset) colors.reset ;;
  response <- makeRequest (API_URL cfg ++ "/docs") [] ;;
  when (negb (statusCode response =? 200))
    (throw (Error ("API docs check failed with status "
                   ++ string_of_Z (statusCode response)))) ;;
  when (negb (includes (body response) "Swagger UI"))
    (throw (Error "API docs do not contain expected Swagger UI content")) ;;
  log ("  " ++ colors.green ++ "✓ API documentation accessible" ++ colors.reset) colors.reset ;;
  ret VUndefined.

Definition testWebHealth : M (World Env) value :=
  log (colors.blue ++ "Testing Web Frontend..." ++ colors.reset) colors.reset ;;
  response <- makeRequest (WEB_URL cfg) [] ;;
  when (negb (statusCode response =? 200))
    (throw (Error ("Web frontend check failed with status "
                   ++ string_of_Z (statusCode response)))) ;;
  when (negb (includes (body response) "<!DOCTYPE html>")
        && negb (includes (body response) "<html"))
    (throw (Error "Web frontend did not return valid HTML")) ;;
  log ("  " ++ colors.green ++ "✓ Web frontend accessible" ++ colors.reset) colors.reset ;;
  ret VUndefined.

Definition testWebHealthPage : M (World Env) value :=
  log (colors.blue ++ "Testing Web Health Page..." ++ colors.reset) colors.reset ;;
  response <- makeRequest (WEB_URL cfg ++ "/health") [] ;;
  when (negb (statusCode response =? 200))
    (throw (Error ("Web health page check failed with status "
                   ++ string_of_Z (statusCode response)))) ;;
  log ("  " ++ colors.green ++ "✓ Web health page accessible" ++ colors.reset) colors.reset ;;
  ret VUndefined.

Definition testCORS : M (World Env) value :=
  log (colors.blue ++ "Testing CORS Configuration..." ++ colors.reset) colors.reset ;;
  response <- makeRequest (API_URL cfg ++ "/health")
                [("Origin", WEB_URL cfg); ("Access-Control-Request-Method", "GET")] ;;
  when (negb (statusCode response =? 200))
    (throw (Error ("CORS test failed with status "
                   ++ string_of_Z (statusCode response)))) ;;
  log ("  " ++ colors.green ++ "✓ CORS configuration working" ++ colors.reset) colors.reset ;;
  ret VUndefined.

(** The [tests] array of [runHealthChecks]. *)
Definition tests : list (TestCase Env) := [
  MkTest "API Health" testApiHealth;
  MkTest "API Detailed Health" testApiDetailedHealth;
  MkTest "API Status" testApiStatus;
  MkTest "API Documentation" testApiDocs;
  MkTest "Web Frontend" testWebHealth;
  MkTest "Web Health Page" testWebHealthPage;
  MkTest "CORS Configuration" testCORS
].

(** One turn of the loop of [runHealthChecks], on the counters
    [passed] and [failed]. *)
Definition runHealthChecks_turn (test : TestCase Env) (counters : Z * Z)
    : M (Harness Env) (Z * Z) :=
  let '(passed, failed) := counters in
  counters' <-
    try_catch
      (testWithRetry (fn test) (name test) None ;;
       ret (passed + 1, failed))
      (fun error =>
         lift (log (colors.red ++ "✗ " ++ name test ++ " failed: "
                    ++ message error ++ colors.reset) colors.reset) ;;
         ret (passed, failed + 1)) ;;
  lift (log "" colors.reset) ;;
  ret counters'.

(** The loop of [runHealthChecks] over its registered test cases, with
    the counters it leaves behind. *)
Definition runHealthChecks_loop (tests : list (TestCase Env))
    : M (Harness Env) (Z * Z) :=
  for_each tests runHealthChecks_turn (0, 0).

(** [runHealthChecks()] over a list of registered test cases; the script
    registers [tests]. *)
Definition runHealthChecks_of (tests : list (TestCase Env))
    : M (Harness Env) unit :=
  startTime <- lift now ;;
  lift (log (colors.bold ++ colors.blue ++ "🏥 Starting Health Check Test Suite"
             ++ colors.reset) colors.reset) ;;
  lift (log (colors.blue ++ "API URL: " ++ API_URL cfg ++ colors.reset) colors.reset) ;;
  lift (log (colors.blue ++ "Web URL: " ++ WEB_URL cfg ++ colors.reset) colors.reset) ;;
  lift (log "" colors.reset) ;;
  counters <- runHealthChecks_loop tests ;;
  let '(passed, failed) := counters in
  endTime <- lift now ;;
  let duration := seconds_toFixed2 (endTime - startTime) in
  lift (log (colors.bold ++ "📊 Test Results:" ++ colors.reset) colors.reset) ;;
  lift (log (colors.green ++ "✓ Passed: " ++ string_of_Z passed ++ colors.reset) colors.reset) ;;
  lift (log (colors.red ++ "✗ Failed: " ++ string_of_Z failed ++ colors.reset) colors.reset) ;;
  lift (log ("⏱️  Duration: " ++ duration ++ "s") colors.reset) ;;
  lift (log "" colors.reset) ;;
  if failed >? 0 then
    lift (log (colors.red ++ colors.bold ++ "❌ Health checks failed!" ++ colors.reset)
              colors.reset) ;;
    process_exit 1
  else
    lift (log (colors.green ++ colors.bold ++ "✅ All health checks passed!" ++ colors.reset)
              colors.reset) ;;
    process_exit 0.

Definition runHealthChecks : M (Harness Env) unit := runHealthChecks_of tests.

(** The script run as the main module:
    [runHealthChecks().catch(...)]. *)
Definition main : M (Harness Env) unit :=
  try_catch runHealthChecks
    (fun error =>
       lift (log (colors.red ++ "Health check suite failed: " ++ message error
                  ++ colors.reset) colors.reset) ;;
       process_exit 1).

End Script.
End HealthCheck.

(* ------------------------------------------------------------------ *)
(** * tests/ci-health-check.js *)

Module CIHealthCheck.
Section Script.
Context {Env : Type} {P : Platform Env}.

Definition CONFIG : Config := {|
  API_URL := env_or "API_URL" "http://localhost:8000";
  WEB_URL := env_or "WEB_URL" "http://localhost:3000";
  TIMEOUT := 10000;
  RETRY_COUNT := 3;
  RETRY_DELAY := 2000
|}.

Variable cfg : Config.

(** [makeRequest(url, timeout = CONFIG.TIMEOUT)]: as in
    tests/health-check.js, on the requests that settle.  The
    [req.setTimeout(timeout)] at its end registers no listener and
    settles nothing. *)
Definition makeRequest (url : string) (timeout_arg : option Z)
    : M (World Env) ProbeResult :=
  let timeout := default_arg timeout_arg (TIMEOUT cfg) in
  fun w =>
    match http_get url [] timeout (env w) with
    | (Responded sc hs b, e') =>
        (Normal (MkProbeResult sc hs b), MkWorld e' (console w))
    | (Failed err, e') =>
        (Throw err, MkWorld e' (console w))
    | (Silent, e') =>
        (Throw (Error ("Request timeout after " ++ string_of_Z timeout ++ "ms")),
         MkWorld e' (console w))
    | (Refused err, e') =>
        (Throw err, MkWorld e' (console w))
    end.

Definition sleep (ms : Z) : M (Harness Env) unit :=
  fun h =>
    (Normal tt,
     MkHarness (MkWorld (timer_elapse ms (env (world h))) (console (world h)))
               (history h ++ [Slept ms])).

(** One turn of the loop of [testWithRetry].  This script's wrapper
    reports the outcome as a boolean: [true] on the first success,
    [false] once the last attempt failed, and [undefined] when the loop
    body never ran. *)
Definition testWithRetry_attempt {A} (testFn : M (World Env) A) (testName : string)
    (retries : Z) (i : Z) (_ : unit) : M (Harness Env) (Ctl unit value) :=
  try_catch
    (invoke testName testFn ;;
     ret (Return (VBool true)))
    (fun error =>
       if i =? retries - 1 then
         lift (log (colors.red ++ "✗ " ++ testName ++ " failed after "
                    ++ string_of_Z retries ++ " attempts: " ++ message error
                    ++ colors.reset) colors.reset) ;;
         ret (Return (VBool false))
       else
         lift (log (colors.yellow ++ "Retry " ++ string_of_Z (i + 1) ++ "/"
                    ++ string_of_Z retries ++ " for " ++ testName ++ "..."
                    ++ colors.reset) colors.reset) ;;
         sleep (RETRY_DELAY cfg) ;;
         ret (Continue tt)).

Definition testWithRetry {A} (testFn : M (World Env) A) (testName : string)
    (retries_arg : option Z) : M (Harness Env) value :=
  let retries := default_arg retries_arg (RETRY_COUNT cfg) in
  c <- for_of (indices retries) (testWithRetry_attempt testFn testName retries) tt ;;
  match c with
  | Return v => ret v
  | Continue _ => ret VUndefined
  end.

(** The status assertion sits inside the [try] whose [catch] was written
    for [JSON.parse]: whatever is thrown there is logged and dropped. *)
Definition testApiHealth : M (World Env) value :=
  log (colors.blue ++ "Testing API Health..." ++ colors.reset) colors.reset ;;
  response <- makeRequest (API_URL cfg ++ "/health") None ;;
  when (negb (statusCode response =? 200))
    (throw (Error ("API health check failed with status "
                   ++ string_of_Z (statusCode response)))) ;;
  try_catch
    (data <- parse (body response) ;;
     status <- get_prop data "status" ;;
     when (negb (is_string status "ok"))
       (shown <- show status ;;
        throw (Error ("API health status is not 'ok': " ++ shown))) ;;
     log ("  " ++ colors.green ++ "✓ API health check passed" ++ colors.reset) colors.reset)
    (fun parseError =>
       log ("  " ++ colors.yellow ++ "⚠ API responded but JSON parsing failed: "
            ++ message parseError ++ colors.reset) colors.reset ;;
       log ("  Response body: " ++ substring0 100 (body response)) colors.reset) ;;
  ret VUndefined.

Definition testApiDocs : M (World Env) value :=
  log (colors.blue ++ "Testing API Documentation..." ++ colors.reset) colors.reset ;;
  response <- makeRequest (API_URL cfg ++ "/docs") None ;;
  when (negb (statusCode response =? 200))
    (throw (Error ("API docs failed with status " ++ string_of_Z (statusCode response)))) ;;
  when (negb (includes (body response) "swagger")
        && negb (includes (body response) "Swagger"))
    (throw (Error "API docs do not contain expected Swagger content")) ;;
  log ("  " ++ colors.green ++ "✓ API documentation accessible" ++ colors.reset) colors.reset ;;
  ret VUndefined.

Definition testWebFrontend : M (World Env) value :=
  log (colors.blue ++ "Testing Web Frontend..." ++ colors.reset) colors.reset ;;
  response <- makeRequest (WEB_URL cfg) None ;;
  when (negb (statusCode response =? 200))
    (throw (Error ("Web frontend failed with status " ++ string_of_Z (statusCode response)))) ;;
  when (negb (includes (body response) "<html")
        && negb (includes (body response) "<!DOCTYPE"))
    (throw (Error "Web frontend did not return valid HTML")) ;;
  log ("  " ++ colors.green ++ "✓ Web frontend accessible" ++ colors.reset) colors.reset ;;
  ret VUndefined.

Definition testWebHealthPage : M (World Env) value :=
  log (colors.blue ++ "Testing Web Health Page..." ++ colors.reset) colors.reset ;;
  response <- makeRequest (WEB_URL cfg ++ "/health") None ;;
  when (negb (statusCode response =? 200))
    (throw (Error ("Web health page failed with status "
                   ++ string_of_Z (statusCode response)))) ;;
  log ("  " ++ colors.green ++ "✓ Web health page accessible" ++ colors.reset) colors.reset ;;
  ret VUndefined.

Definition tests : list (TestCase Env) := [
  MkTest "API Health" testApiHealth;
  MkTest "API Documentation" testApiDocs;
  MkTest "Web Frontend" testWebFrontend;
  MkTest "Web Health Page" testWebHealthPage
].

(** One turn of the loop of [runCIHealthChecks]: no [try] here, the
    wrapper's boolean decides. *)
Definition runCIHealthChecks_turn (test : TestCase Env) (counters : Z * Z)
    : M (Harness Env) (Z * Z) :=
  let '(passed, failed) := counters in
  success <- testWithRetry (fn test) (name test) None ;;
  if truthy success then ret (passed + 1, failed)
  else ret (passed, failed + 1).

Definition runCIHealthChecks_loop (tests : list (TestCase Env))
    : M (Harness Env) (Z * Z) :=
  for_each tests runCIHealthChecks_turn (0, 0).

Definition runCIHealthChecks_of (tests : list (TestCase Env))
    : M (Harness Env) unit :=
  startTime <- lift now ;;
  lift (log (colors.bold ++ colors.blue ++ "🏥 CI Health Check Suite" ++ colors.reset)
            colors.reset) ;;
  lift (log (colors.blue ++ "API URL: " ++ API_URL cfg ++ colors.reset) colors.reset) ;;
  lift (log (colors.blue ++ "Web URL: " ++ WEB_URL cfg ++ colors.reset) colors.reset) ;;
  lift (log "" colors.reset) ;;
  lift (log (colors.blue ++ "🔍 Testing basic connectivity..." ++ colors.reset)
            colors.reset) ;;
  counters <- runCIHealthChecks_loop tests ;;
  let '(passed, failed) := counters in
  endTime <- lift now ;;
  let duration := seconds_toFixed2 (endTime - startTime) in
  lift (log "" colors.reset) ;;
  lift (log (colors.bold ++ "📊 CI Health Check Results:" ++ colors.reset) colors.reset) ;;
  lift (log (colors.green ++ "✓ Passed: " ++ string_of_Z passed ++ colors.reset) colors.reset) ;;
  lift (log (colors.red ++ "✗ Failed: " ++ string_of_Z failed ++ colors.reset) colors.reset) ;;
  lift (log ("⏱️  Duration: " ++ duration ++ "s") colors.reset) ;;
  lift (log "" colors.reset) ;;
  if failed >? 0 then
    lift (log (colors.red ++ colors.bold ++ "❌ Health checks failed!" ++ colors.reset)
              colors.reset) ;;
    lift (log (colors.yellow ++ "Debug Information:" ++ colors.reset) colors.reset) ;;
    lift (log ("Node.js version: " ++ process_version) colors.reset) ;;
    lift (log ("Platform: " ++ process_platform) colors.reset) ;;
    lift (log ("Architecture: " ++ process_arch) colors.reset) ;;
    lift (w <- (fun w => (Normal w, w)) ;;
          log ("Working directory: " ++ process_cwd (env w)) colors.reset) ;;
    process_exit 1
  else
    lift (log (colors.green ++ colors.bold ++ "✅ All CI health checks passed!"
               ++ colors.reset) colors.reset) ;;
    process_exit 0.

Definition runCIHealthChecks : M (Harness Env) unit := runCIHealthChecks_of tests.

Definition main : M (Harness Env) unit :=
  try_catch runCIHealthChecks
    (fun error =>
       lift (log (colors.red ++ "CI health check suite failed: " ++ message error
                  ++ colors.reset) colors.reset) ;;
       process_exit 1).

End Script.
End CIHealthCheck.

(* ------------------------------------------------------------------ *)
(** * tests/integration/run-tests.js *)

(** The outcome a runner records for a test case or a suite. *)
Inductive Status : Type := PASSED | FAILED | ERROR.

Definition Status_eqb (a b : Status) : bool :=
  match a, b with
  | PASSED, PASSED | FAILED, FAILED | ERROR, ERROR => true
  | _, _ => false
  end.

Module Integration.

(** An entry of the [results] array:
    [{ name, status, duration }] or [{ name, status, error }]. *)
Record TestResult : Type := MkResult {
  result_name : string;
  status : Status;
  duration : option Z;
  error : option string
}.

Section Script.
Context {Env : Type} {P : Platform Env}.

Definition CONFIG : Config := {|
  API_URL := env_or "API_URL" "http://localhost:8000";
  WEB_URL := env_or "WEB_URL" "http://localhost:3000";
  TIMEOUT := 15000;
  RETRY_COUNT := 3;
  RETRY_DELAY := 3000
|}.

Variable cfg : Config.

(** [makeRequest(url, options)]: as in tests/health-check.js, on the
    requests that settle. *)
Definition makeRequest (url : string) (options : list (string * string))
    : M (World Env) ProbeResult :=
  fun w =>
    match http_get url options (TIMEOUT cfg) (env w) with
    | (Responded sc hs b, e') =>
        (Normal (MkProbeResult sc hs b), MkWorld e' (console w))
    | (Failed err, e') =>
        (Throw err, MkWorld e' (console w))
    | (Silent, e') =>
        (Throw (Error ("Request timeout after " ++ string_of_Z (TIMEOUT cfg) ++ "ms")),
         MkWorld e' (console w))
    | (Refused err, e') =>
        (Throw err, MkWorld e' (console w))
    end.

Definition sleep (ms : Z) : M (Harness Env) unit :=
  fun h =>
    (Normal tt,
     MkHarness (MkWorld (timer_elapse ms (env (world h))) (console (world h)))
               (history h ++ [Slept ms])).

(** One turn of the loop of [testWithRetry], at index [i]. *)
Definition testWithRetry_attempt {A} (testFn : M (World Env) A) (testName : string)
    (retries : Z) (i : Z) (_ : unit) : M (Harness Env) (Ctl unit unit) :=
  try_catch
    (invoke testName testFn ;;
     ret (Return tt))
    (fun error =>
       when (i =? retries - 1) (throw error) ;;
       lift (log ("  " ++ colors.yellow ++ "Retry " ++ string_of_Z (i + 1)
                  ++ "/" ++ string_of_Z retries ++ " for " ++ testName
                  ++ "..." ++ colors.reset) colors.reset) ;;
       sleep (RETRY_DELAY cfg) ;;
       ret (Continue tt)).

(** [testWithRetry(testFn, testName, retries = CONFIG.RETRY_COUNT)]:
    falling out of the loop returns [undefined] like the [return]. *)
Definition testWithRetry {A} (testFn : M (World Env) A) (testName : string)
    (retries_arg : option Z) : M (Harness Env) unit :=
  let retries := default_arg retries_arg (RETRY_COUNT cfg) in
  for_of (indices retries) (testWithRetry_attempt testFn testName retries) tt ;;
  ret tt.

Definition testApiResponseTime : M (World Env) value :=
  log (colors.cyan ++ "Testing API Response Time..." ++ colors.reset) colors.reset ;;
  startTime <- now ;;
  response <- makeRequest (API_URL cfg ++ "/health") [] ;;
  endTime <- now ;;
  let responseTime := endTime - startTime in
  when (negb (statusCode response =? 200))
    (throw (Error ("API health check failed with status "
                   ++ string_of_Z (statusCode response)))) ;;
  (if responseTime >? 5000 then
     log ("  " ++ colors.yellow ++ "⚠️  API response time is slow: "
          ++ string_of_Z responseTime ++ "ms" ++ colors.reset) colors.reset
   else
     log ("  " ++ colors.green ++ "✓ API response time: "
          ++ string_of_Z responseTime ++ "ms" ++ colors.reset) colors.reset) ;;
  ret (VNumber responseTime).

Definition testApiContentTypes : M (World Env) value :=
  log (colors.cyan ++ "Testing API Content Types..." ++ colors.reset) colors.reset ;;
  let endpoints := [
    ("/health", "application/json");
    ("/health/detailed", "application/json");
    ("/api/status", "application/json");
    ("/docs", "text/html")
  ] in
  for_each endpoints
    (fun '(path, expectedType) (_ : unit) =>
       response <- makeRequest (API_URL cfg ++ path) [] ;;
       when (negb (statusCode response =? 200))
         (throw (Error ("Endpoint " ++ path ++ " failed with status "
                        ++ string_of_Z (statusCode response)))) ;;
       match assoc "content-type" (headers response) with
       | None =>
           throw (Error ("Endpoint " ++ path ++ " returned wrong content type: undefined"))
       | Some contentType =>
           when ((contentType =? "")%string || negb (includes contentType expectedType))
             (throw (Error ("Endpoint " ++ path ++ " returned wrong content type: "
                            ++ contentType)))
       end)
    tt ;;
  log ("  " ++ colors.green ++ "✓ All API content types correct" ++ colors.reset) colors.reset ;;
  ret VUndefined.

Definition testApiErrorHandling : M (World Env) value :=
  log (colors.cyan ++ "Testing API Error Handling..." ++ colors.reset) colors.reset ;;
  response <- makeRequest (API_URL cfg ++ "/nonexistent-endpoint") [] ;;
  when (negb (statusCode response =? 404))
    (throw (Error ("Expected 404 for nonexistent endpoint, got "
                   ++ string_of_Z (statusCode response)))) ;;
  try_catch
    (errorData <- parse (body response) ;;
     detail <- get_prop errorData "detail" ;;
     msg <- get_prop errorData "message" ;;
     err <- get_prop errorData "error" ;;
     when (negb (truthy detail) && negb (truthy msg) && negb (truthy err))
       (throw (Error "Error response does not contain expected error fields")))
    (fun parseError => throw (Error "Error response is not valid JSON")) ;;
  log ("  " ++ colors.green ++ "✓ API error handling working correctly" ++ colors.reset)
      colors.reset ;;
  ret VUndefined.

Definition testWebPerformance : M (World Env) value :=
  log (colors.cyan ++ "Testing Web Frontend Performance..." ++ colors.reset) colors.reset ;;
  startTime <- now ;;
  response <- makeRequest (WEB_URL cfg) [] ;;
  endTime <- now ;;
  let responseTime := endTime - startTime in
  when (negb (statusCode response =? 200))
    (throw (Error ("Web frontend failed with status " ++ string_of_Z (statusCode response)))) ;;
  (if responseTime >? 10000 then
     log ("  " ++ colors.yellow ++ "⚠️  Web response time is slow: "
          ++ string_of_Z responseTime ++ "ms" ++ colors.reset) colors.reset
   else
     log ("  " ++ colors.green ++ "✓ Web response time: "
          ++ string_of_Z responseTime ++ "ms" ++ colors.reset) colors.reset) ;;
  let html := body response in
  let checks := [
    ("DOCTYPE", "<!DOCTYPE html>");
    ("HTML tag", "<html");
    ("Head section", "<head");
    ("Body section", "<body");
    ("Title tag", "<title")
  ] in
  for_each checks
    (fun '(check_name, pattern) (_ : unit) =>
       when (negb (regex_test_i pattern html))
         (throw (Error ("Web HTML missing " ++ check_name))))
    tt ;;
  log ("  " ++ colors.green ++ "✓ Web HTML structure is valid" ++ colors.reset) colors.reset ;;
  ret (VNumber responseTime).

Definition testFullStackCommunication : M (World Env) value :=
  log (colors.cyan ++ "Testing Full Stack Communication..." ++ colors.reset) colors.reset ;;
  response <- makeRequest (WEB_URL cfg ++ "/health") [] ;;
  when (negb (statusCode response =? 200))
    (throw (Error ("Health page failed with status " ++ string_of_Z (statusCode response)))) ;;
  let html := body response in
  when (negb (includes html "Health Check") && negb (includes html "health"))
    (throw (Error "Health page does not contain expected health check content")) ;;
  log ("  " ++ colors.green ++ "✓ Full stack communication working" ++ colors.reset)
      colors.reset ;;
  ret VUndefined.

Definition testServiceDependencies : M (World Env) value :=
  log (colors.cyan ++ "Testing Service Dependencies..." ++ colors.reset) colors.reset ;;
  response <- makeRequest (API_URL cfg ++ "/health/detailed") [] ;;
  when (negb (statusCode response =? 200))
    (throw (Error ("Service dependencies check failed with status "
                   ++ string_of_Z (statusCode response)))) ;;
  data <- parse (body response) ;;
  services <- get_prop data "services" ;;
  when (negb (truthy services))
    (throw (Error "No services information in detailed health response")) ;;
  let requiredServices := ["api"; "database"] in
  for_each requiredServices
    (fun service (_ : unit) =>
       v <- get_prop services service ;;
       when (negb (truthy v))
         (throw (Error ("Missing service status for: " ++ service))))
    tt ;;
  log ("  " ++ colors.green ++ "✓ All service dependencies healthy" ++ colors.reset)
      colors.reset ;;
  ret VUndefined.

(** [v.includes(x)] with a string argument, on whatever [v] is. *)
Definition method_includes {S} (v : value) (x : string) : M S bool :=
  match v with
  | VArray items => ret (existsb (fun item => is_string item x) items)
  | VString s => ret (includes s x)
  | VUndefined | VNull =>
      throw (TypeError "Cannot read properties of undefined (reading 'includes')")
  | _ => throw (TypeError "data.cors_origins.includes is not a function")
  end.

(** [v.join(sep)] *)
Definition method_join {S} (v : value) (sep : string) : M S string :=
  match v with
  | VArray items =>
      match array_join sep items with
      | Some joined => ret joined
      | None => throw (TypeError "Cannot convert object to primitive value")
      end
  | VUndefined | VNull =>
      throw (TypeError "Cannot read properties of undefined (reading 'join')")
  | _ => throw (TypeError "data.cors_origins.join is not a function")
  end.

Definition testEnvironmentConfig : M (World Env) value :=
  log (colors.cyan ++ "Testing Environment Configuration..." ++ colors.reset) colors.reset ;;
  response <- makeRequest (API_URL cfg ++ "/api/status") [] ;;
  when (negb (statusCode response =? 200))
    (throw (Error ("Environment config check failed with status "
                   ++ string_of_Z (statusCode response)))) ;;
  data <- parse (body response) ;;
  let requiredFields := ["environment"; "cors_origins"; "allowed_hosts"] in
  for_each requiredFields
    (fun field (_ : unit) =>
       v <- get_prop data field ;;
       when (negb (truthy v))
         (throw (Error ("Missing configuration field: " ++ field))))
    tt ;;
  cors_origins <- get_prop data "cors_origins" ;;
  has_frontend <- method_includes cors_origins (WEB_URL cfg) ;;
  when (negb has_frontend)
    (log ("  " ++ colors.yellow ++ "⚠️  Frontend URL not in CORS origins" ++ colors.reset)
         colors.reset) ;;
  log ("  " ++ colors.green ++ "✓ Environment configuration valid" ++ colors.reset)
      colors.reset ;;
  environment <- get_prop data "environment" ;;
  shown <- show environment ;;
  log ("    Environment: " ++ shown) colors.reset ;;
  joined <- method_join cors_origins ", " ;;
  log ("    CORS Origins: " ++ joined) colors.reset ;;
  ret VUndefined.

Definition testSecurityHeaders : M (World Env) value :=
  log (colors.cyan ++ "Testing Security Headers..." ++ colors.reset) colors.reset ;;
  response <- makeRequest (API_URL cfg ++ "/health") [] ;;
  when (negb (statusCode response =? 200))
    (throw (Error ("Security headers check failed with status "
                   ++ string_of_Z (statusCode response)))) ;;
  let securityChecks := [
    ("Content-Type", "content-type", true);
    ("Server", "server", false)
  ] in
  for_each securityChecks
    (fun '(check_name, header, required) (_ : unit) =>
       let present := match assoc header (headers response) with
                      | Some v => negb (v =? "")%string
                      | None => false
                      end in
       when (required && negb present)
         (throw (Error ("Missing required header: " ++ check_name))))
    tt ;;
  log ("  " ++ colors.green ++ "✓ Security headers present" ++ colors.reset) colors.reset ;;
  ret VUndefined.

Definition tests : list (TestCase Env) := [
  MkTest "API Response Time" testApiResponseTime;
  MkTest "API Content Types" testApiContentTypes;
  MkTest "API Error Handling" testApiErrorHandling;
  MkTest "Web Performance" testWebPerformance;
  MkTest "Full Stack Communication" testFullStackCommunication;
  MkTest "Service Dependencies" testServiceDependencies;
  MkTest "Environment Configuration" testEnvironmentConfig;
  MkTest "Security Headers" testSecurityHeaders
].

(** One turn of the loop of [runIntegrationTests], on the counters and
    the [results] array: one entry is pushed either way. *)
Definition runIntegrationTests_turn (test : TestCase Env)
    (locals : Z * Z * list TestResult) : M (Harness Env) (Z * Z * list TestResult) :=
  let '(passed, failed, results) := locals in
  locals' <-
    try_catch
      (testStartTime <- lift now ;;
       testWithRetry (fn test) (name test) None ;;
       testEndTime <- lift now ;;
       let testDuration := testEndTime - testStartTime in
       ret (passed + 1, failed,
            (results ++ [MkResult (name test) PASSED (Some testDuration) None])%list))
      (fun error =>
         lift (log (colors.red ++ "✗ " ++ name test ++ " failed: "
                    ++ message error ++ colors.reset) colors.reset) ;;
         ret (passed, failed + 1,
              (results ++ [MkResult (name test) FAILED None
                                    (Some (message error))])%list)) ;;
  lift (log "" colors.reset) ;;
  ret locals'.

Definition runIntegrationTests_loop (tests : list (TestCase Env))
    : M (Harness Env) (Z * Z * list TestResult) :=
  for_each tests runIntegrationTests_turn (0, 0, []).

Definition runIntegrationTests_of (tests : list (TestCase Env))
    : M (Harness Env) unit :=
  startTime <- lift now ;;
  lift (log (colors.bold ++ colors.magenta ++ "🔗 Starting Integration Test Suite"
             ++ colors.reset) colors.reset) ;;
  lift (log (colors.magenta ++ "API URL: " ++ API_URL cfg ++ colors.reset) colors.reset) ;;
  lift (log (colors.magenta ++ "Web URL: " ++ WEB_URL cfg ++ colors.reset) colors.reset) ;;
  lift (log "" colors.reset) ;;
  locals <- runIntegrationTests_loop tests ;;
  let '(passed, failed, results) := locals in
  endTime <- lift now ;;
  let totalDuration := seconds_toFixed2 (endTime - startTime) in
  lift (log (colors.bold ++ "📊 Integration Test Results:" ++ colors.reset) colors.reset) ;;
  for_each results
    (fun result (_ : unit) =>
       let shown := match status result with
                    | PASSED => colors.green ++ "✓ PASSED" ++ colors.reset
                    | _ => colors.red ++ "✗ FAILED" ++ colors.reset
                    end in
       let took := match duration result with
                   | Some d => if d =? 0 then "" else " (" ++ string_of_Z d ++ "ms)"
                   | None => ""
                   end in
       lift (log ("  " ++ result_name result ++ ": " ++ shown ++ took) colors.reset))
    tt ;;
  lift (log "" colors.reset) ;;
  lift (log (colors.green ++ "✓ Passed: " ++ string_of_Z passed ++ colors.reset) colors.reset) ;;
  lift (log (colors.red ++ "✗ Failed: " ++ string_of_Z failed ++ colors.reset) colors.reset) ;;
  lift (log ("⏱️  Total Duration: " ++ totalDuration ++ "s") colors.reset) ;;
  lift (log "" colors.reset) ;;
  if failed >? 0 then
    lift (log (colors.red ++ colors.bold ++ "❌ Integration tests failed!" ++ colors.reset)
              colors.reset) ;;
    process_exit 1
  else
    lift (log (colors.green ++ colors.bold ++ "✅ All integration tests passed!"
               ++ colors.reset) colors.reset) ;;
    process_exit 0.

Definition runIntegrationTests : M (Harness Env) unit := runIntegrationTests_of tests.

Definition main : M (Harness Env) unit :=
  try_catch runIntegrationTests
    (fun error =>
       lift (log (colors.red ++ "Integration test suite failed: " ++ message error
                  ++ colors.reset) colors.reset) ;;
       process_exit 1).

End Script.
End Integration.

(* ------------------------------------------------------------------ *)
(** * run-tests.js *)

Module Orchestrator.

(** An entry of [testSuites]: [{ name, fn, required }]. *)
Record Suite (Env : Type) : Type := MkSuite {
  suite_name : string;
  suite_fn : M (World Env) bool;
  suite_required : bool
}.

Arguments MkSuite {Env} suite_name suite_fn suite_required.
Arguments suite_name {Env} s.
Arguments suite_fn {Env} s.
Arguments suite_required {Env} s.

(** An entry of [results]:
    [{ name, status, duration, required }] or
    [{ name, status, error, required }]. *)
Record SuiteResult : Type := MkSuiteResult {
  name : string;
  status : Status;
  duration : option Z;
  error : option string;
  required : bool
}.

(** An entry of [lintResults]. *)
Record LintResult : Type := MkLint {
  lint_name : string;
  lint_passed : bool;
  lint_error : option string
}.

Section Script.
Context {Env : Type} {P : Platform Env}.

Definition CONFIG : Config := {|
  API_URL := env_or "API_URL" "http://localhost:8000";
  WEB_URL := env_or "WEB_URL" "http://localhost:3000";
  TIMEOUT := 30000;
  RETRY_COUNT := 3;
  RETRY_DELAY := 5000
|}.

Variable cfg : Config.

(** [runCommand(command, args, options)]: resolves with 0 when the
    process closes with code 0, rejects otherwise. *)
Definition runCommand (command : string) (args : list string)
    (options : SpawnOptions) : M (World Env) Z :=
  fun w =>
    match child_spawn command args options (env w) with
    | (Closed (Some code), e') =>
        if code =? 0 then (Normal code, MkWorld e' (console w))
        else (Throw (Error ("Command failed with exit code " ++ string_of_Z code)),
              MkWorld e' (console w))
    | (Closed None, e') =>
        (Throw (Error "Command failed with exit code null"), MkWorld e' (console w))
    | (SpawnFailed err, e') =>
        (Throw err, MkWorld e' (console w))
    end.

(** The inner [checkService(url, name)] of [checkServices]: a promise
    whose handlers only ever resolve it, with [res.statusCode === 200]
    on a response and with [false] on an error or after 5000 ms of
    silence.  Only an exception of [http.get] itself, thrown in the
    executor, rejects it. *)
Definition checkService (url : string) (service : string) : M (World Env) bool :=
  fun w =>
    match http_get url [] 5000 (env w) with
    | (Responded sc _ _, e') => (Normal (sc =? 200), MkWorld e' (console w))
    | (Failed _, e') => (Normal false, MkWorld e' (console w))
    | (Silent, e') => (Normal false, MkWorld e' (console w))
    | (Refused err, e') => (Throw err, MkWorld e' (console w))
    end.

Definition checkServices : M (World Env) (bool * bool) :=
  log (colors.blue ++ "🔍 Checking if services are running..." ++ colors.reset) colors.reset ;;
  apiHealthy <- checkService (API_URL cfg ++ "/health") "API" ;;
  webHealthy <- checkService (WEB_URL cfg) "Web" ;;
  (if negb apiHealthy then
     log (colors.yellow ++ "⚠️  API not responding at " ++ API_URL cfg ++ colors.reset)
         colors.reset ;;
     log (colors.yellow ++ "   Make sure to run: npm run dev" ++ colors.reset) colors.reset
   else
     log (colors.green ++ "✓ API is running at " ++ API_URL cfg ++ colors.reset)
         colors.reset) ;;
  (if negb webHealthy then
     log (colors.yellow ++ "⚠️  Web frontend not responding at " ++ WEB_URL cfg
          ++ colors.reset) colors.reset ;;
     log (colors.yellow ++ "   Make sure to run: npm run dev" ++ colors.reset) colors.reset
   else
     log (colors.green ++ "✓ Web frontend is running at " ++ WEB_URL cfg ++ colors.reset)
         colors.reset) ;;
  ret (apiHealthy, webHealthy).

(** [{ ...process.env, API_URL: CONFIG.API_URL, WEB_URL: CONFIG.WEB_URL }]:
    the entries set on top of the inherited environment. *)
Definition both_urls : list (string * string) :=
  [("API_URL", API_URL cfg); ("WEB_URL", WEB_URL cfg)].

Definition runHealthChecks : M (World Env) bool :=
  log (colors.cyan ++ colors.bold ++ "🏥 Running Health Checks" ++ colors.reset)
      colors.reset ;;
  try_catch
    (runCommand "node" ["tests/health-check.js"] (MkSpawnOptions both_urls None) ;;
     log (colors.green ++ "✅ Health checks passed" ++ colors.reset ++ LF) colors.reset ;;
     ret true)
    (fun error =>
       log (colors.red ++ "❌ Health checks failed: " ++ message error ++ colors.reset ++ LF) colors.reset ;;
       ret false).

Definition runIntegrationTests : M (World Env) bool :=
  log (colors.magenta ++ colors.bold ++ "🔗 Running Integration Tests" ++ colors.reset)
      colors.reset ;;
  try_catch
    (runCommand "node" ["tests/integration/run-tests.js"] (MkSpawnOptions both_urls None) ;;
     log (colors.green ++ "✅ Integration tests passed" ++ colors.reset ++ LF) colors.reset ;;
     ret true)
    (fun error =>
       log (colors.red ++ "❌ Integration tests failed: " ++ message error ++ colors.reset ++ LF) colors.reset ;;
       ret false).

Definition cwd : M (World Env) string :=
  fun w => (Normal (process_cwd (env w)), w).

Definition runApiTests : M (World Env) bool :=
  log (colors.blue ++ colors.bold ++ "🐍 Running API Tests (Python/pytest)" ++ colors.reset)
      colors.reset ;;
  try_catch
    (let pythonCommand :=
       if (process_platform =? "win32")%string then "python" else "python3" in
     here <- cwd ;;
     runCommand pythonCommand ["-m"; "pytest"; "tests/api/"; "-v"]
       (MkSpawnOptions [("API_URL", API_URL cfg)] (Some here)) ;;
     log (colors.green ++ "✅ API tests passed" ++ colors.reset ++ LF) colors.reset ;;
     ret true)
    (fun error =>
       log (colors.red ++ "❌ API tests failed: " ++ message error ++ colors.reset)
           colors.reset ;;
       log (colors.yellow
            ++ "💡 Try installing pytest: pip install pytest requests python-dateutil"
            ++ colors.reset ++ LF) colors.reset ;;
       ret false).

Definition runWebTests : M (World Env) bool :=
  log (colors.green ++ colors.bold ++ "🌐 Running Web Tests (Jest)" ++ colors.reset)
      colors.reset ;;
  try_catch
    (here <- cwd ;;
     let webTestsDir := path_join [here; "tests"; "web"] in
     installed <- (fun w => (Normal (fs_existsSync (path_join [webTestsDir; "node_modules"])
                                                   (env w)), w)) ;;
     when (negb installed)
       (log (colors.yellow ++ "📦 Installing web test dependencies..." ++ colors.reset)
            colors.reset ;;
        runCommand "npm" ["install"; "--no-save"] (MkSpawnOptions [] (Some webTestsDir)) ;;
        ret tt) ;;
     runCommand "npm" ["test"] (MkSpawnOptions both_urls (Some webTestsDir)) ;;
     log (colors.green ++ "✅ Web tests passed" ++ colors.reset ++ LF) colors.reset ;;
     ret true)
    (fun error =>
       log (colors.red ++ "❌ Web tests failed: " ++ message error ++ colors.reset ++ LF) colors.reset ;;
       ret false).

Definition runLinting : M (World Env) bool :=
  log (colors.cyan ++ colors.bold ++ "🔍 Running Linting" ++ colors.reset) colors.reset ;;
  let lintResults := [] in
  lintResults <-
    try_catch
      (log (colors.cyan ++ "Linting API (Python)..." ++ colors.reset) colors.reset ;;
       runCommand "cd" ["apps/api && poetry run ruff check ."] (MkSpawnOptions [] None) ;;
       ret (lintResults ++ [MkLint "API (Python)" true None])%list)
      (fun error =>
         log (colors.yellow ++ "⚠️  API linting issues found" ++ colors.reset) colors.reset ;;
         ret (lintResults ++ [MkLint "API (Python)" false (Some (message error))])%list) ;;
  lintResults <-
    try_catch
      (log (colors.cyan ++ "Linting Web (ESLint)..." ++ colors.reset) colors.reset ;;
       runCommand "cd" ["apps/web && npm run lint"] (MkSpawnOptions [] None) ;;
       ret (lintResults ++ [MkLint "Web (ESLint)" true None])%list)
      (fun error =>
         log (colors.yellow ++ "⚠️  Web linting issues found" ++ colors.reset) colors.reset ;;
         ret (lintResults ++ [MkLint "Web (ESLint)" false (Some (message error))])%list) ;;
  let lintPassed := Z.of_nat (List.length (filter lint_passed lintResults)) in
  let lintFailed :=
    Z.of_nat (List.length (filter (fun r => negb (lint_passed r)) lintResults)) in
  log (colors.cyan ++ "Linting Summary: " ++ colors.green ++ string_of_Z lintPassed
       ++ " passed" ++ colors.reset ++ ", " ++ colors.red ++ string_of_Z lintFailed
       ++ " failed" ++ colors.reset ++ LF) colors.reset ;;
  ret (lintFailed =? 0).

(** The [testSuites] array of [runAllTests]. *)
Definition testSuites : list (Suite Env) := [
  MkSuite "Health Checks" runHealthChecks true;
  MkSuite "Integration Tests" runIntegrationTests true;
  MkSuite "API Tests" runApiTests false;
  MkSuite "Web Tests" runWebTests false;
  MkSuite "Linting" runLinting false
].

(** One turn of the loop of [runAllTests] over the suites: the suite
    runs and its entry is pushed onto [results]. *)
Definition runAllTests_turn (suite : Suite Env) (results : list SuiteResult)
    : M (World Env) (list SuiteResult) :=
  try_catch
    (suiteStartTime <- now ;;
     passed <- suite_fn suite ;;
     suiteEndTime <- now ;;
     let duration := suiteEndTime - suiteStartTime in
     ret (results ++ [MkSuiteResult (suite_name suite)
                        (if passed then PASSED else FAILED)
                        (Some duration) None (suite_required suite)])%list)
    (fun error =>
       ret (results ++ [MkSuiteResult (suite_name suite) ERROR None
                          (Some (message error)) (suite_required suite)])%list).

(** What follows the pre-flight probe in [runAllTests]; [healthy] is
    what [checkServices] resolved with, destructured into two constants
    that nothing reads. *)
Definition runAllTests_after_preflight (healthy : bool * bool)
    (testSuites : list (Suite Env)) : M (World Env) (list SuiteResult) :=
  let '(apiHealthy, webHealthy) := healthy in
  log "" colors.reset ;;
  for_each testSuites runAllTests_turn [].

(** The first half of [runAllTests]: the banner, the pre-flight probe
    and the loop that fills [results]. *)
Definition runAllTests_suites (testSuites : list (Suite Env))
    : M (World Env) (list SuiteResult) :=
  log (colors.bold ++ colors.white ++ "🚀 Full-Stack Test Suite Runner" ++ colors.reset)
      colors.reset ;;
  log (colors.white ++ "API URL: " ++ API_URL cfg ++ colors.reset) colors.reset ;;
  log (colors.white ++ "Web URL: " ++ WEB_URL cfg ++ colors.reset) colors.reset ;;
  log (colors.white ++ "Timeout: " ++ string_of_Z (TIMEOUT cfg) ++ "ms" ++ colors.reset)
      colors.reset ;;
  log "" colors.reset ;;
  healthy <- checkServices ;;
  runAllTests_after_preflight healthy testSuites.

(** The counters of the summary: [totalPassed], [totalFailed],
    [requiredFailed]. *)
Definition Totals : Type := (Z * Z * Z)%type.

(** One turn of [results.forEach] in the summary: a line for the
    suite, and the counters. *)
Definition summary_turn (result : SuiteResult) (totals : Totals) : M (World Env) Totals :=
  let '(totalPassed, totalFailed, requiredFailed) := totals in
  let shown := match status result with
               | PASSED => colors.green ++ "✓ PASSED" ++ colors.reset
               | FAILED => colors.red ++ "✗ FAILED" ++ colors.reset
               | ERROR => colors.yellow ++ "⚠ ERROR" ++ colors.reset
               end in
  let took := match duration result with
              | Some d => if d =? 0 then "" else " (" ++ seconds_toFixed2 d ++ "s)"
              | None => ""
              end in
  let req := if required result then " [REQUIRED]" else " [OPTIONAL]" in
  log (name result ++ req ++ ": " ++ shown ++ took) colors.reset ;;
  match error result with
  | Some e => when (negb (e =? "")%string) (log ("  Error: " ++ e) colors.reset)
  | None => ret tt
  end ;;
  match status result with
  | PASSED => ret (totalPassed + 1, totalFailed, requiredFailed)
  | _ =>
      if required result
      then ret (totalPassed, totalFailed + 1, requiredFailed + 1)
      else ret (totalPassed, totalFailed + 1, requiredFailed)
  end.

(** The second half of [runAllTests]: the summary and the verdict. *)
Definition runAllTests_summary (startTime : Z) (results : list SuiteResult)
    : M (World Env) unit :=
  endTime <- now ;;
  let totalDuration := seconds_toFixed2 (endTime - startTime) in
  log (colors.bold ++ colors.white ++ "📊 Test Suite Summary" ++ colors.reset) colors.reset ;;
  log (colors.white ++ "==================================================" ++ colors.reset)
      colors.reset ;;
  totals <- for_each results summary_turn ((0, 0, 0) : Totals) ;;
  let '(totalPassed, totalFailed, requiredFailed) := totals in
  log "" colors.reset ;;
  log (colors.green ++ "✓ Passed: " ++ string_of_Z totalPassed ++ colors.reset) colors.reset ;;
  log (colors.red ++ "✗ Failed: " ++ string_of_Z totalFailed ++ colors.reset) colors.reset ;;
  log (colors.red ++ "✗ Required Failed: " ++ string_of_Z requiredFailed ++ colors.reset)
      colors.reset ;;
  log ("⏱️  Total Duration: " ++ totalDuration ++ "s") colors.reset ;;
  log "" colors.reset ;;
  if requiredFailed >? 0 then
    log (colors.red ++ colors.bold ++ "❌ Test suite failed! " ++ string_of_Z requiredFailed
         ++ " required test(s) failed." ++ colors.reset) colors.reset ;;
    log (colors.yellow ++ "💡 Make sure all services are running with: npm run dev"
         ++ colors.reset) colors.reset ;;
    process_exit 1
  else if totalFailed >? 0 then
    log (colors.yellow ++ colors.bold ++ "⚠️  Test suite completed with "
         ++ string_of_Z totalFailed ++ " optional test(s) failed." ++ colors.reset)
        colors.reset ;;
    process_exit 0
  else
    log (colors.green ++ colors.bold ++ "✅ All tests passed!" ++ colors.reset)
        colors.reset ;;
    process_exit 0.

(** [runAllTests()] over a list of suites; the script runs [testSuites]. *)
Definition runAllTests_of (testSuites : list (Suite Env)) : M (World Env) unit :=
  startTime <- now ;;
  results <- runAllTests_suites testSuites ;;
  runAllTests_summary startTime results.

Definition runAllTests : M (World Env) unit := runAllTests_of testSuites.

(** [fn().then(passed => process.exit(passed ? 0 : 1))] *)
Definition exit_with (suite : M (World Env) bool) : M (World Env) unit :=
  passed <- suite ;;
  process_exit (if passed then 0 else 1).

(** [runAllTests().catch(...)], the run without a flag. *)
Definition run_all : M (World Env) unit :=
  try_catch runAllTests
    (fun error =>
       log (colors.red ++ "Test runner failed: " ++ message error ++ colors.reset)
           colors.reset ;;
       process_exit 1).

Definition has_flag (args : list string) (flag : string) : bool :=
  existsb (String.eqb flag) args.

(** The script itself, on the command-line arguments [args]. *)
Definition main (args : list string) : M (World Env) unit :=
  if has_flag args "--help" || has_flag args "-h" then
    log (colors.bold ++ "Full-Stack Test Suite Runner" ++ colors.reset) colors.reset ;;
    log "" colors.reset ;;
    log "Usage: node run-tests.js [options]" colors.reset ;;
    log "" colors.reset ;;
    log "Options:" colors.reset ;;
    log "  --health-only    Run only health checks" colors.reset ;;
    log "  --integration    Run only integration tests" colors.reset ;;
    log "  --api-only       Run only API tests" colors.reset ;;
    log "  --web-only       Run only web tests" colors.reset ;;
    log "  --lint-only      Run only linting" colors.reset ;;
    log "  --no-services    Skip service availability check" colors.reset ;;
    log "  --help, -h       Show this help message" colors.reset ;;
    log "" colors.reset ;;
    log "Environment Variables:" colors.reset ;;
    log "  API_URL          API base URL (default: http://localhost:8000)" colors.reset ;;
    log "  WEB_URL          Web base URL (default: http://localhost:3000)" colors.reset ;;
    log "" colors.reset ;;
    process_exit 0
  else if has_flag args "--health-only" then exit_with runHealthChecks
  else if has_flag args "--integration" then exit_with runIntegrationTests
  else if has_flag args "--api-only" then exit_with runApiTests
  else if has_flag args "--web-only" then exit_with runWebTests
  else if has_flag args "--lint-only" then exit_with runLinting
  else run_all.

(** The exit code a run of the script ends with, if it ends with one. *)
Definition exit_code {A} (r : Completion A * World Env) : option Z :=
  match fst r with
  | Exit code => Some code
  | _ => None
  end.

End Script.
End Orchestrator.

(* ------------------------------------------------------------------ *)
(** * A scripted platform

    A concrete [Platform] to run the scripts on: services that answer
    from a script, subprocesses with prescribed exit codes, a clock that
    only [sleep] moves, and a reader for the JSON texts the services
    send. *)

Module Scripted.

Definition DQ : ascii := ascii_of_nat 34.

(** The JSON string literal for [s] (no escapes needed in [s]). *)
Definition quoted (s : string) : string := String DQ (s ++ String DQ EmptyString).

Definition is_ws (c : ascii) : bool :=
  match nat_of_ascii c with
  | 32%nat | 9%nat | 10%nat | 13%nat => true
  | _ => false
  end.

Fixpoint skip_ws (s : string) : string :=
  match s with
  | String c rest => if is_ws c then skip_ws rest else s
  | EmptyString => s
  end.

Definition unescape (c : ascii) : option ascii :=
  if Ascii.eqb c DQ then Some DQ
  else if Ascii.eqb c "\" then Some "\"%char
  else if Ascii.eqb c "/" then Some "/"%char
  else if Ascii.eqb c "n" then Some (ascii_of_nat 10)
  else if Ascii.eqb c "r" then Some (ascii_of_nat 13)
  else if Ascii.eqb c "t" then Some (ascii_of_nat 9)
  else if Ascii.eqb c "b" then Some (ascii_of_nat 8)
  else if Ascii.eqb c "f" then Some (ascii_of_nat 12)
  else None.

(** The characters of a string literal after its opening quote, and the
    text after its closing quote. *)
Fixpoint read_string (s : string) : option (string * string) :=
  match s with
  | EmptyString => None
  | String c rest =>
      if Ascii.eqb c DQ then Some (EmptyString, rest)
      else if Ascii.eqb c "\" then
        match rest with
        | String e rest' =>
            match unescape e, read_string rest' with
            | Some ch, Some (str, r) => Some (String ch str, r)
            | _, _ => None
            end
        | EmptyString => None
        end
      else
        match read_string rest with
        | Some (str, r) => Some (String c str, r)
        | None => None
        end
  end.

Definition digit (c : ascii) : option Z :=
  let n := nat_of_ascii c in
  if (48 <=? n)%nat && (n <=? 57)%nat then Some (Z.of_nat (n - 48)) else None.

Fixpoint read_digits (s : string) (acc : Z) : Z * string :=
  match s with
  | String c rest =>
      match digit c with
      | Some d => read_digits rest (10 * acc + d)
      | None => (acc, s)
      end
  | EmptyString => (acc, s)
  end.

(** An integer literal; fractions and exponents are not read. *)
Definition read_number (s : string) : option (value * string) :=
  let '(negative, s1) :=
    match s with
    | String "-" rest => (true, rest)
    | _ => (false, s)
    end in
  match s1 with
  | String c _ =>
      match digit c with
      | Some _ =>
          let '(n, rest) := read_digits s1 0 in
          match rest with
          | String "." _ | String "e" _ | String "E" _ => None
          | _ => Some (VNumber (if negative then - n else n), rest)
          end
      | None => None
      end
  | EmptyString => None
  end.

(** A later duplicate of a key replaces the earlier value. *)
Fixpoint set_field (k : string) (v : value) (fields : list (string * value))
    : list (string * value) :=
  match fields with
  | [] => [(k, v)]
  | (k', v') :: rest =>
      if (k =? k')%string then (k, v) :: rest else (k', v') :: set_field k v rest
  end.

Fixpoint read_value (fuel : nat) (s : string) : option (value * string) :=
  match fuel with
  | O => None
  | S fuel' =>
      match skip_ws s with
      | EmptyString => None
      | String c rest =>
          if Ascii.eqb c "{" then
            match skip_ws rest with
            | String "}" rest' => Some (VObject [], rest')
            | _ => read_members fuel' rest []
            end
          else if Ascii.eqb c "[" then
            match skip_ws rest with
            | String "]" rest' => Some (VArray [], rest')
            | _ => read_elements fuel' rest []
            end
          else if Ascii.eqb c DQ then
            match read_string rest with
            | Some (str, r) => Some (VString str, r)
            | None => None
            end
          else if prefix "true" (String c rest) then
            Some (VBool true, substring 4 (String.length rest) (String c rest))
          else if prefix "false" (String c rest) then
            Some (VBool false, substring 5 (String.length rest) (String c rest))
          else if prefix "null" (String c rest) then
            Some (VNull, substring 4 (String.length rest) (String c rest))
          else read_number (String c rest)
      end
  end

with read_members (fuel : nat) (s : string) (acc : list (string * value))
    : option (value * string) :=
  match fuel with
  | O => None
  | S fuel' =>
      match skip_ws s with
      | String c rest =>
          if Ascii.eqb c DQ then
            match read_string rest with
            | Some (k, r1) =>
                match skip_ws r1 with
                | String ":" r2 =>
                    match read_value fuel' r2 with
                    | Some (v, r3) =>
                        match skip_ws r3 with
                        | String "," r4 => read_members fuel' r4 (set_field k v acc)
                        | String "}" r4 => Some (VObject (set_field k v acc), r4)
                        | _ => None
                        end
                    | None => None
                    end
                | _ => None
                end
            | None => None
            end
          else None
      | EmptyString => None
      end
  end

with read_elements (fuel : nat) (s : string) (acc : list value)
    : option (value * string) :=
  match fuel with
  | O => None
  | S fuel' =>
      match read_value fuel' s with
      | Some (v, r1) =>
          match skip_ws r1 with
          | String "," r2 => read_elements fuel' r2 (acc ++ [v])
          | String "]" r2 => Some (VArray (acc ++ [v]), r2)
          | _ => None
          end
      | None => None
      end
  end.

(** The [JSON_parse] of the scripted platform, for the texts its
    services send: objects, arrays, strings whose escapes are the
    one-character ones, integers, [true], [false] and [null].
    A text outside of these is refused with a [SyntaxError] whose
    message is fixed; the programs are defined over the [JSON_parse] of
    any platform, and this one serves the runs on concrete inputs. *)
Definition read_json (text : string) : value + exn :=
  match read_value (2 * String.length text + 2) text with
  | Some (v, rest) =>
      match skip_ws rest with
      | EmptyString => inl v
      | _ => inr (SyntaxError "Unexpected non-whitespace character after JSON")
      end
  | None => inr (SyntaxError "Unexpected token in JSON")
  end.

(** The outside world of a scripted run: per URL the answers still to
    come (the last one repeats), per command line how the process ends,
    the paths that exist, the clock. *)
Record Env : Type := MkEnv {
  routes : list (string * list NetEvent);
  commands : list (string * SpawnEvent);
  files : list string;
  clock : Z
}.

Definition unreachable : NetEvent :=
  Failed (Error "connect ECONNREFUSED").

Fixpoint advance (url : string) (rs : list (string * list NetEvent))
    : list (string * list NetEvent) :=
  match rs with
  | [] => []
  | (u, evs) :: rest =>
      if (url =? u)%string then
        match evs with
        | _ :: (_ :: _) as more => (u, more) :: rest
        | _ => (u, evs) :: rest
        end
      else (u, evs) :: advance url rest
  end.

Definition answer (url : string) (e : Env) : NetEvent * Env :=
  match assoc url (routes e) with
  | Some (ev :: _) =>
      (ev, MkEnv (advance url (routes e)) (commands e) (files e) (clock e))
  | _ => (unreachable, e)
  end.

Definition two_digits (n : Z) : string :=
  (if n <? 10 then "0" else "") ++ string_of_Z n.

#[global] Instance platform : Platform Env := {|
  process_env := fun _ => None;
  process_platform := "linux";
  process_version := "v22.0.0";
  process_arch := "x64";
  http_get := fun url _ _ e => answer url e;
  timer_elapse := fun ms e => MkEnv (routes e) (commands e) (files e) (clock e + ms);
  Date_now := clock;
  JSON_parse := read_json;
  seconds_toFixed2 := fun ms => string_of_Z (ms / 1000) ++ "." ++ two_digits ((ms mod 1000) / 10);
  child_spawn := fun command args _ e =>
    (match assoc (join " " (command :: args)) (commands e) with
     | Some ev => ev
     | None => Closed (Some 1)
     end, e);
  fs_existsSync := fun p e => existsb (String.eqb p) (files e);
  path_join := join "/";
  process_cwd := fun _ => "/app"
|}.

(** A service that answers every request to [url] with [ev]. *)
Definition serving (served : list (string * NetEvent)) : Env :=
  MkEnv (map (fun '(u, ev) => (u, [ev])) served) [] [] 0.

Definition start (e : Env) : Harness Env := MkHarness (MkWorld e []) [].

End Scripted.

(* ------------------------------------------------------------------ *)
(** * Notions the properties are stated with *)

(** A computation that throws whatever the state it starts from: a test
    case that fails on every invocation. *)
Definition always_fails {S A} (m : M S A) : Prop :=
  forall s, exists e s', m s = (Throw e, s').

(** A computation that returns whatever the state it starts from. *)
Definition always_passes {S A} (m : M S A) : Prop :=
  forall s, exists a s', m s = (Normal a, s').

(** A computation that never calls [process.exit]. *)
Definition never_exits {S A} (m : M S A) : Prop :=
  forall s code s', m s <> (Exit code, s').

(** What the retry wrapper leaves in the history when attempt after
    attempt fails with the errors [errs]: an invocation per error, a
    delay between two invocations, none after the last. *)
Fixpoint retry_trace (testName : string) (delay : Z) (errs : list exn) : list Event :=
  match errs with
  | [] => []
  | [e] => [Invoked testName (Throw e)]
  | e :: rest => Invoked testName (Throw e) :: Slept delay :: retry_trace testName delay rest
  end.

(** The test cases of a history, in the order of their first call. *)
Fixpoint invoked_names (evs : list Event) : list string :=
  match evs with
  | [] => []
  | Invoked n _ :: rest => n :: invoked_names rest
  | Slept _ :: rest => invoked_names rest
  end.

(** What one turn of the retry loop adds to the history: the
    invocation, and the delay when the loop goes on after a failure. *)
Definition one_attempt (testName : string) (delay : Z) (seg : list Event) : Prop :=
  exists c, seg = [Invoked testName c]
            \/ seg = [Invoked testName c; Slept delay].

(** A segment of the history that belongs to one test case: it starts
    with an invocation of that test and invokes no other. *)
Definition segment_of (testName : string) (seg : list Event) : Prop :=
  (exists c rest, seg = Invoked testName c :: rest) /\
  Forall (eq testName) (invoked_names seg).

(** Between the harness states [h] and [h'] the wrapper went through
    exactly [N] attempts at [testName], every one of them failed, and
    the last of them threw [e]. *)
Definition exhausted {Env} (testName : string) (N : Z) (h h' : Harness Env)
    (e : exn) : Prop :=
  exists evs,
    history h' = (history h ++ evs)%list /\
    Z.of_nat (invocations evs) = N /\
    (forall ev, In ev evs -> is_invoked ev = true ->
       exists e', ev = Invoked testName (Throw e')) /\
    last evs (Slept 0) = Invoked testName (Throw e).

(** What a run of a suite loop keeps, turn after turn: the counters add
    up to the number of test cases gone through, and, when the wrapper
    attempts at all, the history is made of one segment per test case,
    in order. *)
Definition suite_progress {Env} (cfg : Config) (h0 : Harness Env)
    (done : list (TestCase Env)) (passed failed : Z) (h : Harness Env) : Prop :=
  passed + failed = Z.of_nat (List.length done) /\
  0 <= passed /\ 0 <= failed /\
  (1 <= RETRY_COUNT cfg ->
   exists segs,
     history h = (history h0 ++ List.concat segs)%list /\
     Forall2 (fun t seg => segment_of (name t) seg) done segs).

(** How many entries of the integration [results] carry a status. *)
Definition count_status (st : Status) (results : list Integration.TestResult) : nat :=
  List.length (filter (fun r => Status_eqb (Integration.status r) st) results).

(** The verdict the orchestrator draws from [results]: a required suite
    that did not pass. *)
Definition required_failure (r : Orchestrator.SuiteResult) : bool :=
  Orchestrator.required r && negb (Status_eqb (Orchestrator.status r) PASSED).

(** What the exit code is decided on: per suite, its status and whether
    it is required. *)
Definition verdict (r : Orchestrator.SuiteResult) : Status * bool :=
  (Orchestrator.status r, Orchestrator.required r).

(** The verdicts of the suites of a run of [runAllTests] from [w]. *)
Definition suite_verdicts {Env} `{Platform Env} (cfg : Config) (w : World Env)
    : option (list (Status * bool)) :=
  match fst (Orchestrator.runAllTests_suites cfg (Orchestrator.testSuites cfg) w) with
  | Normal results => Some (map verdict results)
  | _ => None
  end.

(** The worlds in which a loop over [suites] that starts in [w]
    reaches each of them: a suite is called in the world the one before
    it left. *)
Fixpoint reached {Env} (suites : list (Orchestrator.Suite Env)) (w : World Env)
    : list (Orchestrator.Suite Env * World Env) :=
  match suites with
  | [] => []
  | s :: rest => (s, w) :: reached rest (snd (Orchestrator.suite_fn s w))
  end.

(** The suite called [suite] passed in the run of [runAllTests] from
    [w]: the run got to its loop over the suites, in the world [w0]
    that the banner and the pre-flight check leave (where the run
    without any suite ends), and the function of that suite, called in
    the world the loop reaches it in, returned [true]. *)
Definition suite_passed {Env} `{Platform Env} (cfg : Config) (w : World Env)
    (suite : string) : Prop :=
  exists w0,
    Orchestrator.runAllTests_suites cfg [] w = (Normal [], w0) /\
    exists s w_s,
      In (s, w_s) (reached (Orchestrator.testSuites cfg) w0) /\
      Orchestrator.suite_name s = suite /\
      fst (Orchestrator.suite_fn s w_s) = Normal true.

(** The two probes of the pre-flight check in the world [w]: the one of
    the API, and the one of the web frontend after it. *)
Definition api_probe {Env} `{Platform Env} (cfg : Config) (w : World Env) : NetEvent :=
  fst (http_get (API_URL cfg ++ "/health") [] 5000 (env w)).

Definition web_probe {Env} `{Platform Env} (cfg : Config) (w : World Env) : NetEvent :=
  fst (http_get (WEB_URL cfg) [] 5000
         (snd (http_get (API_URL cfg ++ "/health") [] 5000 (env w)))).

(** What a probe of the pre-flight check came to: the service answered
    with status 200. *)
Definition answered_200 (ev : NetEvent) : bool :=
  match ev with
  | Responded sc _ _ => sc =? 200
  | Failed _ | Silent | Refused _ => false
  end.

(** The request went out: [http.get] took the URL. *)
Definition sent (ev : NetEvent) : Prop :=
  match ev with
  | Refused _ => False
  | _ => True
  end.

(** The property [k] of an object with the fields [fields];
    [undefined] when it has none of that name. *)
Definition field (fields : list (string * value)) (k : string) : value :=
  match assoc k fields with
  | Some x => x
  | None => VUndefined
  end.

(** A spawned process that closed with exit code 0. *)
Definition closed_ok (ev : SpawnEvent) : bool :=
  match ev with
  | Closed (Some code) => code =? 0
  | _ => false
  end.

(** A computation that throws whatever the state it starts from, and
    only errors that satisfy [Q]. *)
Definition always_fails_with {S A} (Q : exn -> Prop) (m : M S A) : Prop :=
  forall s, exists e s', m s = (Throw e, s') /\ Q e.

(** The command-line flags [run-tests.js] reads. *)
Definition known_flags : list string :=
  ["--help"; "-h"; "--health-only"; "--integration"; "--api-only"; "--web-only";
   "--lint-only"]%string.

(** The messages the help branch of [run-tests.js] passes to [log],
    in order. *)
Definition usage : list string :=
  [colors.bold ++ "Full-Stack Test Suite Runner" ++ colors.reset;
   "";
   "Usage: node run-tests.js [options]";
   "";
   "Options:";
   "  --health-only    Run only health checks";
   "  --integration    Run only integration tests";
   "  --api-only       Run only API tests";
   "  --web-only       Run only web tests";
   "  --lint-only      Run only linting";
   "  --no-services    Skip service availability check";
   "  --help, -h       Show this help message";
   "";
   "Environment Variables:";
   "  API_URL          API base URL (default: http://localhost:8000)";
   "  WEB_URL          Web base URL (default: http://localhost:3000)";
   ""]%string.

(** The lines [log(message)] puts on the console for [messages], the
    colour left at its default. *)
Definition printed (messages : list string) : list string :=
  map (fun message => (colors.reset ++ message ++ colors.reset)%string) messages.

(** What the retry wrapper leaves in the history for attempts that
    failed with the errors [errs] and were followed by another one:
    per error the invocation and the delay after it. *)
Definition failed_attempts (testName : string) (delay : Z) (errs : list exn)
    : list Event :=
  flat_map (fun e => [Invoked testName (Throw e); Slept delay]) errs.

(** The outcome of the retry loop whose last invocation ended as [c]. *)
Definition loop_outcome {R} (r : R) (c : Completion unit)
    : Completion (Ctl unit R) :=
  match c with
  | Normal _ => Normal (Return r)
  | Throw e => Throw e
  | Exit code => Exit code
  end.

(** Whatever is requested in the environment [e], the answer is a
    response with status [sc]. *)
Definition answers_all_with {Env} `{Platform Env} (sc : Z) (e : Env) : Prop :=
  forall url options timeout, exists hs b e',
    http_get url options timeout e = (Responded sc hs b, e').

(** The test case [t] throws, in the world [w], an error whose message
    ends with the status code [sc]. *)
Definition reports_status {Env} (sc : Z) (w : World Env) (t : TestCase Env) : Prop :=
  exists what w', fn t w = (Throw (Error (what ++ string_of_Z sc)), w').

(** A response with status [sc] and headers [hs] is a 200 whose
    [content-type] is there, not empty, and contains [expectedType]. *)
Definition answers_with_type (sc : Z) (hs : list (string * string))
    (expectedType : string) : Prop :=
  sc = 200 /\
  exists contentType,
    assoc "content-type" hs = Some contentType /\
    contentType <> EmptyString /\
    includes contentType expectedType = true.

(* ------------------------------------------------------------------ *)
(** * Scenarios on the scripted platform *)

(** A test function that is down for good. *)
Definition always_down : M (World Scripted.Env) value :=
  throw (Error "connect ECONNREFUSED").

(** The suite of the spec's scenario: A fails, B passes. *)
Definition test_A : TestCase Scripted.Env := MkTest "A" always_down.
Definition test_B : TestCase Scripted.Env := MkTest "B" (ret VUndefined).

(** A world where nothing is listening. *)
Definition idle : Harness Scripted.Env := Scripted.start (Scripted.serving []).

(** [CONFIG] of tests/health-check.js with no attempt configured. *)
Definition CONFIG_without_attempts : Config := {|
  API_URL := API_URL HealthCheck.CONFIG;
  WEB_URL := WEB_URL HealthCheck.CONFIG;
  TIMEOUT := TIMEOUT HealthCheck.CONFIG;
  RETRY_COUNT := 0;
  RETRY_DELAY := RETRY_DELAY HealthCheck.CONFIG
|}.

(** The body [{"environment":"dev"}] of the spec's scenario, and a
    status endpoint that serves it. *)
Definition body_environment_dev : string :=
  "{" ++ Scripted.quoted "environment" ++ ":" ++ Scripted.quoted "dev" ++ "}".

Definition serving_environment_dev : World Scripted.Env :=
  MkWorld
    (Scripted.serving
       [("http://localhost:8000/api/status", Responded 200 [] body_environment_dev)])
    [].

(** A health endpoint that answers 200 with [{"status":"degraded"}]. *)
Definition body_status_degraded : string :=
  "{" ++ Scripted.quoted "status" ++ ":" ++ Scripted.quoted "degraded" ++ "}".

Definition serving_status_degraded : World Scripted.Env :=
  MkWorld
    (Scripted.serving
       [("http://localhost:8000/health", Responded 200 [] body_status_degraded)])
    [].

(** Two worlds for the orchestrator.  In both, the health and
    integration scripts exit with 0 and the API tests with 1; in the
    first both services answer the pre-flight probe, in the second
    nothing listens. *)
Definition subprocesses : list (string * SpawnEvent) := [
  ("node tests/health-check.js", Closed (Some 0));
  ("node tests/integration/run-tests.js", Closed (Some 0));
  ("python3 -m pytest tests/api/ -v", Closed (Some 1));
  ("npm test", Closed (Some 0))
].

Definition services_up : World Scripted.Env :=
  MkWorld
    (Scripted.MkEnv
       [("http://localhost:8000/health", [Responded 200 [] EmptyString]);
        ("http://localhost:3000", [Responded 200 [] EmptyString])]
       subprocesses ["/app/tests/web/node_modules"] 0)
    [].

Definition services_down : World Scripted.Env :=
  MkWorld (Scripted.MkEnv [] subprocesses ["/app/tests/web/node_modules"] 0) [].

(** The API answers the probe, the web frontend stays silent. *)
Definition web_silent : World Scripted.Env :=
  MkWorld
    (Scripted.MkEnv
       [("http://localhost:8000/health", [Responded 200 [] EmptyString]);
        ("http://localhost:3000", [Silent])]
       subprocesses [] 0)
    [].

(** [http.get] does not take the URL of the web frontend. *)
Definition web_url_refused : World Scripted.Env :=
  MkWorld
    (Scripted.MkEnv
       [("http://localhost:8000/health", [Responded 200 [] EmptyString]);
        ("http://localhost:3000", [Refused (TypeError "Invalid URL")])]
       subprocesses [] 0)
    [].

(** A world where the health script exits with 1. *)
Definition health_script_fails : World Scripted.Env :=
  MkWorld
    (Scripted.MkEnv []
       [("node tests/health-check.js", Closed (Some 1));
        ("node tests/integration/run-tests.js", Closed (Some 0))]
       [] 0)
    [].

(** Services in good health: every endpoint the health and integration
    scripts ask for answers as they expect. *)
Definition json_headers : list (string * string) :=
  [("content-type", "application/json")]%string.

Definition body_status_ok : string :=
  "{" ++ Scripted.quoted "status" ++ ":" ++ Scripted.quoted "ok" ++ "}".

Definition body_detailed_health : string :=
  "{" ++ Scripted.quoted "status" ++ ":" ++ Scripted.quoted "healthy" ++ ","
  ++ Scripted.quoted "timestamp" ++ ":" ++ Scripted.quoted "2025-01-01T00:00:00Z" ++ ","
  ++ Scripted.quoted "version" ++ ":" ++ Scripted.quoted "1.0.0" ++ ","
  ++ Scripted.quoted "python_version" ++ ":" ++ Scripted.quoted "3.13" ++ ","
  ++ Scripted.quoted "system" ++ ":" ++ Scripted.quoted "Linux" ++ ","
  ++ Scripted.quoted "services" ++ ":{"
  ++ Scripted.quoted "api" ++ ":" ++ Scripted.quoted "healthy" ++ ","
  ++ Scripted.quoted "database" ++ ":" ++ Scripted.quoted "connected" ++ "}}".

(** [cors_origins] is an empty array here. *)
Definition body_api_status : string :=
  "{" ++ Scripted.quoted "api_status" ++ ":" ++ Scripted.quoted "operational" ++ ","
  ++ Scripted.quoted "environment" ++ ":" ++ Scripted.quoted "dev" ++ ","
  ++ Scripted.quoted "cors_origins" ++ ":[],"
  ++ Scripted.quoted "allowed_hosts" ++ ":[" ++ Scripted.quoted "localhost" ++ "]}".

Definition body_not_found : string :=
  "{" ++ Scripted.quoted "detail" ++ ":" ++ Scripted.quoted "Not Found" ++ "}".

Definition body_docs : string :=
  "<!DOCTYPE html><html><head><title>Swagger UI</title></head><body></body></html>".

Definition body_web : string :=
  "<!DOCTYPE html><html><head><title>App</title></head><body>Health Check</body></html>".

Definition healthy_routes : list (string * list NetEvent) := [
  ("http://localhost:8000/health", [Responded 200 json_headers body_status_ok]);
  ("http://localhost:8000/health/detailed",
   [Responded 200 json_headers body_detailed_health]);
  ("http://localhost:8000/api/status", [Responded 200 json_headers body_api_status]);
  ("http://localhost:8000/docs",
   [Responded 200 [("content-type", "text/html; charset=utf-8")] body_docs]);
  ("http://localhost:8000/nonexistent-endpoint",
   [Responded 404 json_headers body_not_found]);
  ("http://localhost:3000", [Responded 200 [("content-type", "text/html")] body_web]);
  ("http://localhost:3000/health",
   [Responded 200 [("content-type", "text/html")] body_web])
]%string.

Definition healthy_services : World Scripted.Env :=
  MkWorld (Scripted.MkEnv healthy_routes [] [] 0) [].

(** An API whose bodies pass every check of the test cases and hold,
    where a string is expected, an object with a [toString] property of
    its own: [{"toString":1}]. *)
Definition own_toString : string :=
  "{" ++ Scripted.quoted "toString" ++ ":1}".

Definition body_detailed_health_unprintable : string :=
  "{" ++ Scripted.quoted "status" ++ ":" ++ Scripted.quoted "healthy" ++ ","
  ++ Scripted.quoted "timestamp" ++ ":" ++ Scripted.quoted "2025-01-01T00:00:00Z" ++ ","
  ++ Scripted.quoted "version" ++ ":" ++ Scripted.quoted "1.0.0" ++ ","
  ++ Scripted.quoted "python_version" ++ ":" ++ own_toString ++ ","
  ++ Scripted.quoted "system" ++ ":" ++ Scripted.quoted "Linux" ++ ","
  ++ Scripted.quoted "services" ++ ":{"
  ++ Scripted.quoted "api" ++ ":" ++ Scripted.quoted "healthy" ++ ","
  ++ Scripted.quoted "database" ++ ":" ++ Scripted.quoted "connected" ++ "}}".

Definition body_api_status_unprintable : string :=
  "{" ++ Scripted.quoted "api_status" ++ ":" ++ Scripted.quoted "operational" ++ ","
  ++ Scripted.quoted "environment" ++ ":" ++ own_toString ++ ","
  ++ Scripted.quoted "cors_origins" ++ ":[],"
  ++ Scripted.quoted "allowed_hosts" ++ ":[" ++ Scripted.quoted "localhost" ++ "]}".

Definition unprintable_values : World Scripted.Env :=
  MkWorld
    (Scripted.serving
       [("http://localhost:8000/health/detailed",
         Responded 200 json_headers body_detailed_health_unprintable);
        ("http://localhost:8000/api/status",
         Responded 200 json_headers body_api_status_unprintable)]%string)
    [].

(** An API that is still starting: the first request to its health
    endpoint is refused, the later ones are answered. *)
Definition api_waking_up : Harness Scripted.Env :=
  Scripted.start
    (Scripted.MkEnv
       [("http://localhost:8000/health",
         [Scripted.unreachable; Responded 200 json_headers body_status_ok])]%string
       [] [] 0).

(** A platform like the scripted one, except that every request is
    answered with an empty response of status [sc]. *)
Definition out_of_service (sc : Z) : Platform Scripted.Env := {|
  process_env := @process_env _ Scripted.platform;
  process_platform := @process_platform _ Scripted.platform;
  process_version := @process_version _ Scripted.platform;
  process_arch := @process_arch _ Scripted.platform;
  http_get := fun _ _ _ e => (Responded sc [] EmptyString, e);
  timer_elapse := @timer_elapse _ Scripted.platform;
  Date_now := @Date_now _ Scripted.platform;
  JSON_parse := @JSON_parse _ Scripted.platform;
  seconds_toFixed2 := @seconds_toFixed2 _ Scripted.platform;
  child_spawn := @child_spawn _ Scripted.platform;
  fs_existsSync := @fs_existsSync _ Scripted.platform;
  path_join := @path_join _ Scripted.platform;
  process_cwd := @process_cwd _ Scripted.platform
|}.

(** A platform like the scripted one, on which a request takes [ms]
    milliseconds to come to its event. *)
Definition slow_network (ms : Z) : Platform Scripted.Env := {|
  process_env := @process_env _ Scripted.platform;
  process_platform := @process_platform _ Scripted.platform;
  process_version := @process_version _ Scripted.platform;
  process_arch := @process_arch _ Scripted.platform;
  http_get := fun url _ _ e =>
    (fst (Scripted.answer url e),
     @timer_elapse _ Scripted.platform ms (snd (Scripted.answer url e)));
  timer_elapse := @timer_elapse _ Scripted.platform;
  Date_now := @Date_now _ Scripted.platform;
  JSON_parse := @JSON_parse _ Scripted.platform;
  seconds_toFixed2 := @seconds_toFixed2 _ Scripted.platform;
  child_spawn := @child_spawn _ Scripted.platform;
  fs_existsSync := @fs_existsSync _ Scripted.platform;
  path_join := @path_join _ Scripted.platform;
  process_cwd := @process_cwd _ Scripted.platform
|}.

(* ------------------------------------------------------------------ *)
(** * The monad: how computations compose *)

#[local] Open Scope list_scope.

Create HintDb no_exit.

Section Monad.
Context {S : Type}.

Lemma bind_normal {A B} (m : M S A) (k : A -> M S B) s a s' :
  m s = (Normal a, s') -> bind m k s = k a s'.
Proof. intros H. unfold bind. rewrite H. reflexivity. Qed.

Lemma bind_throw {A B} (m : M S A) (k : A -> M S B) s e s' :
  m s = (Throw e, s') -> bind m k s = (Throw e, s').
Proof. intros H. unfold bind. rewrite H. reflexivity. Qed.

Lemma bind_exit {A B} (m : M S A) (k : A -> M S B) s c s' :
  m s = (Exit c, s') -> bind m k s = (Exit c, s').
Proof. intros H. unfold bind. rewrite H. reflexivity. Qed.

Lemma try_catch_normal {A} (m : M S A) h s a s' :
  m s = (Normal a, s') -> try_catch m h s = (Normal a, s').
Proof. intros H. unfold try_catch. rewrite H. reflexivity. Qed.

Lemma try_catch_throw {A} (m : M S A) h s e s' :
  m s = (Throw e, s') -> try_catch m h s = h e s'.
Proof. intros H. unfold try_catch. rewrite H. reflexivity. Qed.

Lemma never_exits_ret {A} (a : A) : never_exits (ret (S := S) a).
Proof. intros s c s' H. discriminate H. Qed.

Lemma never_exits_throw {A} e : never_exits (throw (S := S) (A := A) e).
Proof. intros s c s' H. discriminate H. Qed.

Lemma never_exits_bind {A B} (m : M S A) (k : A -> M S B) :
  never_exits m -> (forall a, never_exits (k a)) -> never_exits (bind m k).
Proof.
  intros Hm Hk s c s'. unfold bind.
  destruct (m s) as [[a | e | c'] s1] eqn:E.
  - apply Hk.
  - discriminate.
  - exfalso. exact (Hm _ _ _ E).
Qed.

Lemma never_exits_try_catch {A} (m : M S A) h :
  never_exits m -> (forall e, never_exits (h e)) -> never_exits (try_catch m h).
Proof.
  intros Hm Hh s c s'. unfold try_catch.
  destruct (m s) as [[a | e | c'] s1] eqn:E.
  - discriminate.
  - apply Hh.
  - exfalso. exact (Hm _ _ _ E).
Qed.

Lemma never_exits_when b (m : M S unit) :
  never_exits m -> never_exits (when b m).
Proof. intros Hm. destruct b; [exact Hm | apply never_exits_ret]. Qed.

Lemma never_exits_if {A} (b : bool) (m1 m2 : M S A) :
  never_exits m1 -> never_exits m2 -> never_exits (if b then m1 else m2).
Proof. destruct b; auto. Qed.

Lemma never_exits_for_of {X L R} (xs : list X) (body : X -> L -> M S (Ctl L R)) :
  (forall x l, never_exits (body x l)) ->
  forall l, never_exits (for_of xs body l).
Proof.
  intros Hb. induction xs as [| x rest IH]; intros l; cbn [for_of].
  - apply never_exits_ret.
  - apply never_exits_bind; [apply Hb |].
    intros [l' | r]; [apply IH | apply never_exits_ret].
Qed.

Lemma never_exits_for_each {X L} (xs : list X) (body : X -> L -> M S L) :
  (forall x l, never_exits (body x l)) ->
  forall l, never_exits (for_each xs body l).
Proof.
  intros Hb l. unfold for_each.
  apply never_exits_bind.
  - apply never_exits_for_of. intros x l0.
    apply never_exits_bind; [apply Hb | intros; apply never_exits_ret].
  - intros [l' | []]. apply never_exits_ret.
Qed.

Lemma never_exits_get_prop v k : never_exits (get_prop (S := S) v k).
Proof.
  destruct v; cbn [get_prop];
    first [apply never_exits_ret | apply never_exits_throw].
Qed.

Lemma for_each_nil {X L} (body : X -> L -> M S L) l s :
  for_each [] body l s = (Normal l, s).
Proof. reflexivity. Qed.

Lemma for_each_cons {X L} (body : X -> L -> M S L) x rest l s :
  for_each (x :: rest) body l s
  = bind (body x l) (fun l' => for_each rest body l') s.
Proof.
  unfold for_each. cbn [for_of]. unfold bind, ret.
  destruct (body x l s) as [[l' | e | c] s']; reflexivity.
Qed.

(** A loop without [return] whose body always completes runs to its end
    and keeps whatever the body keeps: [P done locals state] relates
    the elements gone through to the locals and the state reached, [Q]
    is what is known of every element. *)
Lemma for_each_invariant {X L} (body : X -> L -> M S L)
    (P : list X -> L -> S -> Prop) (Q : X -> Prop) :
  (forall done x l s, Q x -> P done l s ->
     exists l' s', body x l s = (Normal l', s') /\ P (done ++ [x]) l' s') ->
  forall xs, Forall Q xs ->
  forall done l s, P done l s ->
     exists l' s', for_each xs body l s = (Normal l', s') /\ P (done ++ xs) l' s'.
Proof.
  intros Hbody xs HQ.
  induction HQ as [| x rest Hx _ IH]; intros done l s HP.
  - exists l, s. rewrite app_nil_r. split; [reflexivity | exact HP].
  - destruct (Hbody done x l s Hx HP) as (l1 & s1 & Hrun & HP1).
    destruct (IH (done ++ [x]) l1 s1 HP1) as (l2 & s2 & Hrest & HP2).
    exists l2, s2. split.
    + rewrite for_each_cons, (bind_normal _ _ _ _ _ Hrun). exact Hrest.
    + rewrite <- app_assoc in HP2. exact HP2.
Qed.

End Monad.

#[local] Hint Resolve never_exits_ret never_exits_throw never_exits_bind
  never_exits_try_catch never_exits_when never_exits_if never_exits_for_each
  never_exits_get_prop : no_exit.

(* ------------------------------------------------------------------ *)
(** * The retry wrapper *)

Lemma retry_trace_cons testName delay e e' rest :
  retry_trace testName delay (e :: e' :: rest)
  = Invoked testName (Throw e) :: Slept delay :: retry_trace testName delay (e' :: rest).
Proof. reflexivity. Qed.

Lemma invocations_retry_trace testName delay errs :
  invocations (retry_trace testName delay errs) = List.length errs.
Proof.
  induction errs as [| e [| e' rest] IH]; try reflexivity.
  rewrite retry_trace_cons. unfold invocations in *.
  cbn [filter is_invoked List.length]. rewrite IH. reflexivity.
Qed.

Lemma delays_retry_trace testName delay errs :
  delays (retry_trace testName delay errs) = Nat.pred (List.length errs).
Proof.
  induction errs as [| e [| e' rest] IH]; try reflexivity.
  rewrite retry_trace_cons. unfold delays in *.
  cbn [filter is_slept List.length]. rewrite IH. reflexivity.
Qed.

Lemma last_retry_trace testName delay errs d0 d1 :
  errs <> [] ->
  last (retry_trace testName delay errs) d0 = Invoked testName (Throw (last errs d1)).
Proof.
  induction errs as [| e [| e' rest] IH]; intros Hne.
  - contradiction.
  - reflexivity.
  - rewrite retry_trace_cons.
    transitivity (last (retry_trace testName delay (e' :: rest)) d0).
    + destruct rest; reflexivity.
    + rewrite IH by discriminate. reflexivity.
Qed.

Lemma retry_trace_all_failed testName delay errs ev :
  In ev (retry_trace testName delay errs) ->
  ev = Slept delay \/ exists e, In e errs /\ ev = Invoked testName (Throw e).
Proof.
  induction errs as [| e [| e' rest] IH]; intros Hin.
  - contradiction.
  - destruct Hin as [<- | []]. right. exists e. split; [left |]; reflexivity.
  - rewrite retry_trace_cons in Hin. destruct Hin as [<- | [<- | Hin]].
    + right. exists e. split; [left |]; reflexivity.
    + left. reflexivity.
    + destruct (IH Hin) as [-> | (e0 & Hin0 & ->)]; [left; reflexivity |].
      right. exists e0. split; [right; exact Hin0 | reflexivity].
Qed.

Lemma indices_seq (n : nat) : indices (Z.of_nat n) = map Z.of_nat (seq 0 n).
Proof. unfold indices. rewrite Nat2Z.id. reflexivity. Qed.

Lemma indices_nonpositive n : n <= 0 -> indices n = [].
Proof.
  intros H. unfold indices.
  replace (Z.to_nat n) with 0%nat by lia. reflexivity.
Qed.

Section Wrapper.
Context {Env : Type} {P : Platform Env}.
Variable cfg : Config.
Context {A : Type}.
Variable testFn : M (World Env) A.
Variable testName : string.

(** The turn of the loop when the invocation returns. *)
Lemma health_attempt_passes retries i h a w' :
  testFn (world h) = (Normal a, w') ->
  HealthCheck.testWithRetry_attempt cfg testFn testName retries i tt h
  = (Normal (Return tt), MkHarness w' (history h ++ [Invoked testName (Normal tt)])).
Proof.
  intros H. unfold HealthCheck.testWithRetry_attempt, try_catch, bind, invoke.
  rewrite H. reflexivity.
Qed.

Lemma health_attempt_exits retries i h c w' :
  testFn (world h) = (Exit c, w') ->
  HealthCheck.testWithRetry_attempt cfg testFn testName retries i tt h
  = (Exit c, MkHarness w' (history h ++ [Invoked testName (Exit c)])).
Proof.
  intros H. unfold HealthCheck.testWithRetry_attempt, try_catch, bind, invoke.
  rewrite H. reflexivity.
Qed.

(** The last turn rethrows what the invocation threw. *)
Lemma health_attempt_rethrows retries i h e w' :
  testFn (world h) = (Throw e, w') ->
  i = retries - 1 ->
  HealthCheck.testWithRetry_attempt cfg testFn testName retries i tt h
  = (Throw e, MkHarness w' (history h ++ [Invoked testName (Throw e)])).
Proof.
  intros H ->. unfold HealthCheck.testWithRetry_attempt, try_catch, bind, invoke.
  rewrite H. cbn [forget]. rewrite Z.eqb_refl. reflexivity.
Qed.

(** Any earlier turn logs, sleeps and goes on. *)
Lemma health_attempt_retries retries i h e w' :
  testFn (world h) = (Throw e, w') ->
  i <> retries - 1 ->
  exists w'',
    HealthCheck.testWithRetry_attempt cfg testFn testName retries i tt h
    = (Normal (Continue tt),
       MkHarness w'' (history h ++ [Invoked testName (Throw e); Slept (RETRY_DELAY cfg)])).
Proof.
  intros H Hi. unfold HealthCheck.testWithRetry_attempt, try_catch, bind, invoke.
  rewrite H. cbn [forget].
  destruct (Z.eqb_spec i (retries - 1)) as [Heq | _]; [contradiction |].
  eexists. unfold when, ret, lift, log, HealthCheck.sleep. cbn.
  rewrite <- app_assoc. reflexivity.
Qed.

(** With every invocation failing, the loop from index [k] on, [S m]
    turns before [retries], ends in the error of its last invocation. *)
Lemma health_loop_exhausts retries m :
  always_fails testFn ->
  forall k h,
    Z.of_nat k + Z.of_nat (S m) = retries ->
    exists errs w',
      List.length errs = S m /\
      for_of (map Z.of_nat (seq k (S m)))
        (HealthCheck.testWithRetry_attempt cfg testFn testName retries) tt h
      = (Throw (last errs (Error EmptyString)),
         MkHarness w' (history h ++ retry_trace testName (RETRY_DELAY cfg) errs)).
Proof.
  intros Hfail. induction m as [| m IH]; intros k h Hk.
  - destruct (Hfail (world h)) as (e & w' & Hrun).
    exists [e], w'. split; [reflexivity |].
    cbn [seq map for_of].
    apply bind_throw, health_attempt_rethrows; [exact Hrun | lia].
  - destruct (Hfail (world h)) as (e & w' & Hrun).
    destruct (health_attempt_retries retries (Z.of_nat k) h e w' Hrun) as (w1 & Hstep);
      [lia |].
    destruct (IH (S k) (MkHarness w1
                (history h ++ [Invoked testName (Throw e); Slept (RETRY_DELAY cfg)])))
      as (errs & w2 & Hlen & Hloop); [lia |].
    exists (e :: errs), w2. split; [cbn; lia |].
    change (seq k (S (S m))) with (k :: seq (S k) (S m)).
    cbn [map for_of]. rewrite (bind_normal _ _ _ _ _ Hstep).
    rewrite Hloop. destruct errs as [| e' rest]; [discriminate Hlen |].
    rewrite retry_trace_cons. cbn [history]. rewrite <- app_assoc.
    reflexivity.
Qed.

(** The wrapper of [tests/health-check.js] on a test that always fails. *)
Lemma health_retry_exhausts retries_arg h :
  let N := default_arg retries_arg (RETRY_COUNT cfg) in
  1 <= N ->
  always_fails testFn ->
  exists errs w',
    Z.of_nat (List.length errs) = N /\
    HealthCheck.testWithRetry cfg testFn testName retries_arg h
    = (Throw (last errs (Error EmptyString)),
       MkHarness w' (history h ++ retry_trace testName (RETRY_DELAY cfg) errs)).
Proof.
  intros N HN Hfail.
  destruct (health_loop_exhausts N (Nat.pred (Z.to_nat N)) Hfail 0%nat h)
    as (errs & w' & Hlen & Hloop); [lia |].
  exists errs, w'. split; [lia |].
  unfold HealthCheck.testWithRetry. fold N. unfold indices.
  replace (Z.to_nat N) with (S (Nat.pred (Z.to_nat N))) by lia.
  apply bind_throw. exact Hloop.
Qed.

(** With no turn to take the wrapper returns at once and touches
    nothing. *)
Lemma health_retry_skips retries_arg h :
  default_arg retries_arg (RETRY_COUNT cfg) <= 0 ->
  HealthCheck.testWithRetry cfg testFn testName retries_arg h = (Normal tt, h).
Proof.
  intros H. unfold HealthCheck.testWithRetry.
  rewrite (indices_nonpositive _ H). reflexivity.
Qed.

Lemma health_attempt_history retries i h :
  exists seg,
    one_attempt testName (RETRY_DELAY cfg) seg /\
    history (snd (HealthCheck.testWithRetry_attempt cfg testFn testName retries i tt h))
    = history h ++ seg.
Proof.
  destruct (testFn (world h)) as [[a | e | c] w'] eqn:Hrun.
  - rewrite (health_attempt_passes retries i h a w' Hrun).
    eexists. split; [exists (Normal tt); left |]; reflexivity.
  - destruct (Z.eq_dec i (retries - 1)) as [Hi | Hi].
    + rewrite (health_attempt_rethrows retries i h e w' Hrun Hi).
      eexists. split; [exists (Throw e); left |]; reflexivity.
    + destruct (health_attempt_retries retries i h e w' Hrun Hi) as (w1 & ->).
      eexists. split; [exists (Throw e); right |]; reflexivity.
  - rewrite (health_attempt_exits retries i h c w' Hrun).
    eexists. split; [exists (Exit c); left |]; reflexivity.
Qed.

Lemma one_attempt_names seg :
  one_attempt testName (RETRY_DELAY cfg) seg -> Forall (eq testName) (invoked_names seg).
Proof.
  intros (c & [-> | ->]); cbn; repeat constructor.
Qed.

Lemma invoked_names_app evs1 evs2 :
  invoked_names (evs1 ++ evs2) = invoked_names evs1 ++ invoked_names evs2.
Proof.
  induction evs1 as [| [n c | ms] rest IH]; cbn; [reflexivity | f_equal |]; exact IH.
Qed.

Lemma health_loop_history retries xs :
  forall h, exists seg,
    history (snd (for_of xs
      (HealthCheck.testWithRetry_attempt cfg testFn testName retries) tt h))
    = history h ++ seg /\
    Forall (eq testName) (invoked_names seg) /\
    (xs <> [] -> exists c rest, seg = Invoked testName c :: rest).
Proof.
  induction xs as [| i rest IH]; intros h.
  - exists []. cbn. rewrite app_nil_r. repeat split; [constructor | congruence].
  - destruct (health_attempt_history retries i h) as (seg1 & Hone & Hhist).
    cbn [for_of]. unfold bind at 1.
    destruct (HealthCheck.testWithRetry_attempt cfg testFn testName retries i tt h)
      as [[[[] | []] | e | c] h1] eqn:Hstep; cbn [snd] in Hhist.
    + destruct (IH h1) as (seg2 & Hhist2 & Hnames2 & _).
      exists (seg1 ++ seg2). rewrite Hhist2, Hhist, app_assoc.
      split; [reflexivity |]. split.
      * rewrite invoked_names_app. apply Forall_app.
        split; [apply one_attempt_names; exact Hone | exact Hnames2].
      * intros _. destruct Hone as (c1 & [-> | ->]); do 2 eexists; reflexivity.
    + exists seg1. cbn [ret snd]. split; [exact Hhist |].
      split; [apply one_attempt_names; exact Hone |].
      intros _. destruct Hone as (c1 & [-> | ->]); do 2 eexists; reflexivity.
    + exists seg1. cbn [snd]. split; [exact Hhist |].
      split; [apply one_attempt_names; exact Hone |].
      intros _. destruct Hone as (c1 & [-> | ->]); do 2 eexists; reflexivity.
    + exists seg1. cbn [snd]. split; [exact Hhist |].
      split; [apply one_attempt_names; exact Hone |].
      intros _. destruct Hone as (c1 & [-> | ->]); do 2 eexists; reflexivity.
Qed.

(** Whatever the test does, a wrapper with at least one attempt leaves
    a segment of this test behind, and the world is all else it
    changes. *)
Lemma health_retry_history retries_arg h :
  1 <= default_arg retries_arg (RETRY_COUNT cfg) ->
  exists seg,
    segment_of testName seg /\
    history (snd (HealthCheck.testWithRetry cfg testFn testName retries_arg h))
    = history h ++ seg.
Proof.
  intros HN. unfold HealthCheck.testWithRetry.
  set (N := default_arg retries_arg (RETRY_COUNT cfg)) in *.
  destruct (health_loop_history N (indices N) h) as (seg & Hhist & Hnames & Hfirst).
  exists seg. split.
  - split; [| exact Hnames]. apply Hfirst.
    unfold indices. replace (Z.to_nat N) with (S (Nat.pred (Z.to_nat N))) by lia.
    discriminate.
  - unfold bind.
    destruct (for_of (indices N) _ tt h) as [[c | e | c] h1]; exact Hhist.
Qed.

Lemma health_attempt_never_exits retries i :
  never_exits testFn ->
  never_exits (HealthCheck.testWithRetry_attempt cfg testFn testName retries i tt).
Proof.
  intros Hne h c h' Habs.
  destruct (testFn (world h)) as [[a | e | c0] w'] eqn:Hrun.
  - rewrite (health_attempt_passes retries i h a w' Hrun) in Habs. discriminate.
  - destruct (Z.eq_dec i (retries - 1)) as [Hi | Hi].
    + rewrite (health_attempt_rethrows retries i h e w' Hrun Hi) in Habs. discriminate.
    + destruct (health_attempt_retries retries i h e w' Hrun Hi) as (w1 & Hstep).
      rewrite Hstep in Habs. discriminate.
  - exact (Hne _ _ _ Hrun).
Qed.

Lemma health_retry_never_exits retries_arg :
  never_exits testFn ->
  never_exits (HealthCheck.testWithRetry cfg testFn testName retries_arg).
Proof.
  intros Hne. unfold HealthCheck.testWithRetry.
  apply never_exits_bind; [| intros; apply never_exits_ret].
  apply never_exits_for_of. intros i []. apply health_attempt_never_exits, Hne.
Qed.

(** ** The wrapper of [tests/ci-health-check.js] *)

Lemma ci_attempt_passes retries i h a w' :
  testFn (world h) = (Normal a, w') ->
  CIHealthCheck.testWithRetry_attempt cfg testFn testName retries i tt h
  = (Normal (Return (VBool true)),
     MkHarness w' (history h ++ [Invoked testName (Normal tt)])).
Proof.
  intros H. unfold CIHealthCheck.testWithRetry_attempt, try_catch, bind, invoke.
  rewrite H. reflexivity.
Qed.

Lemma ci_attempt_exits retries i h c w' :
  testFn (world h) = (Exit c, w') ->
  CIHealthCheck.testWithRetry_attempt cfg testFn testName retries i tt h
  = (Exit c, MkHarness w' (history h ++ [Invoked testName (Exit c)])).
Proof.
  intros H. unfold CIHealthCheck.testWithRetry_attempt, try_catch, bind, invoke.
  rewrite H. reflexivity.
Qed.

(** The last turn logs the error and returns [false]: nothing is
    thrown. *)
Lemma ci_attempt_gives_up retries i h e w' :
  testFn (world h) = (Throw e, w') ->
  i = retries - 1 ->
  exists w'',
    CIHealthCheck.testWithRetry_attempt cfg testFn testName retries i tt h
    = (Normal (Return (VBool false)),
       MkHarness w'' (history h ++ [Invoked testName (Throw e)])).
Proof.
  intros H ->. unfold CIHealthCheck.testWithRetry_attempt, try_catch, bind, invoke.
  rewrite H. cbn [forget]. rewrite Z.eqb_refl.
  eexists. unfold ret, lift, log. cbn. reflexivity.
Qed.

Lemma ci_attempt_retries retries i h e w' :
  testFn (world h) = (Throw e, w') ->
  i <> retries - 1 ->
  exists w'',
    CIHealthCheck.testWithRetry_attempt cfg testFn testName retries i tt h
    = (Normal (Continue tt),
       MkHarness w'' (history h ++ [Invoked testName (Throw e); Slept (RETRY_DELAY cfg)])).
Proof.
  intros H Hi. unfold CIHealthCheck.testWithRetry_attempt, try_catch, bind, invoke.
  rewrite H. cbn [forget].
  destruct (Z.eqb_spec i (retries - 1)) as [Heq | _]; [contradiction |].
  eexists. unfold ret, lift, log, CIHealthCheck.sleep. cbn.
  rewrite <- app_assoc. reflexivity.
Qed.

Lemma ci_loop_exhausts retries m :
  always_fails testFn ->
  forall k h,
    Z.of_nat k + Z.of_nat (S m) = retries ->
    exists errs w',
      List.length errs = S m /\
      for_of (map Z.of_nat (seq k (S m)))
        (CIHealthCheck.testWithRetry_attempt cfg testFn testName retries) tt h
      = (Normal (Return (VBool false)),
         MkHarness w' (history h ++ retry_trace testName (RETRY_DELAY cfg) errs)).
Proof.
  intros Hfail. induction m as [| m IH]; intros k h Hk.
  - destruct (Hfail (world h)) as (e & w' & Hrun).
    destruct (ci_attempt_gives_up retries (Z.of_nat k) h e w' Hrun) as (w1 & Hstep);
      [lia |].
    exists [e], w1. split; [reflexivity |].
    cbn [seq map for_of]. rewrite (bind_normal _ _ _ _ _ Hstep). reflexivity.
  - destruct (Hfail (world h)) as (e & w' & Hrun).
    destruct (ci_attempt_retries retries (Z.of_nat k) h e w' Hrun) as (w1 & Hstep);
      [lia |].
    destruct (IH (S k) (MkHarness w1
                (history h ++ [Invoked testName (Throw e); Slept (RETRY_DELAY cfg)])))
      as (errs & w2 & Hlen & Hloop); [lia |].
    exists (e :: errs), w2. split; [cbn; lia |].
    change (seq k (S (S m))) with (k :: seq (S k) (S m)).
    cbn [map for_of]. rewrite (bind_normal _ _ _ _ _ Hstep).
    rewrite Hloop. destruct errs as [| e' rest]; [discriminate Hlen |].
    rewrite retry_trace_cons. cbn [history]. rewrite <- app_assoc.
    reflexivity.
Qed.

(** On a test that always fails this wrapper returns [false]. *)
Lemma ci_retry_exhausts retries_arg h :
  let N := default_arg retries_arg (RETRY_COUNT cfg) in
  1 <= N ->
  always_fails testFn ->
  exists errs w',
    Z.of_nat (List.length errs) = N /\
    CIHealthCheck.testWithRetry cfg testFn testName retries_arg h
    = (Normal (VBool false),
       MkHarness w' (history h ++ retry_trace testName (RETRY_DELAY cfg) errs)).
Proof.
  intros N HN Hfail.
  destruct (ci_loop_exhausts N (Nat.pred (Z.to_nat N)) Hfail 0%nat h)
    as (errs & w' & Hlen & Hloop); [lia |].
  exists errs, w'. split; [lia |].
  unfold CIHealthCheck.testWithRetry. fold N. unfold indices.
  replace (Z.to_nat N) with (S (Nat.pred (Z.to_nat N))) by lia.
  rewrite (bind_normal _ _ _ _ _ Hloop). reflexivity.
Qed.

(** This wrapper throws nothing at all, whatever the test does. *)
Lemma ci_attempt_never_throws retries i h e h' :
  CIHealthCheck.testWithRetry_attempt cfg testFn testName retries i tt h <> (Throw e, h').
Proof.
  intros Habs.
  destruct (testFn (world h)) as [[a | e0 | c0] w'] eqn:Hrun.
  - rewrite (ci_attempt_passes retries i h a w' Hrun) in Habs. discriminate.
  - destruct (Z.eq_dec i (retries - 1)) as [Hi | Hi].
    + destruct (ci_attempt_gives_up retries i h e0 w' Hrun Hi) as (w1 & Hstep).
      rewrite Hstep in Habs. discriminate.
    + destruct (ci_attempt_retries retries i h e0 w' Hrun Hi) as (w1 & Hstep).
      rewrite Hstep in Habs. discriminate.
  - rewrite (ci_attempt_exits retries i h c0 w' Hrun) in Habs. discriminate.
Qed.

Lemma ci_retry_never_throws retries_arg h e h' :
  CIHealthCheck.testWithRetry cfg testFn testName retries_arg h <> (Throw e, h').
Proof.
  unfold CIHealthCheck.testWithRetry.
  generalize (indices (default_arg retries_arg (RETRY_COUNT cfg))) as xs.
  intros xs. revert h.
  assert (Hloop : forall h,
    for_of xs (CIHealthCheck.testWithRetry_attempt cfg testFn testName
                 (default_arg retries_arg (RETRY_COUNT cfg))) tt h <> (Throw e, h')).
  { induction xs as [| i rest IH]; intros h; cbn [for_of]; [discriminate |].
    unfold bind.
    destruct (CIHealthCheck.testWithRetry_attempt cfg testFn testName _ i tt h)
      as [[[[] | v] | e0 | c0] h1] eqn:Hstep.
    - apply IH.
    - discriminate.
    - intros Habs. injection Habs as -> ->.
      exact (ci_attempt_never_throws _ _ _ _ _ Hstep).
    - discriminate. }
  intros h. unfold bind.
  destruct (for_of xs _ tt h) as [[[[] | v] | e0 | c0] h1] eqn:Hrun;
    try discriminate.
  intros Habs. injection Habs as -> ->. exact (Hloop _ Hrun).
Qed.

End Wrapper.

(** The two throwing wrappers are one and the same function. *)
Lemma integration_retry_is_health_retry {Env : Type} {P : Platform Env} (cfg : Config)
    {A : Type} (testFn : M (World Env) A) testName retries_arg :
  Integration.testWithRetry cfg testFn testName retries_arg
  = HealthCheck.testWithRetry cfg testFn testName retries_arg.
Proof. reflexivity. Qed.

Lemma exhausted_by_trace {Env : Type} testName delay (errs : list exn)
    (h h' : Harness Env) :
  errs <> [] ->
  history h' = history h ++ retry_trace testName delay errs ->
  exhausted testName (Z.of_nat (List.length errs)) h h' (last errs (Error EmptyString)).
Proof.
  intros Hne Hhist. exists (retry_trace testName delay errs).
  split; [exact Hhist |]. split; [rewrite invocations_retry_trace; reflexivity |].
  split.
  - intros ev Hin Hinv.
    destruct (retry_trace_all_failed _ _ _ _ Hin) as [-> | (e' & _ & ->)].
    + discriminate Hinv.
    + exists e'. reflexivity.
  - apply last_retry_trace. exact Hne.
Qed.

Lemma nonempty_of_length {X} (xs : list X) N :
  Z.of_nat (List.length xs) = N -> 1 <= N -> xs <> [].
Proof. intros Hlen HN ->. cbn in Hlen. lia. Qed.

Section WrapperLogs.
Context {Env : Type} {P : Platform Env}.
Variable cfg : Config.
Context {A : Type}.
Variable testFn : M (World Env) A.
Variable testName : string.

(** The last turn of the wrapper of tests/ci-health-check.js, in full:
    the line it logs is the last of the console. *)
Lemma ci_attempt_gives_up_logged retries i h e w' :
  testFn (world h) = (Throw e, w') ->
  i = retries - 1 ->
  CIHealthCheck.testWithRetry_attempt cfg testFn testName retries i tt h
  = (Normal (Return (VBool false)),
     MkHarness
       (MkWorld (env w')
          (console w'
           ++ [(colors.reset
                ++ (colors.red ++ "✗ " ++ testName ++ " failed after "
                    ++ string_of_Z retries ++ " attempts: " ++ message e
                    ++ colors.reset)
                ++ colors.reset)%string]))
       (history h ++ [Invoked testName (Throw e)])).
Proof.
  intros H ->. unfold CIHealthCheck.testWithRetry_attempt, try_catch, bind, invoke.
  rewrite H. cbn [forget]. rewrite Z.eqb_refl. reflexivity.
Qed.

Lemma ci_loop_exhausts_logged retries m :
  always_fails testFn ->
  forall k h,
    Z.of_nat k + Z.of_nat (S m) = retries ->
    exists errs h',
      List.length errs = S m /\
      for_of (map Z.of_nat (seq k (S m)))
        (CIHealthCheck.testWithRetry_attempt cfg testFn testName retries) tt h
      = (Normal (Return (VBool false)), h') /\
      history h' = history h ++ retry_trace testName (RETRY_DELAY cfg) errs /\
      last (console (world h')) EmptyString
      = (colors.reset
         ++ (colors.red ++ "✗ " ++ testName ++ " failed after "
             ++ string_of_Z retries ++ " attempts: "
             ++ message (last errs (Error EmptyString)) ++ colors.reset)
         ++ colors.reset)%string.
Proof.
  intros Hfail. induction m as [| m IH]; intros k h Hk.
  - destruct (Hfail (world h)) as (e & w' & Hrun).
    exists [e]. eexists. split; [reflexivity |]. split.
    + cbn [seq map for_of].
      rewrite (bind_normal _ _ _ _ _
                 (ci_attempt_gives_up_logged retries (Z.of_nat k) h e w' Hrun
                    ltac:(lia))).
      reflexivity.
    + split; [reflexivity |]. cbn [world console last].
      apply last_last.
  - destruct (Hfail (world h)) as (e & w' & Hrun).
    destruct (ci_attempt_retries cfg testFn testName retries (Z.of_nat k) h e w' Hrun)
      as (w1 & Hstep); [lia |].
    destruct (IH (S k) (MkHarness w1
                (history h ++ [Invoked testName (Throw e); Slept (RETRY_DELAY cfg)])))
      as (errs & h' & Hlen & Hloop & Hhist & Hlog); [lia |].
    exists (e :: errs), h'. split; [cbn; lia |]. split.
    + change (seq k (S (S m))) with (k :: seq (S k) (S m)).
      cbn [map for_of]. rewrite (bind_normal _ _ _ _ _ Hstep). exact Hloop.
    + destruct errs as [| e' rest]; [discriminate Hlen |].
      split.
      * rewrite Hhist, retry_trace_cons. cbn [history]. rewrite <- app_assoc.
        reflexivity.
      * rewrite Hlog. reflexivity.
Qed.

(** On a test that always fails the wrapper of tests/ci-health-check.js
    returns [false], and the last line it has logged reports the error
    of the last attempt. *)
Lemma ci_retry_exhausts_logged retries_arg h :
  let N := default_arg retries_arg (RETRY_COUNT cfg) in
  1 <= N ->
  always_fails testFn ->
  exists errs h',
    Z.of_nat (List.length errs) = N /\
    CIHealthCheck.testWithRetry cfg testFn testName retries_arg h
    = (Normal (VBool false), h') /\
    history h' = history h ++ retry_trace testName (RETRY_DELAY cfg) errs /\
    last (console (world h')) EmptyString
    = (colors.reset
       ++ (colors.red ++ "✗ " ++ testName ++ " failed after "
           ++ string_of_Z N ++ " attempts: "
           ++ message (last errs (Error EmptyString)) ++ colors.reset)
       ++ colors.reset)%string.
Proof.
  intros N HN Hfail.
  destruct (ci_loop_exhausts_logged N (Nat.pred (Z.to_nat N)) Hfail 0%nat h)
    as (errs & h' & Hlen & Hloop & Hhist & Hlog); [lia |].
  exists errs, h'. split; [lia |]. split; [| split; assumption].
  unfold CIHealthCheck.testWithRetry. fold N. unfold indices.
  replace (Z.to_nat N) with (S (Nat.pred (Z.to_nat N))) by lia.
  rewrite (bind_normal _ _ _ _ _ Hloop). reflexivity.
Qed.

End WrapperLogs.

Section RetryClaims.
Context {Env : Type} {P : Platform Env}.
Variable cfg : Config.
Context {A : Type}.
Variable testFn : M (World Env) A.
Variable testName : string.

(** C2 (amended): for every test function, test name and maxAttempts
    N >= 1, if the test function fails on every invocation, then after
    exactly N consecutive failed attempts the [testWithRetry] of
    tests/health-check.js and of tests/integration/run-tests.js re-raises
    the error of the last attempt and does not return normally, while the
    [testWithRetry] of tests/ci-health-check.js logs that error, in a
    line that is the last of the console when it returns, and returns
    [false] instead of raising. *)
Theorem retry_exhaustion_per_script (retries_arg : option Z) (h : Harness Env) :
  let N := default_arg retries_arg (RETRY_COUNT cfg) in
  1 <= N ->
  always_fails testFn ->
  (exists e h',
     HealthCheck.testWithRetry cfg testFn testName retries_arg h = (Throw e, h') /\
     exhausted testName N h h' e) /\
  (exists e h',
     Integration.testWithRetry cfg testFn testName retries_arg h = (Throw e, h') /\
     exhausted testName N h h' e) /\
  (exists e h',
     CIHealthCheck.testWithRetry cfg testFn testName retries_arg h
     = (Normal (VBool false), h') /\
     exhausted testName N h h' e /\
     last (console (world h')) EmptyString
     = (colors.reset
        ++ (colors.red ++ "✗ " ++ testName ++ " failed after "
            ++ string_of_Z N ++ " attempts: " ++ message e ++ colors.reset)
        ++ colors.reset)%string).
Proof.
  intros N HN Hfail.
  assert (Hhealth : exists e h',
            HealthCheck.testWithRetry cfg testFn testName retries_arg h = (Throw e, h') /\
            exhausted testName N h h' e).
  { destruct (health_retry_exhausts cfg testFn testName retries_arg h HN Hfail)
      as (errs & w' & Hlen & Hrun).
    fold N in Hlen. rewrite <- Hlen. eexists. eexists. split; [exact Hrun |].
    apply exhausted_by_trace with (delay := RETRY_DELAY cfg); [| reflexivity].
    exact (nonempty_of_length errs N Hlen HN). }
  split; [exact Hhealth |]. split.
  - rewrite integration_retry_is_health_retry. exact Hhealth.
  - destruct (ci_retry_exhausts_logged cfg testFn testName retries_arg h HN Hfail)
      as (errs & h' & Hlen & Hrun & Hhist & Hlog).
    fold N in Hlen, Hlog.
    exists (last errs (Error EmptyString)), h'. split; [exact Hrun |].
    split; [| exact Hlog]. rewrite <- Hlen.
    destruct h' as [w' hist']. cbn [history] in Hhist. subst hist'.
    apply exhausted_by_trace with (delay := RETRY_DELAY cfg); [| reflexivity].
    exact (nonempty_of_length errs N Hlen HN).
Qed.

(** C4: for every configured retry count N >= 1, when the test case
    fails on every attempt, [testWithRetry] of tests/health-check.js
    invokes the test function exactly N times and the delay exactly N-1
    times, and the last thing it does is the final failed invocation: no
    delay follows it. *)
Theorem retry_invokes_N_sleeps_N_minus_1 (retries_arg : option Z) (h : Harness Env) :
  let N := default_arg retries_arg (RETRY_COUNT cfg) in
  1 <= N ->
  always_fails testFn ->
  exists e h' evs,
    HealthCheck.testWithRetry cfg testFn testName retries_arg h = (Throw e, h') /\
    history h' = history h ++ evs /\
    Z.of_nat (invocations evs) = N /\
    Z.of_nat (delays evs) = N - 1 /\
    Forall (fun ev => is_slept ev = true -> ev = Slept (RETRY_DELAY cfg)) evs /\
    last evs (Slept 0) = Invoked testName (Throw e).
Proof.
  intros N HN Hfail.
  destruct (health_retry_exhausts cfg testFn testName retries_arg h HN Hfail)
    as (errs & w' & Hlen & Hrun).
  fold N in Hlen.
  exists (last errs (Error EmptyString)).
  eexists. exists (retry_trace testName (RETRY_DELAY cfg) errs).
  split; [exact Hrun |]. split; [reflexivity |].
  split; [rewrite invocations_retry_trace; exact Hlen |].
  split; [rewrite delays_retry_trace; lia |].
  split.
  - apply Forall_forall. intros ev Hin Hslept.
    destruct (retry_trace_all_failed _ _ _ _ Hin) as [-> | (e' & _ & ->)];
      [reflexivity | discriminate Hslept].
  - apply last_retry_trace. exact (nonempty_of_length errs N Hlen HN).
Qed.

End RetryClaims.

Lemma always_down_fails : always_fails always_down.
Proof. intros s. exists (Error "connect ECONNREFUSED"), s. reflexivity. Qed.

(** C2, as the spec has it, fails on tests/ci-health-check.js: three
    failed attempts, and the wrapper returns [false]. *)
Lemma ci_retry_returns_instead_of_raising :
  1 <= 3 /\
  always_fails always_down /\
  fst (CIHealthCheck.testWithRetry CIHealthCheck.CONFIG always_down "API Health"
         (Some 3) (Scripted.start (Scripted.serving [])))
  = Normal (VBool false) /\
  history (snd (CIHealthCheck.testWithRetry CIHealthCheck.CONFIG always_down "API Health"
                  (Some 3) (Scripted.start (Scripted.serving []))))
  = [Invoked "API Health" (Throw (Error "connect ECONNREFUSED")); Slept 2000;
     Invoked "API Health" (Throw (Error "connect ECONNREFUSED")); Slept 2000;
     Invoked "API Health" (Throw (Error "connect ECONNREFUSED"))].
Proof.
  split; [lia |]. split; [exact always_down_fails |].
  split; vm_compute; reflexivity.
Qed.

Lemma retry_exhaustion_per_script_witness :
  1 <= 3 /\
  always_fails always_down /\
  (exists e h',
     HealthCheck.testWithRetry HealthCheck.CONFIG always_down "API Health" None
       (Scripted.start (Scripted.serving [])) = (Throw e, h') /\
     exhausted "API Health" 3 (Scripted.start (Scripted.serving [])) h' e) /\
  (exists e h',
     Integration.testWithRetry HealthCheck.CONFIG always_down "API Health" None
       (Scripted.start (Scripted.serving [])) = (Throw e, h') /\
     exhausted "API Health" 3 (Scripted.start (Scripted.serving [])) h' e) /\
  (exists e h',
     CIHealthCheck.testWithRetry HealthCheck.CONFIG always_down "API Health" None
       (Scripted.start (Scripted.serving [])) = (Normal (VBool false), h') /\
     exhausted "API Health" 3 (Scripted.start (Scripted.serving [])) h' e /\
     last (console (world h')) EmptyString
     = (colors.reset
        ++ (colors.red ++ "✗ " ++ "API Health" ++ " failed after "
            ++ string_of_Z 3 ++ " attempts: " ++ message e ++ colors.reset)
        ++ colors.reset)%string).
Proof.
  split; [lia |]. split; [exact always_down_fails |].
  apply (retry_exhaustion_per_script HealthCheck.CONFIG always_down "API Health" None
           (Scripted.start (Scripted.serving []))).
  - cbn. lia.
  - exact always_down_fails.
Defined.

Lemma retry_invokes_N_sleeps_N_minus_1_witness :
  1 <= 3 /\
  always_fails always_down /\
  exists e h' evs,
    HealthCheck.testWithRetry HealthCheck.CONFIG always_down "API Health" (Some 3)
      (Scripted.start (Scripted.serving [])) = (Throw e, h') /\
    history h' = history (Scripted.start (Scripted.serving [])) ++ evs /\
    Z.of_nat (invocations evs) = 3 /\
    Z.of_nat (delays evs) = 3 - 1 /\
    Forall (fun ev => is_slept ev = true -> ev = Slept (RETRY_DELAY HealthCheck.CONFIG)) evs /\
    last evs (Slept 0) = Invoked "API Health" (Throw e).
Proof.
  split; [lia |]. split; [exact always_down_fails |].
  apply (retry_invokes_N_sleeps_N_minus_1 HealthCheck.CONFIG always_down "API Health"
           (Some 3) (Scripted.start (Scripted.serving []))).
  - cbn. lia.
  - exact always_down_fails.
Defined.

(* ------------------------------------------------------------------ *)
(** * The suite runners *)

Section Suites.
Context {Env : Type} {P : Platform Env}.
Variable cfg : Config.

Lemma lift_log msg color (h : Harness Env) :
  lift (log msg color) h
  = (Normal tt,
     MkHarness (MkWorld (env (world h)) (console (world h) ++ [color ++ msg ++ colors.reset]%string))
               (history h)).
Proof. reflexivity. Qed.

Lemma lift_now (h : Harness Env) :
  lift now h = (Normal (Date_now (env (world h))), MkHarness (world h) (history h)).
Proof. reflexivity. Qed.

(** One turn of the health suite: the wrapper's completion decides which
    counter moves, one of them does, and the history is the wrapper's. *)
Lemma health_turn test passed failed h :
  never_exits (fn test) ->
  exists passed' failed' w',
    HealthCheck.runHealthChecks_turn cfg test (passed, failed) h
    = (Normal (passed', failed'),
       MkHarness w' (history (snd (HealthCheck.testWithRetry cfg (fn test) (name test)
                                     None h)))) /\
    (passed' = passed + 1 /\ failed' = failed \/
     passed' = passed /\ failed' = failed + 1) /\
    (fst (HealthCheck.testWithRetry cfg (fn test) (name test) None h) = Normal tt ->
     passed' = passed + 1 /\ failed' = failed /\
     w' = MkWorld (env (world (snd (HealthCheck.testWithRetry cfg (fn test) (name test)
                                      None h))))
                  (console (world (snd (HealthCheck.testWithRetry cfg (fn test)
                                          (name test) None h)))
                   ++ [colors.reset ++ EmptyString ++ colors.reset]%string)) /\
    (forall e, fst (HealthCheck.testWithRetry cfg (fn test) (name test) None h) = Throw e ->
               passed' = passed /\ failed' = failed + 1).
Proof.
  intros Hne. unfold HealthCheck.runHealthChecks_turn.
  destruct (HealthCheck.testWithRetry cfg (fn test) (name test) None h)
    as [[[] | e | c] h1] eqn:Hrun; cbn [fst snd].
  - exists (passed + 1), failed. eexists. split.
    + unfold bind at 1. rewrite (try_catch_normal _ _ h (passed + 1, failed) h1).
      * unfold bind. rewrite lift_log. cbn [ret history]. reflexivity.
      * rewrite (bind_normal _ _ _ _ _ Hrun). reflexivity.
    + split; [left; split; reflexivity |].
      split; [intros _; repeat split | intros e Habs; discriminate Habs].
  - exists passed, (failed + 1). eexists. split.
    + unfold bind at 1. rewrite (try_catch_throw _ _ h e h1).
      * unfold bind. rewrite !lift_log. cbn [ret history]. reflexivity.
      * rewrite (bind_throw _ _ _ _ _ Hrun). reflexivity.
    + split; [right; split; reflexivity |].
      split; [intros Habs; discriminate Habs | intros e' _; split; reflexivity].
  - exfalso. exact (health_retry_never_exits cfg (fn test) (name test) None Hne _ _ _ Hrun).
Qed.

(** One turn of the integration suite pushes exactly one entry, named
    after the test. *)
Lemma integration_turn test passed failed results h :
  never_exits (fn test) ->
  exists passed' failed' r w',
    Integration.runIntegrationTests_turn cfg test (passed, failed, results) h
    = (Normal (passed', failed', results ++ [r]),
       MkHarness w' (history (snd (Integration.testWithRetry cfg (fn test) (name test)
                                     None (MkHarness (world h) (history h)))))) /\
    (passed' = passed + 1 /\ failed' = failed /\ Integration.status r = PASSED \/
     passed' = passed /\ failed' = failed + 1 /\ Integration.status r = FAILED) /\
    Integration.result_name r = name test /\
    (fst (Integration.testWithRetry cfg (fn test) (name test) None
            (MkHarness (world h) (history h))) = Normal tt ->
     Integration.status r = PASSED /\ passed' = passed + 1) /\
    (forall e, fst (Integration.testWithRetry cfg (fn test) (name test) None
                      (MkHarness (world h) (history h))) = Throw e ->
               Integration.status r = FAILED /\ failed' = failed + 1 /\
               Integration.error r = Some (message e)).
Proof.
  intros Hne. unfold Integration.runIntegrationTests_turn.
  destruct (Integration.testWithRetry cfg (fn test) (name test) None
              (MkHarness (world h) (history h)))
    as [[[] | e | c] h1] eqn:Hrun; cbn [fst snd].
  - do 4 eexists. split.
    + unfold bind, try_catch. rewrite lift_now. cbv beta iota.
      rewrite Hrun. cbv beta iota. rewrite lift_now. cbv beta iota.
      unfold ret at 1. cbv beta iota. rewrite lift_log. cbv beta iota.
      unfold ret. cbn [history]. reflexivity.
    + cbn. split; [left; repeat split |]. split; [reflexivity |].
      split; [intros _; split; reflexivity | intros e Habs; discriminate Habs].
  - do 4 eexists. split.
    + unfold bind, try_catch. rewrite lift_now. cbv beta iota.
      rewrite Hrun. cbv beta iota. rewrite lift_log. cbv beta iota.
      unfold ret at 1. cbv beta iota. rewrite lift_log. cbv beta iota.
      unfold ret. cbn [history]. reflexivity.
    + cbn. split; [right; repeat split |]. split; [reflexivity |].
      split; [intros Habs; discriminate Habs |].
      intros e' He'. injection He' as <-. repeat split.
  - exfalso.
    rewrite integration_retry_is_health_retry in Hrun.
    exact (health_retry_never_exits cfg (fn test) (name test) None Hne _ _ _ Hrun).
Qed.

Lemma suite_progress_start (h0 : Harness Env) : suite_progress cfg h0 [] 0 0 h0.
Proof.
  repeat split; try lia. intros _. exists []. cbn. rewrite app_nil_r.
  split; [reflexivity | constructor].
Qed.

Lemma suite_progress_step h0 done passed failed h test passed' failed' w' h1 :
  suite_progress cfg h0 done passed failed h ->
  (passed' = passed + 1 /\ failed' = failed \/
   passed' = passed /\ failed' = failed + 1) ->
  history h1 = history h ->
  suite_progress cfg h0 (done ++ [test]) passed' failed'
    (MkHarness w' (history (snd (HealthCheck.testWithRetry cfg (fn test) (name test)
                                   None h1)))).
Proof.
  intros (Hsum & Hp & Hf & Hsegs) Hmove Hsame.
  split; [rewrite length_app, Nat2Z.inj_add; cbn; lia |].
  split; [lia |]. split; [lia |].
  intros HN. destruct (Hsegs HN) as (segs & Hhist & Hall).
  destruct (health_retry_history cfg (fn test) (name test) None h1 HN)
    as (seg & Hseg & Hhist1).
  exists (segs ++ [seg]). split.
  - cbn [history]. rewrite Hhist1, Hsame, Hhist, concat_app. cbn [List.concat].
    rewrite app_nil_r, app_assoc. reflexivity.
  - apply Forall2_app; [exact Hall | constructor; [exact Hseg | constructor]].
Qed.

Lemma health_loop_runs tests h :
  Forall (fun t => never_exits (fn t)) tests ->
  exists passed failed h',
    HealthCheck.runHealthChecks_loop cfg tests h = (Normal (passed, failed), h') /\
    suite_progress cfg h tests passed failed h'.
Proof.
  intros Hne.
  destruct (for_each_invariant (HealthCheck.runHealthChecks_turn cfg)
              (fun done '(p, f) h' => suite_progress cfg h done p f h')
              (fun t => never_exits (fn t))) with (xs := tests) (done := @nil (TestCase Env))
              (l := (0, 0)) (s := h)
    as ([p f] & h' & Hrun & HP).
  - intros done test [p f] h1 Ht HP.
    destruct (health_turn test p f h1 Ht) as (p' & f' & w' & Hturn & Hmove & _).
    exists (p', f'). eexists. split; [exact Hturn |].
    apply suite_progress_step with (passed := p) (failed := f) (h := h1);
      [exact HP | exact Hmove | reflexivity].
  - exact Hne.
  - apply suite_progress_start.
  - exists p, f, h'. split; [exact Hrun | exact HP].
Qed.

Lemma integration_loop_runs tests h :
  Forall (fun t => never_exits (fn t)) tests ->
  exists passed failed results h',
    Integration.runIntegrationTests_loop cfg tests h
    = (Normal (passed, failed, results), h') /\
    suite_progress cfg h tests passed failed h' /\
    map Integration.result_name results = map name tests /\
    passed = Z.of_nat (count_status PASSED results) /\
    failed = Z.of_nat (count_status FAILED results).
Proof.
  intros Hne.
  destruct (for_each_invariant (Integration.runIntegrationTests_turn cfg)
              (fun done '(p, f, results) h' =>
                 suite_progress cfg h done p f h' /\
                 map Integration.result_name results = map name done /\
                 p = Z.of_nat (count_status PASSED results) /\
                 f = Z.of_nat (count_status FAILED results))
              (fun t => never_exits (fn t))) with (xs := tests) (done := @nil (TestCase Env))
              (l := (0, 0, @nil Integration.TestResult)) (s := h)
    as ([[p f] results] & h' & Hrun & HP & Hnames & Hp & Hf).
  - intros done test [[p f] results] h1 Ht (HP & Hnames & Hp & Hf).
    destruct (integration_turn test p f results h1 Ht)
      as (p' & f' & r & w' & Hturn & Hmove & Hname & _).
    exists (p', f', results ++ [r]). eexists. split; [exact Hturn |]. split.
    + rewrite integration_retry_is_health_retry.
      apply suite_progress_step with (passed := p) (failed := f) (h := h1);
        [exact HP | tauto | reflexivity].
    + split; [rewrite !map_app, Hnames; cbn [map]; rewrite Hname; reflexivity |].
      unfold count_status in *. rewrite !filter_app, !length_app. cbn [filter].
      destruct Hmove as [(-> & -> & ->) | (-> & -> & ->)]; cbn; lia.
  - exact Hne.
  - split; [apply suite_progress_start | repeat split].
  - exists p, f, results, h'. repeat (split; [assumption |]). assumption.
Qed.


End Suites.

(* ------------------------------------------------------------------ *)
(** * The registered test cases never leave the process *)

Section Registered.
Context {Env : Type} {P : Platform Env}.
Variable cfg : Config.

Lemma never_exits_log msg color : never_exits (log (Env := Env) msg color).
Proof. intros s c s' H. discriminate H. Qed.

Lemma never_exits_now : never_exits (now (Env := Env)).
Proof. intros s c s' H. discriminate H. Qed.

Lemma never_exits_parse {S} text : never_exits (parse (S := S) text).
Proof.
  unfold parse. destruct (JSON_parse text);
    [apply never_exits_ret | apply never_exits_throw].
Qed.

Lemma never_exits_health_request url options :
  never_exits (HealthCheck.makeRequest cfg url options).
Proof.
  intros s c s' H. unfold HealthCheck.makeRequest in H.
  destruct (http_get url options (TIMEOUT cfg) (env s)) as [[sc hs b | err | | err] e'];
    discriminate H.
Qed.

Lemma never_exits_ci_request url timeout_arg :
  never_exits (CIHealthCheck.makeRequest cfg url timeout_arg).
Proof.
  intros s c s' H. unfold CIHealthCheck.makeRequest in H.
  destruct (http_get url [] _ (env s)) as [[sc hs b | err | | err] e']; discriminate H.
Qed.

Lemma never_exits_integration_request url options :
  never_exits (Integration.makeRequest cfg url options).
Proof.
  intros s c s' H. unfold Integration.makeRequest in H.
  destruct (http_get url options (TIMEOUT cfg) (env s)) as [[sc hs b | err | | err] e'];
    discriminate H.
Qed.

Lemma never_exits_method_includes {S} v x :
  never_exits (Integration.method_includes (S := S) v x).
Proof.
  destruct v; cbn [Integration.method_includes];
    first [apply never_exits_ret | apply never_exits_throw].
Qed.

Lemma never_exits_method_join {S} v sep :
  never_exits (Integration.method_join (S := S) v sep).
Proof.
  destruct v; cbn [Integration.method_join];
    try destruct (array_join sep items);
    first [apply never_exits_ret | apply never_exits_throw].
Qed.

Lemma never_exits_show {S} v : never_exits (show (S := S) v).
Proof.
  unfold show. destruct (to_string v);
    [apply never_exits_ret | apply never_exits_throw].
Qed.

Lemma never_exits_match_option {S A B} (o : option A) (m1 : A -> M S B) (m2 : M S B) :
  (forall a, never_exits (m1 a)) -> never_exits m2 ->
  never_exits (match o with Some a => m1 a | None => m2 end).
Proof. destruct o; auto. Qed.

End Registered.

#[local] Hint Resolve never_exits_log never_exits_now never_exits_parse
  never_exits_health_request never_exits_ci_request never_exits_integration_request
  never_exits_method_includes never_exits_method_join never_exits_match_option
  never_exits_show : no_exit.

Ltac no_exit :=
  repeat match goal with
    | |- never_exits (for_each _ _ _) => apply never_exits_for_each; intros
    | |- never_exits (try_catch _ _) => apply never_exits_try_catch; [| intros ? ]
    | |- never_exits (when _ _) => apply never_exits_when
    | |- never_exits (bind _ _) => apply never_exits_bind; [| intros ? ]
    | |- never_exits (if _ then _ else _) => apply never_exits_if
    | |- never_exits (match _ with Some _ => _ | None => _ end) =>
        apply never_exits_match_option; [intros ? |]
    | x : (_ * _)%type |- _ => destruct x; cbv beta iota
    | |- _ => solve [auto with no_exit]
    end.

Section RegisteredTests.
Context {Env : Type} {P : Platform Env}.
Variable cfg : Config.

Lemma health_tests_never_exit :
  Forall (fun t => never_exits (fn t)) (HealthCheck.tests cfg).
Proof.
  repeat constructor; cbn [fn];
    [ unfold HealthCheck.testApiHealth
    | unfold HealthCheck.testApiDetailedHealth
    | unfold HealthCheck.testApiStatus
    | unfold HealthCheck.testApiDocs
    | unfold HealthCheck.testWebHealth
    | unfold HealthCheck.testWebHealthPage
    | unfold HealthCheck.testCORS ]; no_exit.
Qed.

Lemma ci_tests_never_exit :
  Forall (fun t => never_exits (fn t)) (CIHealthCheck.tests cfg).
Proof.
  repeat constructor; cbn [fn];
    [ unfold CIHealthCheck.testApiHealth
    | unfold CIHealthCheck.testApiDocs
    | unfold CIHealthCheck.testWebFrontend
    | unfold CIHealthCheck.testWebHealthPage ]; no_exit.
Qed.

Lemma integration_tests_never_exit :
  Forall (fun t => never_exits (fn t)) (Integration.tests cfg).
Proof.
  repeat constructor; cbn [fn];
    [ unfold Integration.testApiResponseTime
    | unfold Integration.testApiContentTypes
    | unfold Integration.testApiErrorHandling
    | unfold Integration.testWebPerformance
    | unfold Integration.testFullStackCommunication
    | unfold Integration.testServiceDependencies
    | unfold Integration.testEnvironmentConfig
    | unfold Integration.testSecurityHeaders ]; no_exit.
Qed.

End RegisteredTests.

(* ------------------------------------------------------------------ *)
(** * The suites: counters, no short-circuit, no attempts *)

Section SuiteClaims.
Context {Env : Type} {P : Platform Env}.
Variable cfg : Config.

(** C5: after a completed suite run, the passed counter plus the failed
    counter equals the number of test cases registered for the suite,
    in [runHealthChecks] and in [runIntegrationTests]: the loop runs to
    its end whenever no test case ends the process, and every test case
    moves exactly one of the two counters (in the integration suite the
    counters are the numbers of PASSED and of FAILED entries of
    [results]). *)
Theorem suite_counters_add_up (tests : list (TestCase Env)) (h : Harness Env) :
  Forall (fun t => never_exits (fn t)) tests ->
  (exists passed failed h',
     HealthCheck.runHealthChecks_loop cfg tests h = (Normal (passed, failed), h') /\
     passed + failed = Z.of_nat (List.length tests) /\
     0 <= passed /\ 0 <= failed) /\
  (exists passed failed results h',
     Integration.runIntegrationTests_loop cfg tests h
     = (Normal (passed, failed, results), h') /\
     passed + failed = Z.of_nat (List.length tests) /\
     passed = Z.of_nat (count_status PASSED results) /\
     failed = Z.of_nat (count_status FAILED results) /\
     List.length results = List.length tests).
Proof.
  intros Hne. split.
  - destruct (health_loop_runs cfg tests h Hne) as (p & f & h' & Hrun & Hsum & Hp & Hf & _).
    exists p, f, h'. repeat split; assumption.
  - destruct (integration_loop_runs cfg tests h Hne)
      as (p & f & results & h' & Hrun & (Hsum & _) & Hnames & Hp & Hf).
    exists p, f, results, h'. repeat (split; [assumption |]).
    rewrite <- (length_map Integration.result_name), Hnames, length_map. reflexivity.
Qed.

(** C6: the suite runner never short-circuits.  Whatever the test cases
    of the sequence do, short of ending the process, the loop goes
    through all of them: with at least one attempt configured the
    history is one segment per test case, in the order of the sequence,
    each starting with an invocation of that test case, and the
    integration suite records one entry of [results] per test case, in
    order. *)
Theorem suite_never_short_circuits (tests : list (TestCase Env)) (h : Harness Env) :
  1 <= RETRY_COUNT cfg ->
  Forall (fun t => never_exits (fn t)) tests ->
  (exists passed failed h' segs,
     HealthCheck.runHealthChecks_loop cfg tests h = (Normal (passed, failed), h') /\
     passed + failed = Z.of_nat (List.length tests) /\
     history h' = history h ++ List.concat segs /\
     Forall2 (fun t seg => segment_of (name t) seg) tests segs) /\
  (exists passed failed results h' segs,
     Integration.runIntegrationTests_loop cfg tests h
     = (Normal (passed, failed, results), h') /\
     map Integration.result_name results = map name tests /\
     history h' = history h ++ List.concat segs /\
     Forall2 (fun t seg => segment_of (name t) seg) tests segs).
Proof.
  intros HN Hne. split.
  - destruct (health_loop_runs cfg tests h Hne)
      as (p & f & h' & Hrun & Hsum & _ & _ & Hsegs).
    destruct (Hsegs HN) as (segs & Hhist & Hall).
    exists p, f, h', segs. repeat split; assumption.
  - destruct (integration_loop_runs cfg tests h Hne)
      as (p & f & results & h' & Hrun & (_ & _ & _ & Hsegs) & Hnames & _).
    destruct (Hsegs HN) as (segs & Hhist & Hall).
    exists p, f, results, h', segs. repeat split; assumption.
Qed.


End SuiteClaims.

Lemma scenario_tests_never_exit :
  Forall (fun t => never_exits (fn t)) [test_A; test_B].
Proof.
  repeat constructor; cbn [fn test_A test_B].
  - apply never_exits_throw.
  - apply never_exits_ret.
Qed.

Lemma suite_counters_add_up_witness :
  Forall (fun t => never_exits (fn t)) (HealthCheck.tests HealthCheck.CONFIG) /\
  (exists passed failed h',
     HealthCheck.runHealthChecks_loop HealthCheck.CONFIG
       (HealthCheck.tests HealthCheck.CONFIG) idle = (Normal (passed, failed), h') /\
     passed + failed = 7 /\
     0 <= passed /\ 0 <= failed) /\
  (exists passed failed results h',
     Integration.runIntegrationTests_loop HealthCheck.CONFIG
       (HealthCheck.tests HealthCheck.CONFIG) idle
     = (Normal (passed, failed, results), h') /\
     passed + failed = 7 /\
     passed = Z.of_nat (count_status PASSED results) /\
     failed = Z.of_nat (count_status FAILED results) /\
     List.length results = 7%nat).
Proof.
  split; [apply health_tests_never_exit |].
  apply (suite_counters_add_up HealthCheck.CONFIG (HealthCheck.tests HealthCheck.CONFIG) idle).
  apply health_tests_never_exit.
Defined.

(** The scenario of the spec: the suite [A(fails), B(passes)]. *)
Lemma suite_never_short_circuits_witness :
  1 <= RETRY_COUNT Integration.CONFIG /\
  Forall (fun t => never_exits (fn t)) [test_A; test_B] /\
  (exists passed failed h' segs,
     HealthCheck.runHealthChecks_loop Integration.CONFIG [test_A; test_B] idle
     = (Normal (passed, failed), h') /\
     passed + failed = 2 /\
     history h' = history idle ++ List.concat segs /\
     Forall2 (fun t seg => segment_of (name t) seg) [test_A; test_B] segs) /\
  (exists passed failed results h' segs,
     Integration.runIntegrationTests_loop Integration.CONFIG [test_A; test_B] idle
     = (Normal (passed, failed, results), h') /\
     map Integration.result_name results = ["A"; "B"]%string /\
     history h' = history idle ++ List.concat segs /\
     Forall2 (fun t seg => segment_of (name t) seg) [test_A; test_B] segs).
Proof.
  split; [cbn; lia |]. split; [exact scenario_tests_never_exit |].
  apply (suite_never_short_circuits Integration.CONFIG [test_A; test_B] idle).
  - cbn. lia.
  - exact scenario_tests_never_exit.
Defined.

(** The same scenario, run: A is recorded as FAILED after its three
    attempts, B is invoked after it and recorded as PASSED. *)
Example scenario_A_fails_B_passes :
  fst (Integration.runIntegrationTests_loop Integration.CONFIG [test_A; test_B] idle)
  = Normal (1, 1,
            [Integration.MkResult "A" FAILED None (Some "connect ECONNREFUSED"%string);
             Integration.MkResult "B" PASSED (Some 0) None]) /\
  invoked_names (history (snd (Integration.runIntegrationTests_loop Integration.CONFIG
                                 [test_A; test_B] idle)))
  = ["A"; "A"; "A"; "B"]%string /\
  fst (HealthCheck.runHealthChecks_loop HealthCheck.CONFIG [test_A; test_B] idle)
  = Normal (1, 1).
Proof. vm_compute. repeat split. Qed.


(* ------------------------------------------------------------------ *)
(** * The test cases *)

Section TestCases.
Context {Env : Type} {P : Platform Env}.
Variable cfg : Config.

Lemma integration_request_responded url options (w : World Env) sc hs b e' :
  http_get url options (TIMEOUT cfg) (env w) = (Responded sc hs b, e') ->
  Integration.makeRequest cfg url options w
  = (Normal (MkProbeResult sc hs b), MkWorld e' (console w)).
Proof. intros H. unfold Integration.makeRequest. rewrite H. reflexivity. Qed.

Lemma health_request_responded url options (w : World Env) sc hs b e' :
  http_get url options (TIMEOUT cfg) (env w) = (Responded sc hs b, e') ->
  HealthCheck.makeRequest cfg url options w
  = (Normal (MkProbeResult sc hs b), MkWorld e' (console w)).
Proof. intros H. unfold HealthCheck.makeRequest. rewrite H. reflexivity. Qed.

Lemma ci_request_responded url (w : World Env) sc hs b e' :
  http_get url [] (TIMEOUT cfg) (env w) = (Responded sc hs b, e') ->
  CIHealthCheck.makeRequest cfg url None w
  = (Normal (MkProbeResult sc hs b), MkWorld e' (console w)).
Proof. intros H. unfold CIHealthCheck.makeRequest, default_arg. rewrite H. reflexivity. Qed.

Lemma parse_ok {S} text v (s : S) :
  JSON_parse text = inl v -> parse text s = (Normal v, s).
Proof. intros H. unfold parse. rewrite H. reflexivity. Qed.

(** The required fields are checked in their order: with [environment]
    truthy and [cors_origins] not, the error names [cors_origins]. *)
Lemma environment_config_stops_at_cors_origins (w : World Env) hs b e' fields v :
  http_get (API_URL cfg ++ "/api/status")%string [] (TIMEOUT cfg) (env w)
  = (Responded 200 hs b, e') ->
  JSON_parse b = inl (VObject fields) ->
  assoc "environment" fields = Some v ->
  truthy v = true ->
  truthy (match assoc "cors_origins" fields with Some x => x | None => VUndefined end)
  = false ->
  fst (Integration.testEnvironmentConfig cfg w)
  = Throw (Error "Missing configuration field: cors_origins").
Proof.
  intros Hget Hparse Henv Hv Hcors.
  unfold Integration.testEnvironmentConfig.
  unfold bind at 1. unfold log at 1. cbv beta iota.
  unfold bind at 1.
  erewrite integration_request_responded by (cbn [env]; exact Hget).
  cbv beta iota. cbn [statusCode body]. unfold bind at 1. cbn [when negb Z.eqb Pos.eqb ret].
  cbv beta iota.
  unfold bind at 1. rewrite (parse_ok _ _ _ Hparse). cbv beta iota.
  unfold bind at 1.
  rewrite for_each_cons. unfold bind at 1. unfold bind at 1.
  cbn [get_prop ret]. rewrite Henv. cbv beta iota. rewrite Hv. cbn [negb when ret].
  cbv beta iota.
  rewrite for_each_cons. unfold bind at 1. unfold bind at 1.
  cbn [get_prop ret]. cbv beta iota. rewrite Hcors. cbn [negb when throw].
  reflexivity.
Qed.

(** C7: when GET /api/status returns 200 with the body
    [{"environment":"dev"}], that is, without [cors_origins] and
    [allowed_hosts], the environment-configuration test case raises an
    error whose message names the first missing field in the order of
    [requiredFields], [cors_origins]. *)
Theorem environment_config_names_first_missing_field (w : World Env) hs b e' :
  http_get (API_URL cfg ++ "/api/status")%string [] (TIMEOUT cfg) (env w)
  = (Responded 200 hs b, e') ->
  JSON_parse b = inl (VObject [("environment", VString "dev")]%string) ->
  fst (Integration.testEnvironmentConfig cfg w)
  = Throw (Error "Missing configuration field: cors_origins").
Proof.
  intros Hget Hparse.
  apply (environment_config_stops_at_cors_origins w hs b e'
           [("environment", VString "dev")]%string (VString "dev") Hget Hparse);
    reflexivity.
Qed.

(** The health test case of tests/health-check.js raises on a 200 whose
    body is an object with a [status] other than ['ok']. *)
Lemma health_rejects_other_status (w : World Env) hs b e' fields :
  http_get (API_URL cfg ++ "/health")%string [] (TIMEOUT cfg) (env w)
  = (Responded 200 hs b, e') ->
  JSON_parse b = inl (VObject fields) ->
  is_string (match assoc "status" fields with Some x => x | None => VUndefined end) "ok"
  = false ->
  fst (HealthCheck.testApiHealth cfg w)
  = match to_string (match assoc "status" fields with
                     | Some x => x
                     | None => VUndefined
                     end) with
    | Some shown => Throw (Error ("API health status is not 'ok': " ++ shown))
    | None => Throw (TypeError "Cannot convert object to primitive value")
    end.
Proof.
  intros Hget Hparse Hstatus.
  unfold HealthCheck.testApiHealth.
  unfold bind at 1. unfold log at 1. cbv beta iota.
  unfold bind at 1.
  erewrite health_request_responded by (cbn [env]; exact Hget).
  cbv beta iota. cbn [statusCode body]. unfold bind at 1. cbn [when negb Z.eqb Pos.eqb ret].
  cbv beta iota.
  unfold bind at 1. rewrite (parse_ok _ _ _ Hparse). cbv beta iota.
  unfold bind at 1. cbn [get_prop ret]. cbv beta iota.
  unfold bind at 1. rewrite Hstatus. cbn [negb when throw].
  unfold bind, show. destruct (to_string _); reflexivity.
Qed.

(** The health test case of tests/ci-health-check.js returns normally
    on every 200, whatever the body: a body that does not parse, a
    [null] and a wrong [status] all end in its [catch]. *)
Lemma ci_health_passes_on_every_200 (w : World Env) hs b e' :
  http_get (API_URL cfg ++ "/health")%string [] (TIMEOUT cfg) (env w)
  = (Responded 200 hs b, e') ->
  fst (CIHealthCheck.testApiHealth cfg w) = Normal VUndefined.
Proof.
  intros Hget.
  unfold CIHealthCheck.testApiHealth.
  unfold bind at 1. unfold log at 1. cbv beta iota.
  unfold bind at 1.
  erewrite ci_request_responded by (cbn [env]; exact Hget).
  cbv beta iota. cbn [statusCode body]. unfold bind at 1. cbn [when negb Z.eqb Pos.eqb ret].
  cbv beta iota.
  unfold bind at 1. unfold try_catch.
  match goal with
  | |- fst (match (match ?m ?s with _ => _ end) with _ => _ end) = _ =>
      destruct (m s) as [[[] | e | c] s1] eqn:Htry
  end.
  - reflexivity.
  - reflexivity.
  - exfalso. revert Htry.
    match goal with |- ?m ?s = _ -> _ => assert (Hne : never_exits m) end.
    { no_exit. }
    apply Hne.
Qed.

End TestCases.

Lemma environment_config_names_first_missing_field_witness :
  http_get "http://localhost:8000/api/status"%string [] 15000 (env serving_environment_dev)
  = (Responded 200 [] body_environment_dev, env serving_environment_dev) /\
  JSON_parse body_environment_dev = inl (VObject [("environment", VString "dev")]%string) /\
  fst (Integration.testEnvironmentConfig Integration.CONFIG serving_environment_dev)
  = Throw (Error "Missing configuration field: cors_origins").
Proof.
  split; [reflexivity |]. split; [reflexivity |].
  apply (environment_config_names_first_missing_field Integration.CONFIG
           serving_environment_dev [] body_environment_dev (env serving_environment_dev));
    reflexivity.
Defined.

(** C3, at the failing input: GET /health answers 200 with the body
    [{"status":"degraded"}].  The test case of tests/health-check.js
    raises the status error; the one of tests/ci-health-check.js logs
    a warning about JSON parsing and returns normally. *)
Theorem ci_health_check_swallows_status_error :
  fst (HealthCheck.testApiHealth HealthCheck.CONFIG serving_status_degraded)
  = Throw (Error "API health status is not 'ok': degraded") /\
  CIHealthCheck.testApiHealth CIHealthCheck.CONFIG serving_status_degraded
  = (Normal VUndefined,
     MkWorld (env serving_status_degraded)
       [colors.reset ++ colors.blue ++ "Testing API Health..." ++ colors.reset
          ++ colors.reset;
        colors.reset ++ "  " ++ colors.yellow
          ++ "⚠ API responded but JSON parsing failed: API health status is not 'ok': degraded"
          ++ colors.reset ++ colors.reset;
        colors.reset ++ "  Response body: " ++ body_status_degraded ++ colors.reset]%string).
Proof. split; vm_compute; reflexivity. Qed.

(* ------------------------------------------------------------------ *)
(** * The orchestrator *)

Section OrchestratorFacts.
Context {Env : Type} {P : Platform Env}.
Variable cfg : Config.

(** The probe resolves whenever the request goes out. *)
Lemma checkService_resolves url service (w : World Env) :
  sent (fst (http_get url [] 5000 (env w))) ->
  Orchestrator.checkService url service w
  = (Normal (answered_200 (fst (http_get url [] 5000 (env w)))),
     MkWorld (snd (http_get url [] 5000 (env w))) (console w)).
Proof.
  unfold Orchestrator.checkService.
  destruct (http_get url [] 5000 (env w)) as [[sc hs b | err | | err] e'];
    cbn [fst snd sent answered_200]; intros Hsent; [reflexivity .. | contradiction].
Qed.

(** It rejects only when [http.get] throws. *)
Lemma checkService_rejects url service (w : World Env) err :
  fst (http_get url [] 5000 (env w)) = Refused err ->
  Orchestrator.checkService url service w
  = (Throw err, MkWorld (snd (http_get url [] 5000 (env w))) (console w)).
Proof.
  unfold Orchestrator.checkService.
  destruct (http_get url [] 5000 (env w)) as [ev e']. cbn [fst snd].
  intros ->. reflexivity.
Qed.

Lemma sent_or_refused ev : sent ev \/ exists err, ev = Refused err.
Proof. destruct ev; cbn; eauto. Qed.

Lemma answered_200_iff ev :
  answered_200 ev = true <-> exists hs b, ev = Responded 200 hs b.
Proof.
  split.
  - destruct ev as [sc hs b | err | | err]; cbn; try discriminate.
    intros H. apply Z.eqb_eq in H. subst sc. exists hs, b. reflexivity.
  - intros (hs & b & ->). reflexivity.
Qed.

Lemma answered_other_iff ev :
  sent ev ->
  (answered_200 ev = false <->
     (exists sc hs b, ev = Responded sc hs b /\ sc <> 200)
     \/ (exists err, ev = Failed err)
     \/ ev = Silent).
Proof.
  destruct ev as [sc hs b | err | | err]; cbn; intros Hsent; [| | | contradiction].
  - split.
    + intros H. left. exists sc, hs, b. split; [reflexivity |].
      apply Z.eqb_neq. exact H.
    + intros [(sc' & hs' & b' & Heq & Hne) | [(err & Heq) | Heq]]; try discriminate.
      injection Heq as -> _ _. apply Z.eqb_neq. exact Hne.
  - split; [intros _; right; left; exists err; reflexivity | reflexivity].
  - split; [intros _; right; right; reflexivity | reflexivity].
Qed.

Lemma never_exits_runCommand command args options :
  never_exits (Orchestrator.runCommand (Env := Env) command args options).
Proof.
  intros s c s' H. unfold Orchestrator.runCommand in H.
  destruct (child_spawn command args options (env s)) as [[[code |] | err] e'];
    [destruct (code =? 0) | |]; discriminate H.
Qed.

Lemma never_exits_cwd : never_exits (Orchestrator.cwd (Env := Env)).
Proof. intros s c s' H. discriminate H. Qed.

Lemma never_exits_read {A} (f : World Env -> A) :
  never_exits (fun w : World Env => (Normal (f w), w)).
Proof. intros s c s' H. discriminate H. Qed.

End OrchestratorFacts.

#[local] Hint Resolve never_exits_runCommand never_exits_cwd never_exits_read : no_exit.

Section OrchestratorSuites.
Context {Env : Type} {P : Platform Env}.
Variable cfg : Config.

Lemma suites_never_exit :
  Forall (fun s => never_exits (Orchestrator.suite_fn s)) (Orchestrator.testSuites cfg).
Proof.
  repeat constructor; cbn [Orchestrator.suite_fn];
    [ unfold Orchestrator.runHealthChecks
    | unfold Orchestrator.runIntegrationTests
    | unfold Orchestrator.runApiTests
    | unfold Orchestrator.runWebTests
    | unfold Orchestrator.runLinting ]; no_exit.
Qed.

(** One turn of the loop over the suites pushes one entry, which says
    how the suite function ended. *)
Lemma suite_turn suite results (w : World Env) :
  never_exits (Orchestrator.suite_fn suite) ->
  exists r w',
    Orchestrator.runAllTests_turn suite results w = (Normal (results ++ [r]), w') /\
    Orchestrator.name r = Orchestrator.suite_name suite /\
    Orchestrator.required r = Orchestrator.suite_required suite /\
    match fst (Orchestrator.suite_fn suite w) with
    | Normal true => Orchestrator.status r = PASSED
    | Normal false => Orchestrator.status r = FAILED
    | Throw e => Orchestrator.status r = ERROR /\ Orchestrator.error r = Some (message e)
    | Exit _ => False
    end.
Proof.
  intros Hne. unfold Orchestrator.runAllTests_turn, try_catch, bind, now.
  destruct (Orchestrator.suite_fn suite w) as [[passed | e | c] w1] eqn:Hrun; cbn [fst].
  - eexists. eexists. split; [reflexivity |]. cbn.
    repeat split. destruct passed; reflexivity.
  - eexists. eexists. split; [reflexivity |]. cbn. repeat split.
  - exfalso. exact (Hne _ _ _ Hrun).
Qed.

Lemma suites_loop_runs suites (w : World Env) :
  Forall (fun s => never_exits (Orchestrator.suite_fn s)) suites ->
  exists results w',
    for_each suites Orchestrator.runAllTests_turn [] w = (Normal results, w') /\
    map Orchestrator.name results = map Orchestrator.suite_name suites /\
    map Orchestrator.required results = map Orchestrator.suite_required suites.
Proof.
  intros Hne.
  destruct (for_each_invariant Orchestrator.runAllTests_turn
              (fun done results (_ : World Env) =>
                 map Orchestrator.name results = map Orchestrator.suite_name done /\
                 map Orchestrator.required results = map Orchestrator.suite_required done)
              (fun s => never_exits (Orchestrator.suite_fn s)))
    with (xs := suites) (done := @nil (Orchestrator.Suite Env))
         (l := @nil Orchestrator.SuiteResult) (s := w)
    as (results & w' & Hrun & Hnames & Hreq).
  - intros done suite results w1 Hs (Hnames & Hreq).
    destruct (suite_turn suite results w1 Hs) as (r & w2 & Hturn & Hname & Hrequired & _).
    exists (results ++ [r]), w2. split; [exact Hturn |].
    rewrite !map_app, Hnames, Hreq. cbn [map]. rewrite Hname, Hrequired.
    split; reflexivity.
  - exact Hne.
  - split; reflexivity.
  - exists results, w'. repeat split; assumption.
Qed.

(** The pre-flight result is bound and never read. *)
Lemma preflight_result_is_dead healthy healthy' suites :
  Orchestrator.runAllTests_after_preflight (Env := Env) healthy suites
  = Orchestrator.runAllTests_after_preflight healthy' suites.
Proof. destruct healthy, healthy'. reflexivity. Qed.

(** [checkServices] when both requests go out. *)
Lemma checkServices_resolves (w : World Env) :
  sent (api_probe cfg w) ->
  sent (web_probe cfg w) ->
  exists w',
    Orchestrator.checkServices cfg w
    = (Normal (answered_200 (api_probe cfg w), answered_200 (web_probe cfg w)), w').
Proof.
  unfold api_probe, web_probe. intros Hapi Hweb.
  unfold Orchestrator.checkServices.
  unfold bind at 1. unfold log at 1. cbv beta iota.
  unfold bind at 1. rewrite checkService_resolves by exact Hapi. cbv beta iota.
  unfold bind at 1. rewrite checkService_resolves by exact Hweb. cbv beta iota.
  cbn [env].
  set (a := answered_200 _). set (b := answered_200 _).
  destruct a, b; cbn; eexists; reflexivity.
Qed.

(** [checkServices] when [http.get] throws on one of the two URLs. *)
Lemma checkServices_rejects (w : World Env) :
  ~ (sent (api_probe cfg w) /\ sent (web_probe cfg w)) ->
  exists err w', Orchestrator.checkServices cfg w = (Throw err, w').
Proof.
  unfold api_probe, web_probe. intros Hnot.
  unfold Orchestrator.checkServices.
  unfold bind at 1. unfold log at 1. cbv beta iota.
  unfold bind at 1.
  destruct (sent_or_refused
              (fst (http_get (API_URL cfg ++ "/health")%string [] 5000 (env w))))
    as [Hapi | (err & Hapi)].
  - rewrite checkService_resolves by exact Hapi. cbv beta iota.
    unfold bind at 1. cbn [env].
    destruct (sent_or_refused
                (fst (http_get (WEB_URL cfg) [] 5000
                        (snd (http_get (API_URL cfg ++ "/health")%string [] 5000 (env w))))))
      as [Hweb | (err & Hweb)].
    + exfalso. apply Hnot. split; assumption.
    + rewrite (checkService_rejects _ _ _ err) by exact Hweb.
      do 2 eexists. reflexivity.
  - rewrite (checkService_rejects _ _ _ err) by exact Hapi.
    do 2 eexists. reflexivity.
Qed.

(** The first half of [runAllTests] gets to its [results] when the
    pre-flight requests go out, and throws otherwise, before any suite
    has run. *)
Lemma suites_phase_runs (w : World Env) :
  sent (api_probe cfg w) ->
  sent (web_probe cfg w) ->
  exists results w',
    Orchestrator.runAllTests_suites cfg (Orchestrator.testSuites cfg) w
    = (Normal results, w') /\
    map Orchestrator.name results
    = map Orchestrator.suite_name (Orchestrator.testSuites cfg) /\
    map Orchestrator.required results
    = map Orchestrator.suite_required (Orchestrator.testSuites cfg).
Proof.
  intros Hapi Hweb. unfold Orchestrator.runAllTests_suites.
  do 5 (unfold bind at 1; unfold log at 1; cbv beta iota).
  unfold bind at 1.
  match goal with |- context [Orchestrator.checkServices cfg ?w0] =>
    destruct (checkServices_resolves w0 Hapi Hweb) as (w1 & ->) end.
  cbv beta iota. unfold Orchestrator.runAllTests_after_preflight.
  unfold bind at 1. unfold log at 1. cbv beta iota.
  apply suites_loop_runs. apply suites_never_exit.
Qed.

Lemma suites_phase_throws (w : World Env) :
  ~ (sent (api_probe cfg w) /\ sent (web_probe cfg w)) ->
  exists err w',
    Orchestrator.runAllTests_suites cfg (Orchestrator.testSuites cfg) w = (Throw err, w').
Proof.
  intros Hnot. unfold Orchestrator.runAllTests_suites.
  do 5 (unfold bind at 1; unfold log at 1; cbv beta iota).
  unfold bind at 1.
  match goal with |- context [Orchestrator.checkServices cfg ?w0] =>
    destruct (checkServices_rejects w0 Hnot) as (err & w1 & ->) end.
  do 2 eexists. reflexivity.
Qed.

Lemma preflight_sent_or_not (w : World Env) :
  (sent (api_probe cfg w) /\ sent (web_probe cfg w))
  \/ ~ (sent (api_probe cfg w) /\ sent (web_probe cfg w)).
Proof.
  destruct (sent_or_refused (api_probe cfg w)) as [Hapi | (err & Hapi)];
    [destruct (sent_or_refused (web_probe cfg w)) as [Hweb | (err & Hweb)] |].
  - left. split; assumption.
  - right. intros (_ & H). rewrite Hweb in H. exact H.
  - right. intros (H & _). rewrite Hapi in H. exact H.
Qed.

End OrchestratorSuites.
Section OrchestratorVerdict.
Context {Env : Type} {P : Platform Env}.
Variable cfg : Config.

Lemma required_failures_positive results :
  (Z.of_nat (List.length (filter required_failure results)) >? 0)
  = existsb required_failure results.
Proof.
  induction results as [| r rest IH]; [reflexivity |].
  cbn [filter existsb]. destruct (required_failure r); cbn [orb].
  - cbn [List.length]. apply Z.gtb_lt. lia.
  - exact IH.
Qed.

Lemma required_failure_iff r :
  required_failure r = true
  <-> Orchestrator.required r = true /\ Orchestrator.status r <> PASSED.
Proof.
  unfold required_failure.
  destruct (Orchestrator.required r), (Orchestrator.status r); cbn;
    (split; [intros H | intros (H1 & H2)]);
    try discriminate; try reflexivity;
    try (split; [reflexivity | discriminate]);
    exfalso; apply H2; reflexivity.
Qed.

(** One turn of the summary: [requiredFailed] moves exactly for a
    required suite that did not pass. *)
Lemma summary_turn_counts r totalPassed totalFailed requiredFailed (w : World Env) :
  exists totalPassed' totalFailed' w',
    Orchestrator.summary_turn r (totalPassed, totalFailed, requiredFailed) w
    = (Normal (totalPassed', totalFailed',
               requiredFailed + (if required_failure r then 1 else 0)), w').
Proof.
  unfold Orchestrator.summary_turn, required_failure.
  unfold bind at 1. unfold log at 1. cbv beta iota.
  unfold bind at 1.
  destruct (Orchestrator.error r) as [e |].
  - destruct (negb (e =? "")%string); cbn [when]; unfold log, ret; cbv beta iota;
      destruct (Orchestrator.status r), (Orchestrator.required r); cbn;
      rewrite ?Z.add_0_r; do 3 eexists; reflexivity.
  - unfold ret at 1. cbv beta iota.
    destruct (Orchestrator.status r), (Orchestrator.required r); cbn;
      rewrite ?Z.add_0_r; do 3 eexists; reflexivity.
Qed.

Lemma summary_loop_counts results (w : World Env) :
  exists totalPassed totalFailed w',
    for_each results Orchestrator.summary_turn ((0, 0, 0) : Orchestrator.Totals) w
    = (Normal (totalPassed, totalFailed,
               Z.of_nat (List.length (filter required_failure results))), w').
Proof.
  destruct (for_each_invariant Orchestrator.summary_turn
              (fun done '(_, _, rf) (_ : World Env) =>
                 rf = Z.of_nat (List.length (filter required_failure done)))
              (fun _ => True))
    with (xs := results) (done := @nil Orchestrator.SuiteResult)
         (l := ((0, 0, 0) : Orchestrator.Totals)) (s := w)
    as ([[tp tf] rf] & w' & Hrun & ->).
  - intros done r [[tp tf] rf] w1 _ ->.
    destruct (summary_turn_counts r tp tf
                (Z.of_nat (List.length (filter required_failure done))) w1)
      as (tp' & tf' & w2 & Hturn).
    eexists (_, _, _). exists w2. split; [exact Hturn |].
    rewrite filter_app, length_app, Nat2Z.inj_add. cbn [filter].
    destruct (required_failure r); cbn; lia.
  - apply Forall_forall. intros; exact I.
  - reflexivity.
  - exists tp, tf, w'. exact Hrun.
Qed.

(** The summary ends the process: with 1 when a required suite did
    not pass, with 0 otherwise. *)
Lemma summary_exits startTime results (w : World Env) :
  exists w',
    Orchestrator.runAllTests_summary startTime results w
    = (Exit (if existsb required_failure results then 1 else 0), w').
Proof.
  unfold Orchestrator.runAllTests_summary.
  unfold bind at 1. unfold now at 1. cbv beta iota.
  do 2 (unfold bind at 1; unfold log at 1; cbv beta iota).
  unfold bind at 1.
  match goal with |- context [for_each results Orchestrator.summary_turn _ ?w0] =>
    destruct (summary_loop_counts results w0) as (tp & tf & w1 & ->) end.
  cbv beta iota.
  do 6 (unfold bind at 1; unfold log at 1; cbv beta iota).
  rewrite required_failures_positive.
  destruct (existsb required_failure results).
  - unfold bind, log, process_exit. eexists. reflexivity.
  - destruct (tf >? 0); unfold bind, log, process_exit; eexists; reflexivity.
Qed.

(** [runAllTests] is its two halves, one after the other. *)
Lemma runAllTests_exits suites (w : World Env) results w1 :
  Orchestrator.runAllTests_suites cfg suites w = (Normal results, w1) ->
  exists w2,
    Orchestrator.runAllTests_of cfg suites w
    = (Exit (if existsb required_failure results then 1 else 0), w2).
Proof.
  intros Hsuites. unfold Orchestrator.runAllTests_of.
  unfold bind at 1. unfold now at 1. cbv beta iota.
  rewrite (bind_normal _ _ _ _ _ Hsuites).
  apply summary_exits.
Qed.

(** When the first half throws, [runAllTests] rejects and the catch of
    the script ends the process with 1. *)
Lemma run_all_after_throw (w : World Env) err w1 :
  Orchestrator.runAllTests_suites cfg (Orchestrator.testSuites cfg) w = (Throw err, w1) ->
  fst (Orchestrator.runAllTests cfg w) = Throw err /\
  exists w2, Orchestrator.run_all cfg w = (Exit 1, w2).
Proof.
  intros Hsuites.
  assert (Hrun : Orchestrator.runAllTests cfg w = (Throw err, w1)).
  { unfold Orchestrator.runAllTests, Orchestrator.runAllTests_of.
    unfold bind at 1. unfold now at 1. cbv beta iota.
    apply bind_throw. exact Hsuites. }
  split; [rewrite Hrun; reflexivity |].
  unfold Orchestrator.run_all. rewrite (try_catch_throw _ _ _ _ _ Hrun).
  eexists. reflexivity.
Qed.

Lemma run_all_after_exit (w : World Env) code w2 :
  Orchestrator.runAllTests cfg w = (Exit code, w2) ->
  Orchestrator.run_all cfg w = (Exit code, w2).
Proof.
  intros Hrun. unfold Orchestrator.run_all, try_catch. rewrite Hrun. reflexivity.
Qed.

(** One turn of the loop over the suites, in full: the entry says
    PASSED exactly when the function of the suite returned [true], and
    the world is the one that function left. *)
Lemma suite_turn_world suite results (w : World Env) :
  never_exits (Orchestrator.suite_fn suite) ->
  exists r,
    Orchestrator.runAllTests_turn suite results w
    = (Normal (results ++ [r]), snd (Orchestrator.suite_fn suite w)) /\
    Orchestrator.name r = Orchestrator.suite_name suite /\
    Orchestrator.required r = Orchestrator.suite_required suite /\
    (Orchestrator.status r = PASSED
     <-> fst (Orchestrator.suite_fn suite w) = Normal true).
Proof.
  intros Hne. unfold Orchestrator.runAllTests_turn, try_catch, bind, now.
  destruct (Orchestrator.suite_fn suite w) as [[passed | e | c] w1] eqn:Hrun;
    cbn [fst snd].
  - eexists. split; [reflexivity |]. cbn. split; [reflexivity |].
    split; [reflexivity |]. destruct passed; split; congruence.
  - eexists. split; [reflexivity |]. cbn. split; [reflexivity |].
    split; [reflexivity |]. split; discriminate.
  - exfalso. exact (Hne _ _ _ Hrun).
Qed.

(** The loop over the suites: an entry per suite, in order, each
    telling what the function of its suite returned in the world the
    loop reached it in. *)
Lemma suites_loop_reached suites :
  Forall (fun s => never_exits (Orchestrator.suite_fn s)) suites ->
  forall acc (w : World Env), exists rs w',
    for_each suites Orchestrator.runAllTests_turn acc w = (Normal (acc ++ rs), w') /\
    Forall2 (fun r sw =>
               Orchestrator.name r = Orchestrator.suite_name (fst sw) /\
               Orchestrator.required r = Orchestrator.suite_required (fst sw) /\
               (Orchestrator.status r = PASSED
                <-> fst (Orchestrator.suite_fn (fst sw) (snd sw)) = Normal true))
      rs (reached suites w).
Proof.
  intros Hall. induction Hall as [| suite rest Hsuite _ IH]; intros acc w.
  - exists [], w. rewrite for_each_nil, app_nil_r. split; [reflexivity | constructor].
  - destruct (suite_turn_world suite acc w Hsuite) as (r & Hturn & Hname & Hreq & Hst).
    destruct (IH (acc ++ [r]) (snd (Orchestrator.suite_fn suite w)))
      as (rs & w' & Hrest & Hall2).
    exists (r :: rs), w'. split.
    + rewrite for_each_cons, (bind_normal _ _ _ _ _ Hturn), Hrest, <- app_assoc.
      reflexivity.
    + cbn [reached]. constructor; [| exact Hall2]. cbn [fst snd].
      split; [exact Hname |]. split; [exact Hreq | exact Hst].
Qed.

(** The first half of [runAllTests] is the banner and the pre-flight
    check, whatever the suites, and then the loop. *)
Lemma suites_phase_unfolds (w : World Env) :
  exists wb,
    env wb = env w /\
    forall suites,
      Orchestrator.runAllTests_suites cfg suites w
      = match Orchestrator.checkServices cfg wb with
        | (Normal healthy, w1) =>
            for_each suites Orchestrator.runAllTests_turn []
              (MkWorld (env w1)
                 (console w1 ++ [(colors.reset ++ "" ++ colors.reset)%string]))
        | (Throw e, w1) => (Throw e, w1)
        | (Exit c, w1) => (Exit c, w1)
        end.
Proof.
  eexists. split; cycle 1.
  - intros suites. unfold Orchestrator.runAllTests_suites.
    do 5 (unfold bind at 1; unfold log at 1; cbv beta iota).
    unfold bind at 1.
    match goal with
    | |- match Orchestrator.checkServices cfg ?w0 with _ => _ end
         = match Orchestrator.checkServices cfg ?w0' with _ => _ end =>
        unify w0' w0;
        destruct (Orchestrator.checkServices cfg w0) as [[[a b] | e | c] w1]
    end; reflexivity.
  - reflexivity.
Qed.

(** Which entry of [reached] belongs to a required suite. *)
Lemma reached_suites (w0 : World Env) :
  exists w1 w2 w3 w4,
    reached (Orchestrator.testSuites cfg) w0
    = [(Orchestrator.MkSuite "Health Checks" (Orchestrator.runHealthChecks cfg) true, w0);
       (Orchestrator.MkSuite "Integration Tests" (Orchestrator.runIntegrationTests cfg)
          true, w1);
       (Orchestrator.MkSuite "API Tests" (Orchestrator.runApiTests cfg) false, w2);
       (Orchestrator.MkSuite "Web Tests" (Orchestrator.runWebTests cfg) false, w3);
       (Orchestrator.MkSuite "Linting" Orchestrator.runLinting false, w4)].
Proof. do 4 eexists. reflexivity. Qed.

(** The two required suites head [results]; whether they passed is
    what their functions returned where the loop reached them. *)
Lemma required_suites_reached (w w0 : World Env) rs :
  Orchestrator.runAllTests_suites cfg [] w = (Normal [], w0) ->
  Forall2 (fun r sw =>
             Orchestrator.name r = Orchestrator.suite_name (fst sw) /\
             Orchestrator.required r = Orchestrator.suite_required (fst sw) /\
             (Orchestrator.status r = PASSED
              <-> fst (Orchestrator.suite_fn (fst sw) (snd sw)) = Normal true))
    rs (reached (Orchestrator.testSuites cfg) w0) ->
  exists health integration others,
    rs = health :: integration :: others /\
    existsb required_failure rs
    = negb (Status_eqb (Orchestrator.status health) PASSED)
      || negb (Status_eqb (Orchestrator.status integration) PASSED) /\
    (suite_passed cfg w "Health Checks" <-> Orchestrator.status health = PASSED) /\
    (suite_passed cfg w "Integration Tests" <-> Orchestrator.status integration = PASSED) /\
    map Orchestrator.name rs
    = ["Health Checks"; "Integration Tests"; "API Tests"; "Web Tests"; "Linting"]%string /\
    map Orchestrator.required rs = [true; true; false; false; false].
Proof.
  intros Hstart Hall.
  destruct (reached_suites w0) as (w1 & w2 & w3 & w4 & Hreached).
  rewrite Hreached in Hall.
  inversion Hall as [| r1 sw1 rest1 sws1 (Hn1 & Hq1 & Hs1) Hall1]; subst.
  inversion Hall1 as [| r2 sw2 rest2 sws2 (Hn2 & Hq2 & Hs2) Hall2]; subst.
  inversion Hall2 as [| r3 sw3 rest3 sws3 (Hn3 & Hq3 & Hs3) Hall3]; subst.
  inversion Hall3 as [| r4 sw4 rest4 sws4 (Hn4 & Hq4 & Hs4) Hall4]; subst.
  inversion Hall4 as [| r5 sw5 rest5 sws5 (Hn5 & Hq5 & Hs5) Hall5]; subst.
  inversion Hall5; subst.
  cbn [fst snd Orchestrator.suite_name Orchestrator.suite_required
       Orchestrator.suite_fn] in *.
  exists r1, r2, [r3; r4; r5]. split; [reflexivity |]. split.
  { cbn [existsb]. unfold required_failure.
    rewrite Hq1, Hq2, Hq3, Hq4, Hq5. cbn [andb orb].
    rewrite !orb_false_r. reflexivity. }
  split; [| split; [| split]].
  - rewrite Hs1. unfold suite_passed. split.
    + intros (w0' & Hstart' & s & w_s & Hin & Hname & Hret).
      rewrite Hstart in Hstart'. injection Hstart' as <-.
      rewrite Hreached in Hin.
      destruct Hin as [Heq | [Heq | [Heq | [Heq | [Heq | []]]]]];
        injection Heq as <- <-; cbn in Hname;
        first [exact Hret | discriminate Hname].
    + intros Hret. exists w0. split; [exact Hstart |].
      do 2 eexists. split; [rewrite Hreached; left; reflexivity |].
      split; [reflexivity | exact Hret].
  - rewrite Hs2. unfold suite_passed. split.
    + intros (w0' & Hstart' & s & w_s & Hin & Hname & Hret).
      rewrite Hstart in Hstart'. injection Hstart' as <-.
      rewrite Hreached in Hin.
      destruct Hin as [Heq | [Heq | [Heq | [Heq | [Heq | []]]]]];
        injection Heq as <- <-; cbn in Hname;
        first [exact Hret | discriminate Hname].
    + intros Hret. exists w0. split; [exact Hstart |].
      do 2 eexists. split; [rewrite Hreached; right; left; reflexivity |].
      split; [reflexivity | exact Hret].
  - cbn [map]. rewrite Hn1, Hn2, Hn3, Hn4, Hn5. reflexivity.
  - cbn [map]. rewrite Hq1, Hq2, Hq3, Hq4, Hq5. reflexivity.
Qed.

Lemma status_passed_dec (st : Status) :
  Status_eqb st PASSED = true /\ st = PASSED
  \/ Status_eqb st PASSED = false /\ st <> PASSED.
Proof. destruct st; cbn; [left | right | right]; split; congruence. Qed.

(** Which suites of [testSuites] are required. *)
Lemma required_suites_are (s : Orchestrator.Suite Env) :
  In s (Orchestrator.testSuites cfg) ->
  Orchestrator.suite_required s = true ->
  Orchestrator.suite_name s = "Health Checks"%string
  \/ Orchestrator.suite_name s = "Integration Tests"%string.
Proof.
  intros [<- | [<- | [<- | [<- | [<- | []]]]]] Hreq; cbn in *;
    first [left; reflexivity | right; reflexivity | discriminate Hreq].
Qed.

(** C1: the run of [runAllTests] ends the process with exit code 1 if
    and only if at least one suite flagged [required] did not pass, and
    with exit code 0 when every required suite passed, whatever the
    optional suites did.  A suite passed when its function, called
    where the loop reached it, returned [true]: the status the run
    records for it says so, entry by entry.  The exit is
    [runAllTests]'s own whenever the pre-flight requests go out; when
    [http.get] throws on one of their URLs, no suite runs, none
    passes, and the catch of the script exits with 1. *)
Theorem exit_code_follows_required_suites (w : World Env) :
  exists code w',
    Orchestrator.run_all cfg w = (Exit code, w') /\
    (code = 1 <->
     exists s, In s (Orchestrator.testSuites cfg)
               /\ Orchestrator.suite_required s = true
               /\ ~ suite_passed cfg w (Orchestrator.suite_name s)) /\
    (code = 0 <->
     forall s, In s (Orchestrator.testSuites cfg) ->
               Orchestrator.suite_required s = true ->
               suite_passed cfg w (Orchestrator.suite_name s)) /\
    (sent (api_probe cfg w) -> sent (web_probe cfg w) ->
     Orchestrator.runAllTests cfg w = (Exit code, w') /\
     exists w0 results,
       Orchestrator.runAllTests_suites cfg [] w = (Normal [], w0) /\
       fst (Orchestrator.runAllTests_suites cfg (Orchestrator.testSuites cfg) w)
       = Normal results /\
       map Orchestrator.name results
       = ["Health Checks"; "Integration Tests"; "API Tests"; "Web Tests"; "Linting"]%string /\
       map Orchestrator.required results = [true; true; false; false; false] /\
       Forall2 (fun r sw =>
                  Orchestrator.status r = PASSED
                  <-> fst (Orchestrator.suite_fn (fst sw) (snd sw)) = Normal true)
         results (reached (Orchestrator.testSuites cfg) w0) /\
       (code = 1 <->
        exists r, In r results /\ Orchestrator.required r = true
                  /\ Orchestrator.status r <> PASSED)).
Proof.
  destruct (suites_phase_unfolds w) as (wb & Henv & Hphase).
  destruct (preflight_sent_or_not cfg w) as [(Hapi & Hweb) | Hnot].
  - assert (Hapi' : sent (api_probe cfg wb))
      by (unfold api_probe in *; rewrite Henv; exact Hapi).
    assert (Hweb' : sent (web_probe cfg wb))
      by (unfold web_probe in *; rewrite Henv; exact Hweb).
    destruct (checkServices_resolves cfg wb Hapi' Hweb') as (w1 & Hcheck).
    rewrite Hcheck in Hphase.
    set (w0 := MkWorld (env w1)
                 (console w1 ++ [(colors.reset ++ "" ++ colors.reset)%string])) in *.
    assert (Hstart : Orchestrator.runAllTests_suites cfg [] w = (Normal [], w0))
      by (rewrite Hphase; reflexivity).
    destruct (suites_loop_reached (Orchestrator.testSuites cfg) (suites_never_exit cfg)
                [] w0) as (results & w1' & Hloop & Hall).
    cbn [app] in Hloop.
    assert (Hsuites : Orchestrator.runAllTests_suites cfg (Orchestrator.testSuites cfg) w
                      = (Normal results, w1'))
      by (rewrite Hphase; exact Hloop).
    destruct (runAllTests_exits _ w results w1' Hsuites) as (w2 & Hexit).
    destruct (required_suites_reached w w0 results Hstart Hall)
      as (health & integration & others & Hresults & Hex & Hhealth & Hintegration
          & Hnames & Hreq).
    exists (if existsb required_failure results then 1 else 0), w2.
    split; [apply run_all_after_exit; exact Hexit |].
    assert (Hone : (if existsb required_failure results then 1 else 0) = 1
                   <-> existsb required_failure results = true).
    { destruct (existsb required_failure results); split; congruence. }
    assert (Hzero : (if existsb required_failure results then 1 else 0) = 0
                    <-> existsb required_failure results = false).
    { destruct (existsb required_failure results); split; congruence. }
    split; [| split].
    + rewrite Hone, Hex. split.
      * intros H. apply orb_true_iff in H. destruct H as [H | H]; apply negb_true_iff in H.
        -- exists (Orchestrator.MkSuite "Health Checks" (Orchestrator.runHealthChecks cfg) true).
           split; [left; reflexivity |]. split; [reflexivity |]. cbn.
           rewrite Hhealth. intros Hst. rewrite Hst in H. discriminate H.
        -- exists (Orchestrator.MkSuite "Integration Tests"
                     (Orchestrator.runIntegrationTests cfg) true).
           split; [right; left; reflexivity |]. split; [reflexivity |]. cbn.
           rewrite Hintegration. intros Hst. rewrite Hst in H. discriminate H.
      * intros (s & Hin & Hrq & Hnp). apply orb_true_iff.
        destruct (required_suites_are s Hin Hrq) as [Hname | Hname];
          rewrite Hname in Hnp; [left | right]; apply negb_true_iff.
        -- destruct (status_passed_dec (Orchestrator.status health)) as [(_ & Hst) | (Hb & _)];
             [exfalso; apply Hnp, Hhealth, Hst | exact Hb].
        -- destruct (status_passed_dec (Orchestrator.status integration))
             as [(_ & Hst) | (Hb & _)];
             [exfalso; apply Hnp, Hintegration, Hst | exact Hb].
    + rewrite Hzero, Hex. split.
      * intros H. apply orb_false_iff in H. destruct H as (H1 & H2).
        apply negb_false_iff in H1, H2.
        intros s Hin Hrq.
        destruct (required_suites_are s Hin Hrq) as [-> | ->].
        -- apply Hhealth. destruct (Orchestrator.status health); [reflexivity | |];
             discriminate H1.
        -- apply Hintegration. destruct (Orchestrator.status integration);
             [reflexivity | |]; discriminate H2.
      * intros Hall'. apply orb_false_iff. split; apply negb_false_iff.
        -- assert (Hst : Orchestrator.status health = PASSED).
           { apply Hhealth.
             apply (Hall' (Orchestrator.MkSuite "Health Checks"
                             (Orchestrator.runHealthChecks cfg) true));
               [left; reflexivity | reflexivity]. }
           rewrite Hst. reflexivity.
        -- assert (Hst : Orchestrator.status integration = PASSED).
           { apply Hintegration.
             apply (Hall' (Orchestrator.MkSuite "Integration Tests"
                             (Orchestrator.runIntegrationTests cfg) true));
               [right; left; reflexivity | reflexivity]. }
           rewrite Hst. reflexivity.
    + intros _ _. split; [exact Hexit |].
      exists w0, results. split; [exact Hstart |].
      rewrite Hsuites. split; [reflexivity |].
      split; [exact Hnames |]. split; [exact Hreq |]. split.
      * clear - Hall. induction Hall as [| r sw rs sws (_ & _ & Hst) _ IH];
          constructor; assumption.
      * rewrite Hone. rewrite existsb_exists. split.
        -- intros (r & Hin & Hr). exists r. split; [exact Hin |].
           apply required_failure_iff. exact Hr.
        -- intros (r & Hin & Hr). exists r. split; [exact Hin |].
           apply required_failure_iff. exact Hr.
  - destruct (suites_phase_throws cfg w Hnot) as (err & w1 & Hsuites).
    destruct (run_all_after_throw w err w1 Hsuites) as (_ & w2 & Hrun).
    assert (Hnone : forall n, ~ suite_passed cfg w n).
    { intros n (w0 & Hstart & _).
      rewrite Hphase in Hsuites, Hstart.
      destruct (Orchestrator.checkServices cfg wb) as [[healthy | e | c] w1'].
      - destruct (suites_loop_reached (Orchestrator.testSuites cfg)
                    (suites_never_exit cfg) []
                    (MkWorld (env w1')
                       (console w1' ++ [(colors.reset ++ "" ++ colors.reset)%string])))
          as (rs & w' & Hloop & _).
        rewrite Hloop in Hsuites. discriminate Hsuites.
      - discriminate Hstart.
      - discriminate Hstart. }
    exists 1, w2. split; [exact Hrun |]. split; [| split].
    + split; [| reflexivity]. intros _.
      exists (Orchestrator.MkSuite "Health Checks" (Orchestrator.runHealthChecks cfg) true).
      split; [left; reflexivity |]. split; [reflexivity | apply Hnone].
    + split; [discriminate |]. intros Hall. exfalso.
      apply (Hnone "Health Checks"%string).
      apply (Hall (Orchestrator.MkSuite "Health Checks"
                     (Orchestrator.runHealthChecks cfg) true));
        [left; reflexivity | reflexivity].
    + intros Hapi Hweb. exfalso. apply Hnot. split; assumption.
Qed.

Lemma verdicts_decide results results' :
  map verdict results = map verdict results' ->
  existsb required_failure results = existsb required_failure results'.
Proof.
  revert results'.
  induction results as [| r rest IH]; intros [| r' rest'] Hsame; try discriminate;
    [reflexivity |].
  cbn [map] in Hsame. unfold verdict at 1 3 in Hsame.
  injection Hsame as Hst Hrq Hrest.
  cbn [existsb]. rewrite (IH rest' Hrest). f_equal.
  unfold required_failure. rewrite Hst, Hrq. reflexivity.
Qed.

Lemma suite_verdicts_some (w : World Env) verdicts :
  suite_verdicts cfg w = Some verdicts ->
  exists results w1,
    Orchestrator.runAllTests_suites cfg (Orchestrator.testSuites cfg) w
    = (Normal results, w1) /\
    map verdict results = verdicts.
Proof.
  unfold suite_verdicts.
  destruct (Orchestrator.runAllTests_suites cfg (Orchestrator.testSuites cfg) w)
    as [[results | e | c] w1]; cbn [fst]; try discriminate.
  intros H. injection H as <-. exists results, w1. split; reflexivity.
Qed.

(** C8: the pre-flight probe does not bear on the exit code.  Take two
    runs of [runAllTests], from any two worlds, so that [checkServices]
    may well find the services up in one and down in the other: when
    the suites end with the same verdicts in both, the two runs end the
    process with the same exit code. *)
Theorem preflight_does_not_gate_exit_code (w w' : World Env)
    (verdicts : list (Status * bool)) :
  suite_verdicts cfg w = Some verdicts ->
  suite_verdicts cfg w' = Some verdicts ->
  Orchestrator.exit_code (Orchestrator.runAllTests cfg w)
  = Orchestrator.exit_code (Orchestrator.runAllTests cfg w') /\
  Orchestrator.exit_code (Orchestrator.run_all cfg w)
  = Orchestrator.exit_code (Orchestrator.run_all cfg w') /\
  Orchestrator.exit_code (Orchestrator.runAllTests cfg w) <> None.
Proof.
  intros Hw Hw'.
  destruct (suite_verdicts_some w verdicts Hw) as (rs & w1 & Hrun & Hv).
  destruct (suite_verdicts_some w' verdicts Hw') as (rs' & w1' & Hrun' & Hv').
  destruct (runAllTests_exits _ w rs w1 Hrun) as (w2 & Hexit).
  destruct (runAllTests_exits _ w' rs' w1' Hrun') as (w2' & Hexit').
  fold (Orchestrator.runAllTests cfg) in Hexit, Hexit'.
  rewrite (run_all_after_exit _ _ _ Hexit), (run_all_after_exit _ _ _ Hexit').
  rewrite Hexit, Hexit'. unfold Orchestrator.exit_code. cbn [fst].
  rewrite (verdicts_decide rs rs') by congruence.
  repeat split. discriminate.
Qed.

(** C10: [checkServices] is total on what the services can do.  Whatever
    the two probes come to, a response, a connection error or five
    seconds of silence, it resolves, never rejects, with two booleans;
    a boolean is [true] exactly when its service answered with status
    200, and [false] on any other status, on a connection error and on
    a timeout. *)
Theorem preflight_probe_always_resolves (w : World Env) :
  sent (api_probe cfg w) ->
  sent (web_probe cfg w) ->
  exists apiHealthy webHealthy w',
    Orchestrator.checkServices cfg w = (Normal (apiHealthy, webHealthy), w') /\
    (apiHealthy = true <-> exists hs b, api_probe cfg w = Responded 200 hs b) /\
    (webHealthy = true <-> exists hs b, web_probe cfg w = Responded 200 hs b) /\
    (apiHealthy = false <->
       (exists sc hs b, api_probe cfg w = Responded sc hs b /\ sc <> 200)
       \/ (exists err, api_probe cfg w = Failed err)
       \/ api_probe cfg w = Silent) /\
    (webHealthy = false <->
       (exists sc hs b, web_probe cfg w = Responded sc hs b /\ sc <> 200)
       \/ (exists err, web_probe cfg w = Failed err)
       \/ web_probe cfg w = Silent).
Proof.
  intros Hapi Hweb.
  destruct (checkServices_resolves cfg w Hapi Hweb) as (w' & Hrun).
  do 2 eexists. exists w'. split; [exact Hrun |].
  split; [apply answered_200_iff |]. split; [apply answered_200_iff |].
  split; apply answered_other_iff; assumption.
Qed.

End OrchestratorVerdict.

Lemma preflight_does_not_gate_exit_code_witness :
  suite_verdicts Orchestrator.CONFIG services_up
  = Some [(PASSED, true); (PASSED, true); (FAILED, false); (PASSED, false); (FAILED, false)] /\
  suite_verdicts Orchestrator.CONFIG services_down
  = Some [(PASSED, true); (PASSED, true); (FAILED, false); (PASSED, false); (FAILED, false)] /\
  fst (Orchestrator.checkServices Orchestrator.CONFIG services_up) = Normal (true, true) /\
  fst (Orchestrator.checkServices Orchestrator.CONFIG services_down) = Normal (false, false) /\
  Orchestrator.exit_code (Orchestrator.runAllTests Orchestrator.CONFIG services_up)
  = Orchestrator.exit_code (Orchestrator.runAllTests Orchestrator.CONFIG services_down) /\
  Orchestrator.exit_code (Orchestrator.run_all Orchestrator.CONFIG services_up)
  = Orchestrator.exit_code (Orchestrator.run_all Orchestrator.CONFIG services_down) /\
  Orchestrator.exit_code (Orchestrator.runAllTests Orchestrator.CONFIG services_up) <> None.
Proof.
  split; [vm_compute; reflexivity |].
  split; [vm_compute; reflexivity |].
  split; [vm_compute; reflexivity |].
  split; [vm_compute; reflexivity |].
  apply (preflight_does_not_gate_exit_code Orchestrator.CONFIG services_up services_down
           [(PASSED, true); (PASSED, true); (FAILED, false); (PASSED, false); (FAILED, false)]);
    vm_compute; reflexivity.
Defined.

Lemma preflight_probe_always_resolves_witness :
  sent (api_probe Orchestrator.CONFIG web_silent) /\
  sent (web_probe Orchestrator.CONFIG web_silent) /\
  exists apiHealthy webHealthy w',
    Orchestrator.checkServices Orchestrator.CONFIG web_silent
    = (Normal (apiHealthy, webHealthy), w') /\
    (apiHealthy = true <->
     exists hs b, api_probe Orchestrator.CONFIG web_silent = Responded 200 hs b) /\
    (webHealthy = true <->
     exists hs b, web_probe Orchestrator.CONFIG web_silent = Responded 200 hs b) /\
    (apiHealthy = false <->
       (exists sc hs b, api_probe Orchestrator.CONFIG web_silent = Responded sc hs b
                        /\ sc <> 200)
       \/ (exists err, api_probe Orchestrator.CONFIG web_silent = Failed err)
       \/ api_probe Orchestrator.CONFIG web_silent = Silent) /\
    (webHealthy = false <->
       (exists sc hs b, web_probe Orchestrator.CONFIG web_silent = Responded sc hs b
                        /\ sc <> 200)
       \/ (exists err, web_probe Orchestrator.CONFIG web_silent = Failed err)
       \/ web_probe Orchestrator.CONFIG web_silent = Silent).
Proof.
  split; [exact I |]. split; [exact I |].
  apply (preflight_probe_always_resolves Orchestrator.CONFIG web_silent); exact I.
Defined.

(** The exit codes of four runs: optional suites fail and the code is
    0; a required suite fails and the code is 1; [http.get] throws in
    the pre-flight check, [runAllTests] rejects and the code is 1. *)
Example exit_codes_of_four_runs :
  Orchestrator.exit_code (Orchestrator.run_all Orchestrator.CONFIG services_up) = Some 0 /\
  Orchestrator.exit_code (Orchestrator.run_all Orchestrator.CONFIG services_down) = Some 0 /\
  Orchestrator.exit_code (Orchestrator.run_all Orchestrator.CONFIG health_script_fails)
  = Some 1 /\
  fst (Orchestrator.checkServices Orchestrator.CONFIG web_silent) = Normal (true, false) /\
  fst (Orchestrator.runAllTests Orchestrator.CONFIG web_url_refused)
  = Throw (TypeError "Invalid URL") /\
  Orchestrator.exit_code (Orchestrator.run_all Orchestrator.CONFIG web_url_refused) = Some 1.
Proof. vm_compute. repeat split. Qed.

(* ------------------------------------------------------------------ *)
(** * Running a script step by step *)

Section Steps.
Context {S : Type}.

Lemma bind_ret {A B} (a : A) (k : A -> M S B) s : bind (ret a) k s = k a s.
Proof. reflexivity. Qed.

Lemma bind_throw_now {A B} e (k : A -> M S B) s :
  bind (throw e) k s = (Throw e, s).
Proof. reflexivity. Qed.

Lemma bind_assoc {A B C} (m : M S A) (f : A -> M S B) (g : B -> M S C) s :
  bind (bind m f) g s = bind m (fun a => bind (f a) g) s.
Proof.
  unfold bind. destruct (m s) as [[a | e | c] s']; reflexivity.
Qed.

Lemma bind_for_each_nil {X L B} (body : X -> L -> M S L) l (k : L -> M S B) s :
  bind (for_each [] body l) k s = k l s.
Proof. reflexivity. Qed.

Lemma bind_for_each_cons {X L B} (body : X -> L -> M S L) x rest l
    (k : L -> M S B) s :
  bind (for_each (x :: rest) body l) k s
  = bind (body x l) (fun l' => bind (for_each rest body l') k) s.
Proof.
  unfold bind at 1. rewrite for_each_cons. unfold bind.
  destruct (body x l s) as [[l' | e | c] s']; reflexivity.
Qed.

End Steps.

Lemma bind_log {Env B} msg color (k : unit -> M (World Env) B) (w : World Env) :
  bind (log msg color) k w
  = k tt (MkWorld (env w) (console w ++ [(color ++ msg ++ colors.reset)%string])).
Proof. reflexivity. Qed.

Lemma bind_parse_ok {Env} {P : Platform Env} {S B} text v (k : value -> M S B) s :
  JSON_parse text = inl v -> bind (parse text) k s = k v s.
Proof. intros H. unfold bind, parse. rewrite H. reflexivity. Qed.

Lemma bind_parse_error {Env} {P : Platform Env} {S B} text e (k : value -> M S B) s :
  JSON_parse text = inr e -> bind (parse text) k s = (Throw e, s).
Proof. intros H. unfold bind, parse. rewrite H. reflexivity. Qed.

Lemma bind_show {S B} v (k : string -> M S B) s :
  bind (show v) k s
  = match to_string v with
    | Some shown => k shown s
    | None => (Throw (TypeError "Cannot convert object to primitive value"), s)
    end.
Proof. unfold bind, show. destruct (to_string v); reflexivity. Qed.

Ltac steps :=
  repeat first
    [ rewrite bind_assoc
    | rewrite bind_show
    | rewrite bind_log
    | rewrite bind_ret
    | rewrite bind_throw_now
    | rewrite bind_for_each_nil
    | rewrite bind_for_each_cons
    | progress cbn [when negb andb orb statusCode headers body env console
                    Z.eqb Pos.eqb
                    get_prop fst snd] ].

(** Both ways a conversion to a string can go. *)
Ltac shown :=
  try (match goal with
       | |- context [to_string ?v] => destruct (to_string v)
       end; steps).


(* ------------------------------------------------------------------ *)
(** * What the test cases accept *)

Section Acceptance.
Context {Env : Type} {P : Platform Env}.
Variable cfg : Config.

Lemma bind_health_request {B} url options (k : ProbeResult -> M (World Env) B)
    (w : World Env) sc hs b e' :
  http_get url options (TIMEOUT cfg) (env w) = (Responded sc hs b, e') ->
  bind (HealthCheck.makeRequest cfg url options) k w
  = k (MkProbeResult sc hs b) (MkWorld e' (console w)).
Proof.
  intros H. apply bind_normal. apply health_request_responded. exact H.
Qed.

Lemma bind_integration_request {B} url options (k : ProbeResult -> M (World Env) B)
    (w : World Env) sc hs b e' :
  http_get url options (TIMEOUT cfg) (env w) = (Responded sc hs b, e') ->
  bind (Integration.makeRequest cfg url options) k w
  = k (MkProbeResult sc hs b) (MkWorld e' (console w)).
Proof.
  intros H. apply bind_normal. apply integration_request_responded. exact H.
Qed.

Lemma is_string_iff v text : is_string v text = true <-> v = VString text.
Proof.
  destruct v; cbn; split; try discriminate.
  - intros H. apply String.eqb_eq in H. subst. reflexivity.
  - intros H. injection H as ->. apply String.eqb_refl.
Qed.

Lemma field_is_string fields k text :
  is_string (field fields k) text = true <-> assoc k fields = Some (VString text).
Proof.
  rewrite is_string_iff. unfold field.
  destruct (assoc k fields) as [x |]; split; intros H; try discriminate; congruence.
Qed.

(** X1: [testApiHealth] of tests/health-check.js returns, with the
    parsed body, exactly when the response has status 200 and its body
    parses to an object whose [status] is the string ['ok']; any other
    JSON value, [null] and arrays included, makes it raise. *)
Theorem health_test_accepts_exactly_status_ok (w : World Env) sc hs b e' v :
  http_get (API_URL cfg ++ "/health")%string [] (TIMEOUT cfg) (env w)
  = (Responded sc hs b, e') ->
  (fst (HealthCheck.testApiHealth cfg w) = Normal v
   <-> sc = 200 /\ JSON_parse b = inl v /\
       exists fields, v = VObject fields
                      /\ assoc "status"%string fields = Some (VString "ok")).
Proof.
  intros Hget. unfold HealthCheck.testApiHealth. steps.
  erewrite bind_health_request by (cbn [env]; exact Hget). steps.
  destruct (Z.eqb_spec sc 200) as [-> | Hsc]; steps.
  2: { cbn [fst]. split; [discriminate | intros (Habs & _); contradiction]. }
  destruct (JSON_parse b) as [v0 | err] eqn:Hparse.
  2: { rewrite (bind_parse_error _ _ _ _ Hparse). cbn [fst].
       split; [discriminate | intros (_ & Habs & _); discriminate]. }
  rewrite (bind_parse_ok _ _ _ _ Hparse).
  destruct v0 as [| | bb | n | str | items | fields]; steps;
    try (cbn [is_string]; steps; shown; cbn [fst];
         (split;
          [discriminate
          | intros (_ & Hv & fields' & -> & _); discriminate Hv])).
  change (match assoc "status"%string fields with
          | Some x => x
          | None => VUndefined
          end) with (field fields "status").
  destruct (is_string (field fields "status") "ok") eqn:Hok; steps.
  - cbn [fst]. apply field_is_string in Hok. split.
    + intros H. injection H as <-. repeat split. exists fields. split; [reflexivity | exact Hok].
    + intros (_ & Hv & _). injection Hv as <-. reflexivity.
  - shown; cbn [fst]; (split; [discriminate |]);
      intros (_ & Hv & fields' & -> & Hst); injection Hv as ->;
      apply field_is_string in Hst; congruence.
Qed.


Ltac refuse :=
  cbn [fst]; split;
    [ discriminate
    | let H := fresh in intros H; decompose record H; subst; congruence ].

Ltac by_field k :=
  change (match assoc k ?fields with
          | Some x => x
          | None => VUndefined
          end) with (field fields k).

Ltac fold_fields :=
  repeat match goal with
    | |- context [match assoc ?k ?fields with Some x => x | None => VUndefined end] =>
        change (match assoc k fields with Some x => x | None => VUndefined end)
          with (field fields k)
    end.

Ltac need_truthy :=
  fold_fields;
  match goal with
  | |- context [truthy (field ?fields ?k)] =>
      destruct (truthy (field fields k)) eqn:?; steps; [| refuse]
  end.

(** X2: [testApiDetailedHealth] returns exactly when the response has
    status 200 and its body parses to an object whose [status] is
    ['healthy'], whose [timestamp], [version], [python_version],
    [system] and [services] are all truthy, and whose [python_version]
    and [platform] can be converted to a string for the two lines it
    prints.  [platform] need not be there; but a [python_version] or
    [platform] that is an object with a [toString] property of its own
    makes the test throw a [TypeError] after all its checks passed. *)
Theorem detailed_health_accepts_exactly (w : World Env) sc hs b e' v :
  http_get (API_URL cfg ++ "/health/detailed")%string [] (TIMEOUT cfg) (env w)
  = (Responded sc hs b, e') ->
  (fst (HealthCheck.testApiDetailedHealth cfg w) = Normal v
   <-> sc = 200 /\ JSON_parse b = inl v /\
       exists fields,
         v = VObject fields /\
         assoc "status"%string fields = Some (VString "healthy") /\
         truthy (field fields "timestamp") = true /\
         truthy (field fields "version") = true /\
         truthy (field fields "python_version") = true /\
         truthy (field fields "system") = true /\
         truthy (field fields "services") = true /\
         to_string (field fields "python_version") <> None /\
         to_string (field fields "platform") <> None) /\
  (forall fields,
     sc = 200 -> JSON_parse b = inl (VObject fields) ->
     assoc "status"%string fields = Some (VString "healthy") ->
     truthy (field fields "timestamp") = true ->
     truthy (field fields "version") = true ->
     truthy (field fields "python_version") = true ->
     truthy (field fields "system") = true ->
     truthy (field fields "services") = true ->
     to_string (field fields "python_version") = None
     \/ to_string (field fields "platform") = None ->
     fst (HealthCheck.testApiDetailedHealth cfg w)
     = Throw (TypeError "Cannot convert object to primitive value")).
Proof.
  intros Hget. unfold HealthCheck.testApiDetailedHealth. steps.
  erewrite bind_health_request by (cbn [env]; exact Hget). steps.
  destruct (Z.eqb_spec sc 200) as [-> | Hsc]; steps;
    [| split; [refuse | intros; contradiction]].
  destruct (JSON_parse b) as [v0 | err] eqn:Hparse;
    [rewrite (bind_parse_ok _ _ _ _ Hparse)
    | rewrite (bind_parse_error _ _ _ _ Hparse);
      split; [refuse | intros; discriminate]].
  destruct v0 as [| | bb | n | str | items | fields]; steps;
    try (cbn [is_string]; steps; shown;
         (split; [refuse | intros; discriminate])).
  fold_fields.
  destruct (is_string (field fields "status") "healthy") eqn:Hok; steps.
  2: { shown; (split;
         [ cbn [fst]; split; [discriminate |];
           intros (_ & Hv & fields' & -> & Hst & _); injection Hv as ->;
           apply field_is_string in Hst; congruence
         | intros fields' _ Hv Hst; injection Hv as <-;
           apply field_is_string in Hst; congruence ]). }
  apply field_is_string in Hok.
  fold_fields.
  destruct (truthy (field fields "timestamp")) eqn:H1; steps;
    [| split; [refuse | intros fields' _ Hv; injection Hv as <-; congruence]].
  fold_fields.
  destruct (truthy (field fields "version")) eqn:H2; steps;
    [| split; [refuse | intros fields' _ Hv; injection Hv as <-; congruence]].
  fold_fields.
  destruct (truthy (field fields "python_version")) eqn:H3; steps;
    [| split; [refuse | intros fields' _ Hv; injection Hv as <-; congruence]].
  fold_fields.
  destruct (truthy (field fields "system")) eqn:H4; steps;
    [| split; [refuse | intros fields' _ Hv; injection Hv as <-; congruence]].
  fold_fields.
  destruct (truthy (field fields "services")) eqn:H5; steps;
    [| split; [refuse | intros fields' _ Hv; injection Hv as <-; congruence]].
  fold_fields.
  destruct (to_string (field fields "python_version")) as [shown1 |] eqn:Hpy; steps.
  2: { split.
       - cbn [fst]. split; [discriminate |].
         intros (_ & Hv & fields' & -> & Hrest). injection Hv as ->.
         decompose record Hrest. congruence.
       - intros. reflexivity. }
  fold_fields.
  destruct (to_string (field fields "platform")) as [shown2 |] eqn:Hpl; steps.
  2: { split.
       - cbn [fst]. split; [discriminate |].
         intros (_ & Hv & fields' & -> & Hrest). injection Hv as ->.
         decompose record Hrest. congruence.
       - intros. reflexivity. }
  split.
  - cbn [fst]. split.
    + intros H. injection H as <-. split; [reflexivity |]. split; [reflexivity |].
      exists fields. rewrite Hpy, Hpl.
      repeat (split; [first [reflexivity | assumption | discriminate] |]).
      discriminate.
    + intros (_ & Hv & _). injection Hv as <-. reflexivity.
  - intros fields' _ Hv _ _ _ _ _ _ [Habs | Habs]; injection Hv as <-; congruence.
Qed.


(** X3: [testServiceDependencies] returns exactly when the response has
    status 200 and its body parses to an object whose [services] is an
    object with truthy [api] and [database]. *)
Theorem service_dependencies_accepts_exactly (w : World Env) sc hs b e' :
  http_get (API_URL cfg ++ "/health/detailed")%string [] (TIMEOUT cfg) (env w)
  = (Responded sc hs b, e') ->
  (fst (Integration.testServiceDependencies cfg w) = Normal VUndefined
   <-> sc = 200 /\
       exists fields services,
         JSON_parse b = inl (VObject fields) /\
         assoc "services"%string fields = Some (VObject services) /\
         truthy (field services "api") = true /\
         truthy (field services "database") = true).
Proof.
  intros Hget. unfold Integration.testServiceDependencies. steps.
  erewrite bind_integration_request by (cbn [env]; exact Hget). steps.
  destruct (Z.eqb_spec sc 200) as [-> | Hsc]; steps; [| refuse].
  destruct (JSON_parse b) as [v0 | err] eqn:Hparse;
    [rewrite (bind_parse_ok _ _ _ _ Hparse)
    | rewrite (bind_parse_error _ _ _ _ Hparse); refuse].
  destruct v0 as [| | bb | n | str | items | fields]; steps;
    try (cbn [truthy]; steps; refuse).
  destruct (assoc "services"%string fields) as [sv |] eqn:Hsv;
    [| cbn [truthy]; steps; refuse].
  destruct sv as [| | bb | n | str | items | services]; cbn [truthy]; steps;
    try refuse;
    try (destruct bb; steps; refuse);
    try (destruct (n =? 0); steps; refuse);
    try (destruct (str =? "")%string; steps; refuse).
  do 2 need_truthy.
  cbn [fst]. split; [intros _ | reflexivity].
  split; [reflexivity |]. exists fields, services. repeat split; assumption.
Qed.

(** X4: [testEnvironmentConfig] returns exactly when the response has
    status 200 and its body parses to an object with truthy
    [environment] and [allowed_hosts] and an array, empty or not, as
    [cors_origins], where [environment] and the elements of the array
    can be converted to a string for the two lines it prints.  Whether
    the array holds the frontend URL plays no part: its absence is
    logged as a warning.  A [cors_origins] that is a string gets past
    the field check and fails at [join]; an [environment] that is an
    object with a [toString] property of its own passes every check
    and makes the test throw a [TypeError]. *)
Theorem environment_config_accepts_exactly (w : World Env) sc hs b e' :
  http_get (API_URL cfg ++ "/api/status")%string [] (TIMEOUT cfg) (env w)
  = (Responded sc hs b, e') ->
  (fst (Integration.testEnvironmentConfig cfg w) = Normal VUndefined
   <-> sc = 200 /\
       exists fields origins,
         JSON_parse b = inl (VObject fields) /\
         truthy (field fields "environment") = true /\
         assoc "cors_origins"%string fields = Some (VArray origins) /\
         truthy (field fields "allowed_hosts") = true /\
         to_string (field fields "environment") <> None /\
         array_join ", " origins <> None) /\
  (forall fields origins,
     sc = 200 -> JSON_parse b = inl (VObject fields) ->
     truthy (field fields "environment") = true ->
     assoc "cors_origins"%string fields = Some (VArray origins) ->
     truthy (field fields "allowed_hosts") = true ->
     to_string (field fields "environment") = None
     \/ array_join ", " origins = None ->
     fst (Integration.testEnvironmentConfig cfg w)
     = Throw (TypeError "Cannot convert object to primitive value")).
Proof.
  intros Hget. split.
  - unfold Integration.testEnvironmentConfig. steps.
    erewrite bind_integration_request by (cbn [env]; exact Hget). steps.
    destruct (Z.eqb_spec sc 200) as [-> | Hsc]; steps; [| refuse].
    destruct (JSON_parse b) as [v0 | err] eqn:Hparse;
      [rewrite (bind_parse_ok _ _ _ _ Hparse)
      | rewrite (bind_parse_error _ _ _ _ Hparse); refuse].
    destruct v0 as [| | bb | n | str | items | fields]; steps;
      try (cbn [truthy]; steps; refuse).
    need_truthy.
    fold_fields. unfold field at 1 2 3.
    destruct (assoc "cors_origins"%string fields) as [cv |] eqn:Hcv;
      [| cbn [truthy]; steps; refuse].
    destruct cv as [| | bb | n | str | items | cfields]; cbn [truthy]; steps;
      try refuse;
      try (destruct bb; steps;
           [fold_fields; need_truthy; cbn [Integration.method_includes]; steps |];
           refuse);
      try (destruct (n =? 0); steps;
           [| fold_fields; need_truthy; cbn [Integration.method_includes]; steps];
           refuse);
      try (fold_fields; need_truthy; cbn [Integration.method_includes]; steps; refuse).
    + (* a string *)
      destruct (str =? "")%string; steps; [refuse |].
      fold_fields. need_truthy. cbn [Integration.method_includes]. steps.
      destruct (includes str (WEB_URL cfg)); steps; fold_fields; shown;
        cbn [Integration.method_join]; steps; refuse.
    + (* an array *)
      fold_fields. need_truthy. cbn [Integration.method_includes]. steps.
      destruct (existsb (fun item => is_string item (WEB_URL cfg)) items); steps;
        fold_fields;
        (destruct (to_string (field fields "environment")) as [shown1 |] eqn:Hshow;
         steps; [| refuse]);
        cbn [Integration.method_join];
        (destruct (array_join ", " items) as [joined |] eqn:Hjoin; steps; [| refuse]);
        cbn [fst];
        (split; [intros _ | reflexivity]);
        (split; [reflexivity |]); exists fields, items;
        rewrite Hshow, Hjoin;
        repeat (split; [first [reflexivity | assumption | discriminate] |]);
        discriminate.
  - intros fields origins -> Hparse Henv Hcors Hhosts Hbad.
    unfold Integration.testEnvironmentConfig. steps.
    erewrite bind_integration_request by (cbn [env]; exact Hget). steps.
    rewrite (bind_parse_ok _ _ _ _ Hparse). steps. fold_fields.
    rewrite Henv. steps. fold_fields.
    assert (Hcv : field fields "cors_origins" = VArray origins)
      by (unfold field; rewrite Hcors; reflexivity).
    rewrite Hcv. cbn [truthy]. steps. fold_fields.
    rewrite Hhosts. steps. fold_fields.
    cbn [Integration.method_includes]. steps.
    destruct (existsb (fun item => is_string item (WEB_URL cfg)) origins); steps;
      fold_fields;
      (destruct (to_string (field fields "environment")) as [shown1 |] eqn:Hshow;
       steps; [| reflexivity]);
      cbn [Integration.method_join];
      (destruct (array_join ", " origins) as [joined |] eqn:Hjoin; steps;
       [| reflexivity]);
      destruct Hbad as [Habs | Habs]; discriminate Habs.
Qed.


Lemma bind_try_catch {S A B} (m : M S A) (h : exn -> M S A) (k : A -> M S B) s :
  bind (try_catch m h) k s
  = match m s with
    | (Normal a, s') => k a s'
    | (Throw e, s') => bind (h e) k s'
    | (Exit c, s') => (Exit c, s')
    end.
Proof.
  unfold bind, try_catch. destruct (m s) as [[a | e | c] s']; reflexivity.
Qed.

(** X5: [testApiErrorHandling] returns exactly when the unknown
    endpoint answers 404 with a body that parses to an object with a
    truthy [detail], [message] or [error].  On a 404 every other
    outcome, a body that is valid JSON without those fields included,
    is reported as ['Error response is not valid JSON']: the catch
    around [JSON.parse] replaces the error thrown for the missing
    fields. *)
Theorem error_handling_accepts_exactly (w : World Env) sc hs b e' :
  http_get (API_URL cfg ++ "/nonexistent-endpoint")%string [] (TIMEOUT cfg) (env w)
  = (Responded sc hs b, e') ->
  (fst (Integration.testApiErrorHandling cfg w) = Normal VUndefined
   <-> sc = 404 /\
       exists fields,
         JSON_parse b = inl (VObject fields) /\
         truthy (field fields "detail") || truthy (field fields "message")
         || truthy (field fields "error") = true) /\
  (sc = 404 ->
   fst (Integration.testApiErrorHandling cfg w) = Normal VUndefined
   \/ fst (Integration.testApiErrorHandling cfg w)
      = Throw (Error "Error response is not valid JSON")).
Proof.
  intros Hget. unfold Integration.testApiErrorHandling. steps.
  erewrite bind_integration_request by (cbn [env]; exact Hget). steps.
  destruct (Z.eqb_spec sc 404) as [-> | Hsc]; steps.
  2: { split; [refuse | intros Habs; contradiction]. }
  rewrite bind_try_catch.
  destruct (JSON_parse b) as [v0 | err] eqn:Hparse;
    [rewrite (bind_parse_ok _ _ _ _ Hparse)
    | rewrite (bind_parse_error _ _ _ _ Hparse); steps;
      cbn [bind ret throw log fst];
      split; [refuse | intros _; right; reflexivity]].
  destruct v0 as [| | bb | n | str | items | fields]; steps;
    try (cbn [truthy]; steps; cbn [bind ret throw log fst];
         split; [refuse | intros _; right; reflexivity]).
  fold_fields.
  destruct (truthy (field fields "detail")) eqn:Hd,
           (truthy (field fields "message")) eqn:Hm,
           (truthy (field fields "error")) eqn:He;
    steps; cbn [bind ret throw log fst];
    first
      [ split; [| intros _; left; reflexivity];
        (split; [intros _ | reflexivity]);
        (split; [reflexivity |]); exists fields;
        (split; [reflexivity | rewrite Hd, Hm, He; reflexivity])
      | split; [| intros _; right; reflexivity];
        split; [discriminate |];
        intros (_ & fields' & Hv & Habs); injection Hv as <-;
        rewrite Hd, Hm, He in Habs; discriminate Habs ].
Qed.

(** X6: [testSecurityHeaders] returns exactly when the response has
    status 200 and a non-empty [content-type] header; the [server]
    header, listed as not required, changes nothing. *)
Theorem security_headers_accepts_exactly (w : World Env) sc hs b e' :
  http_get (API_URL cfg ++ "/health")%string [] (TIMEOUT cfg) (env w)
  = (Responded sc hs b, e') ->
  (fst (Integration.testSecurityHeaders cfg w) = Normal VUndefined
   <-> sc = 200 /\
       exists ct, assoc "content-type"%string hs = Some ct /\ ct <> EmptyString) /\
  (sc = 200 ->
   fst (Integration.testSecurityHeaders cfg w) = Normal VUndefined
   \/ fst (Integration.testSecurityHeaders cfg w)
      = Throw (Error "Missing required header: Content-Type")).
Proof.
  intros Hget. unfold Integration.testSecurityHeaders. steps.
  erewrite bind_integration_request by (cbn [env]; exact Hget). steps.
  destruct (Z.eqb_spec sc 200) as [-> | Hsc]; steps.
  2: { split; [refuse | intros Habs; contradiction]. }
  destruct (assoc "content-type"%string hs) as [ct |] eqn:Hct; steps.
  - destruct (String.eqb_spec ct EmptyString) as [-> | Hne]; steps; cbn [fst].
    + split; [| intros _; right; reflexivity].
      split; [discriminate |]. intros (_ & ct' & Hv & Habs). congruence.
    + split; [| intros _; left; reflexivity].
      split; [intros _ | reflexivity]. split; [reflexivity |].
      exists ct. split; [reflexivity | exact Hne].
  - cbn [fst]. split; [| intros _; right; reflexivity].
    split; [discriminate |]. intros (_ & ct' & Hv & _). discriminate Hv.
Qed.

End Acceptance.

Lemma health_test_accepts_exactly_status_ok_witness :
  http_get "http://localhost:8000/health"%string [] 10000 (env healthy_services)
  = (Responded 200 json_headers body_status_ok, env healthy_services) /\
  fst (HealthCheck.testApiHealth HealthCheck.CONFIG healthy_services)
  = Normal (VObject [("status", VString "ok")]%string).
Proof.
  split; [reflexivity |].
  apply (health_test_accepts_exactly_status_ok HealthCheck.CONFIG healthy_services
           200 json_headers body_status_ok (env healthy_services)); [reflexivity |].
  split; [reflexivity |]. split; [reflexivity |].
  eexists. split; reflexivity.
Defined.

Lemma detailed_health_accepts_exactly_witness :
  http_get "http://localhost:8000/health/detailed"%string [] 10000 (env healthy_services)
  = (Responded 200 json_headers body_detailed_health, env healthy_services) /\
  (exists fields,
     JSON_parse body_detailed_health = inl (VObject fields) /\
     assoc "platform"%string fields = None /\
     fst (HealthCheck.testApiDetailedHealth HealthCheck.CONFIG healthy_services)
     = Normal (VObject fields)) /\
  http_get "http://localhost:8000/health/detailed"%string [] 10000
    (env unprintable_values)
  = (Responded 200 json_headers body_detailed_health_unprintable,
     env unprintable_values) /\
  fst (HealthCheck.testApiDetailedHealth HealthCheck.CONFIG unprintable_values)
  = Throw (TypeError "Cannot convert object to primitive value").
Proof.
  split; [reflexivity |]. split.
  - eexists. split; [reflexivity |]. split; [reflexivity |].
    destruct (detailed_health_accepts_exactly HealthCheck.CONFIG healthy_services
                200 json_headers body_detailed_health (env healthy_services)
                (match JSON_parse body_detailed_health with
                 | inl v => v
                 | inr _ => VUndefined
                 end))
      as (Hiff & _); [reflexivity |].
    apply Hiff.
    split; [reflexivity |]. split; [reflexivity |].
    eexists. split; [reflexivity |].
    do 6 (split; [reflexivity |]). split; discriminate.
  - split; [reflexivity |].
    destruct (detailed_health_accepts_exactly HealthCheck.CONFIG unprintable_values
                200 json_headers body_detailed_health_unprintable
                (env unprintable_values) VUndefined)
      as (_ & Hthrow); [reflexivity |].
    eapply Hthrow; try reflexivity. left. reflexivity.
Defined.

Lemma service_dependencies_accepts_exactly_witness :
  http_get "http://localhost:8000/health/detailed"%string [] 15000 (env healthy_services)
  = (Responded 200 json_headers body_detailed_health, env healthy_services) /\
  fst (Integration.testServiceDependencies Integration.CONFIG healthy_services)
  = Normal VUndefined.
Proof.
  split; [reflexivity |].
  apply (service_dependencies_accepts_exactly Integration.CONFIG healthy_services
           200 json_headers body_detailed_health (env healthy_services));
    [reflexivity |].
  split; [reflexivity |]. do 2 eexists. repeat split; reflexivity.
Defined.

Lemma environment_config_accepts_exactly_witness :
  http_get "http://localhost:8000/api/status"%string [] 15000 (env healthy_services)
  = (Responded 200 json_headers body_api_status, env healthy_services) /\
  JSON_parse body_api_status
  = inl (VObject [("api_status", VString "operational");
                  ("environment", VString "dev");
                  ("cors_origins", VArray []);
                  ("allowed_hosts", VArray [VString "localhost"])]%string) /\
  fst (Integration.testEnvironmentConfig Integration.CONFIG healthy_services)
  = Normal VUndefined /\
  http_get "http://localhost:8000/api/status"%string [] 15000 (env unprintable_values)
  = (Responded 200 json_headers body_api_status_unprintable, env unprintable_values) /\
  JSON_parse body_api_status_unprintable
  = inl (VObject [("api_status", VString "operational");
                  ("environment", VObject [("toString", VNumber 1)]);
                  ("cors_origins", VArray []);
                  ("allowed_hosts", VArray [VString "localhost"])]%string) /\
  fst (Integration.testEnvironmentConfig Integration.CONFIG unprintable_values)
  = Throw (TypeError "Cannot convert object to primitive value").
Proof.
  split; [reflexivity |]. split; [reflexivity |]. split.
  - destruct (environment_config_accepts_exactly Integration.CONFIG healthy_services
                200 json_headers body_api_status (env healthy_services))
      as (Hiff & _); [reflexivity |].
    apply Hiff. split; [reflexivity |]. do 2 eexists.
    do 4 (split; [reflexivity |]). split; discriminate.
  - split; [reflexivity |]. split; [reflexivity |].
    destruct (environment_config_accepts_exactly Integration.CONFIG unprintable_values
                200 json_headers body_api_status_unprintable (env unprintable_values))
      as (_ & Hthrow); [reflexivity |].
    eapply Hthrow; try reflexivity. left. reflexivity.
Defined.

Lemma error_handling_accepts_exactly_witness :
  http_get "http://localhost:8000/nonexistent-endpoint"%string [] 15000
    (env healthy_services)
  = (Responded 404 json_headers body_not_found, env healthy_services) /\
  fst (Integration.testApiErrorHandling Integration.CONFIG healthy_services)
  = Normal VUndefined.
Proof.
  split; [reflexivity |].
  destruct (error_handling_accepts_exactly Integration.CONFIG healthy_services
              404 json_headers body_not_found (env healthy_services)) as [Hiff _];
    [reflexivity |].
  apply Hiff.
  split; [reflexivity |]. eexists. split; reflexivity.
Defined.

Lemma security_headers_accepts_exactly_witness :
  http_get "http://localhost:8000/health"%string [] 15000 (env healthy_services)
  = (Responded 200 json_headers body_status_ok, env healthy_services) /\
  fst (Integration.testSecurityHeaders Integration.CONFIG healthy_services)
  = Normal VUndefined.
Proof.
  split; [reflexivity |].
  destruct (security_headers_accepts_exactly Integration.CONFIG healthy_services
              200 json_headers body_status_ok (env healthy_services)) as [Hiff _];
    [reflexivity |].
  apply Hiff.
  split; [reflexivity |]. eexists. split; [reflexivity | discriminate].
Defined.

(* ------------------------------------------------------------------ *)
(** * What the retry wrapper reports *)

Section WrapperOutcome.
Context {Env : Type} {P : Platform Env}.
Variable cfg : Config.
Context {A : Type}.
Variable testFn : M (World Env) A.
Variable testName : string.

(** An earlier turn whose invocation throws: the world it leaves is
    the one of the invocation with the retry line logged and the delay
    elapsed. *)
Lemma health_attempt_retries_world retries i h e w' :
  testFn (world h) = (Throw e, w') ->
  i <> retries - 1 ->
  exists cons,
    HealthCheck.testWithRetry_attempt cfg testFn testName retries i tt h
    = (Normal (Continue tt),
       MkHarness (MkWorld (timer_elapse (RETRY_DELAY cfg) (env w')) cons)
         (history h ++ [Invoked testName (Throw e); Slept (RETRY_DELAY cfg)])).
Proof.
  intros H Hi. unfold HealthCheck.testWithRetry_attempt, try_catch, bind, invoke.
  rewrite H. cbn [forget].
  destruct (Z.eqb_spec i (retries - 1)) as [Heq | _]; [contradiction |].
  eexists. unfold when, ret, lift, log, HealthCheck.sleep. cbn.
  rewrite <- app_assoc. reflexivity.
Qed.

Lemma ci_attempt_retries_world retries i h e w' :
  testFn (world h) = (Throw e, w') ->
  i <> retries - 1 ->
  exists cons,
    CIHealthCheck.testWithRetry_attempt cfg testFn testName retries i tt h
    = (Normal (Continue tt),
       MkHarness (MkWorld (timer_elapse (RETRY_DELAY cfg) (env w')) cons)
         (history h ++ [Invoked testName (Throw e); Slept (RETRY_DELAY cfg)])).
Proof.
  intros H Hi. unfold CIHealthCheck.testWithRetry_attempt, try_catch, bind, invoke.
  rewrite H. cbn [forget].
  destruct (Z.eqb_spec i (retries - 1)) as [Heq | _]; [contradiction |].
  eexists. unfold ret, lift, log, CIHealthCheck.sleep. cbn.
  rewrite <- app_assoc. reflexivity.
Qed.

Lemma health_loop_outcome retries m :
  forall k h,
    Z.of_nat k + Z.of_nat (S m) = retries ->
    exists errs c h',
      for_of (map Z.of_nat (seq k (S m)))
        (HealthCheck.testWithRetry_attempt cfg testFn testName retries) tt h
      = (loop_outcome tt c, h') /\
      (List.length errs <= m)%nat /\
      history h' = history h ++ failed_attempts testName (RETRY_DELAY cfg) errs
                             ++ [Invoked testName c] /\
      (forall e, c = Throw e -> List.length errs = m).
Proof.
  induction m as [| m IH]; intros k h Hk.
  - cbn [seq map for_of].
    destruct (testFn (world h)) as [[a | e | code] w'] eqn:Hrun.
    + exists [], (Normal tt). eexists.
      split.
      { rewrite (bind_normal _ _ _ _ _
                   (health_attempt_passes cfg testFn testName retries _ h a w' Hrun)).
        reflexivity. }
      split; [cbn; lia |]. split; [reflexivity | discriminate].
    + exists [], (Throw e). eexists.
      split.
      { apply bind_throw.
        apply (health_attempt_rethrows cfg testFn testName retries _ h e w' Hrun). lia. }
      split; [cbn; lia |]. split; reflexivity.
    + exists [], (Exit code). eexists.
      split.
      { apply bind_exit.
        apply (health_attempt_exits cfg testFn testName retries _ h code w' Hrun). }
      split; [cbn; lia |]. split; [reflexivity | discriminate].
  - change (seq k (S (S m))) with (k :: seq (S k) (S m)). cbn [map for_of].
    destruct (testFn (world h)) as [[a | e | code] w'] eqn:Hrun.
    + exists [], (Normal tt). eexists.
      split.
      { rewrite (bind_normal _ _ _ _ _
                   (health_attempt_passes cfg testFn testName retries _ h a w' Hrun)).
        reflexivity. }
      split; [cbn; lia |]. split; [reflexivity | discriminate].
    + destruct (health_attempt_retries cfg testFn testName retries (Z.of_nat k) h e w' Hrun)
        as (w1 & Hstep); [lia |].
      destruct (IH (S k) (MkHarness w1
                  (history h ++ [Invoked testName (Throw e); Slept (RETRY_DELAY cfg)])))
        as (errs & c & h' & Hloop & Hlen & Hhist & Hlast); [lia |].
      exists (e :: errs), c, h'.
      split; [| split; [| split]].
      * rewrite (bind_normal _ _ _ _ _ Hstep). exact Hloop.
      * cbn. lia.
      * rewrite Hhist. cbn [history failed_attempts flat_map].
        rewrite <- !app_assoc. reflexivity.
      * intros e0 He0. cbn. rewrite (Hlast e0 He0). reflexivity.
    + exists [], (Exit code). eexists.
      split.
      { apply bind_exit.
        apply (health_attempt_exits cfg testFn testName retries _ h code w' Hrun). }
      split; [cbn; lia |]. split; [reflexivity | discriminate].
Qed.

(** X7: whatever the test case does, the wrapper of
    tests/health-check.js, which tests/integration/run-tests.js shares,
    ends as its last invocation ended: with at least one attempt to
    make, the history it adds is a run of failed invocations, each
    followed by the delay, and one last invocation whose outcome is the
    outcome of the wrapper.  It invokes the test at most [N] times, and
    exactly [N] times when it throws. *)
Theorem retry_outcome_is_last_attempt retries_arg h :
  let N := default_arg retries_arg (RETRY_COUNT cfg) in
  let run := HealthCheck.testWithRetry cfg testFn testName retries_arg h in
  1 <= N ->
  exists errs,
    Z.of_nat (List.length errs) < N /\
    history (snd run)
    = history h ++ failed_attempts testName (RETRY_DELAY cfg) errs
                ++ [Invoked testName (fst run)] /\
    (forall e, fst run = Throw e -> Z.of_nat (List.length errs) = N - 1) /\
    Integration.testWithRetry cfg testFn testName retries_arg h = run.
Proof.
  intros N run HN.
  destruct (health_loop_outcome N (Nat.pred (Z.to_nat N)) 0%nat h)
    as (errs & c & h' & Hloop & Hlen & Hhist & Hlast); [lia |].
  assert (Hrun : run = (c, h')).
  { unfold run, HealthCheck.testWithRetry. fold N. unfold indices.
    replace (Z.to_nat N) with (S (Nat.pred (Z.to_nat N))) by lia.
    unfold bind. rewrite Hloop. destruct c as [[] | e | code]; reflexivity. }
  exists errs. rewrite Hrun. cbn [fst snd].
  split; [lia |]. split; [exact Hhist |]. split; [| rewrite <- Hrun; reflexivity].
  intros e He. rewrite (Hlast e He). lia.
Qed.

Lemma ci_loop_outcome retries m :
  forall k h,
    Z.of_nat k + Z.of_nat (S m) = retries ->
    exists errs c h',
      for_of (map Z.of_nat (seq k (S m)))
        (CIHealthCheck.testWithRetry_attempt cfg testFn testName retries) tt h
      = (match c with
         | Normal _ => Normal (Return (VBool true))
         | Throw _ => Normal (Return (VBool false))
         | Exit code => Exit code
         end, h') /\
      (List.length errs <= m)%nat /\
      history h' = history h ++ failed_attempts testName (RETRY_DELAY cfg) errs
                             ++ [Invoked testName c] /\
      (forall e, c = Throw e -> List.length errs = m).
Proof.
  induction m as [| m IH]; intros k h Hk.
  - cbn [seq map for_of].
    destruct (testFn (world h)) as [[a | e | code] w'] eqn:Hrun.
    + exists [], (Normal tt). eexists.
      split.
      { rewrite (bind_normal _ _ _ _ _
                   (ci_attempt_passes cfg testFn testName retries _ h a w' Hrun)).
        reflexivity. }
      split; [cbn; lia |]. split; [reflexivity | discriminate].
    + destruct (ci_attempt_gives_up cfg testFn testName retries (Z.of_nat k) h e w' Hrun)
        as (w1 & Hstep); [lia |].
      exists [], (Throw e). eexists.
      split.
      { rewrite (bind_normal _ _ _ _ _ Hstep). reflexivity. }
      split; [cbn; lia |]. split; reflexivity.
    + exists [], (Exit code). eexists.
      split.
      { apply bind_exit.
        apply (ci_attempt_exits cfg testFn testName retries _ h code w' Hrun). }
      split; [cbn; lia |]. split; [reflexivity | discriminate].
  - change (seq k (S (S m))) with (k :: seq (S k) (S m)). cbn [map for_of].
    destruct (testFn (world h)) as [[a | e | code] w'] eqn:Hrun.
    + exists [], (Normal tt). eexists.
      split.
      { rewrite (bind_normal _ _ _ _ _
                   (ci_attempt_passes cfg testFn testName retries _ h a w' Hrun)).
        reflexivity. }
      split; [cbn; lia |]. split; [reflexivity | discriminate].
    + destruct (ci_attempt_retries cfg testFn testName retries (Z.of_nat k) h e w' Hrun)
        as (w1 & Hstep); [lia |].
      destruct (IH (S k) (MkHarness w1
                  (history h ++ [Invoked testName (Throw e); Slept (RETRY_DELAY cfg)])))
        as (errs & c & h' & Hloop & Hlen & Hhist & Hlast); [lia |].
      exists (e :: errs), c, h'.
      split; [| split; [| split]].
      * rewrite (bind_normal _ _ _ _ _ Hstep). exact Hloop.
      * cbn. lia.
      * rewrite Hhist. cbn [history failed_attempts flat_map].
        rewrite <- !app_assoc. reflexivity.
      * intros e0 He0. cbn. rewrite (Hlast e0 He0). reflexivity.
    + exists [], (Exit code). eexists.
      split.
      { apply bind_exit.
        apply (ci_attempt_exits cfg testFn testName retries _ h code w' Hrun). }
      split; [cbn; lia |]. split; [reflexivity | discriminate].
Qed.

(** X8: the wrapper of tests/ci-health-check.js turns the outcome of
    its last invocation into a boolean: with at least one attempt to
    make it returns [true] when the last invocation returned, and
    [false], after exactly [N] invocations, when the last one threw;
    the history is a run of failed invocations, each followed by the
    delay, and that last invocation. *)
Theorem ci_retry_reports_last_attempt retries_arg h :
  let N := default_arg retries_arg (RETRY_COUNT cfg) in
  let run := CIHealthCheck.testWithRetry cfg testFn testName retries_arg h in
  1 <= N ->
  exists errs c,
    Z.of_nat (List.length errs) < N /\
    history (snd run)
    = history h ++ failed_attempts testName (RETRY_DELAY cfg) errs
                ++ [Invoked testName c] /\
    match c with
    | Normal _ => fst run = Normal (VBool true)
    | Throw _ => fst run = Normal (VBool false)
                 /\ Z.of_nat (List.length errs) = N - 1
    | Exit code => fst run = Exit code
    end.
Proof.
  intros N run HN.
  destruct (ci_loop_outcome N (Nat.pred (Z.to_nat N)) 0%nat h)
    as (errs & c & h' & Hloop & Hlen & Hhist & Hlast); [lia |].
  assert (Hrun : run = (match c with
                        | Normal _ => Normal (VBool true)
                        | Throw _ => Normal (VBool false)
                        | Exit code => Exit code
                        end, h')).
  { unfold run, CIHealthCheck.testWithRetry. fold N. unfold indices.
    replace (Z.to_nat N) with (S (Nat.pred (Z.to_nat N))) by lia.
    unfold bind. rewrite Hloop. destruct c as [[] | e | code]; reflexivity. }
  exists errs, c. rewrite Hrun. cbn [fst snd].
  split; [lia |]. split; [exact Hhist |].
  destruct c as [[] | e | code]; [reflexivity | | reflexivity].
  split; [reflexivity |]. rewrite (Hlast e eq_refl). lia.
Qed.

(** X9: a failure that does not last is absorbed.  When the first
    invocation throws and the test case returns in the world the delay
    leaves, whatever was logged meanwhile, all three wrappers return
    normally (the one of tests/ci-health-check.js with [true]) after
    two invocations and one delay, provided they have two attempts. *)
Theorem retry_recovers_on_second_attempt retries_arg h e w1 :
  let N := default_arg retries_arg (RETRY_COUNT cfg) in
  let trace := [Invoked testName (Throw e); Slept (RETRY_DELAY cfg);
                Invoked testName (Normal tt)] in
  2 <= N ->
  testFn (world h) = (Throw e, w1) ->
  (forall cons, exists a w2,
     testFn (MkWorld (timer_elapse (RETRY_DELAY cfg) (env w1)) cons) = (Normal a, w2)) ->
  (exists w', HealthCheck.testWithRetry cfg testFn testName retries_arg h
              = (Normal tt, MkHarness w' (history h ++ trace))) /\
  (exists w', Integration.testWithRetry cfg testFn testName retries_arg h
              = (Normal tt, MkHarness w' (history h ++ trace))) /\
  (exists w', CIHealthCheck.testWithRetry cfg testFn testName retries_arg h
              = (Normal (VBool true), MkHarness w' (history h ++ trace))).
Proof.
  intros N trace HN Hfirst Hsecond.
  assert (Hidx : indices N = 0 :: 1 :: map Z.of_nat (seq 2 (Z.to_nat N - 2))).
  { unfold indices.
    replace (Z.to_nat N) with (S (S (Z.to_nat N - 2))) at 1 by lia. reflexivity. }
  assert (Hhealth : exists w',
            HealthCheck.testWithRetry cfg testFn testName retries_arg h
            = (Normal tt, MkHarness w' (history h ++ trace))).
  { destruct (health_attempt_retries_world N 0 h e w1 Hfirst) as (cons & Hstep);
      [lia |].
    destruct (Hsecond cons) as (a & w2 & Hpass).
    exists w2. unfold HealthCheck.testWithRetry. fold N. rewrite Hidx.
    cbn [for_of]. unfold bind at 1 2. rewrite Hstep.
    unfold bind at 1.
    match type of Hstep with
    | _ = (_, ?h1) =>
        rewrite (health_attempt_passes cfg testFn testName N 1 h1 a w2 Hpass)
    end.
    cbn [ret history]. rewrite <- app_assoc. reflexivity. }
  split; [exact Hhealth |]. split; [exact Hhealth |].
  destruct (ci_attempt_retries_world N 0 h e w1 Hfirst) as (cons & Hstep); [lia |].
  destruct (Hsecond cons) as (a & w2 & Hpass).
  exists w2. unfold CIHealthCheck.testWithRetry. fold N. rewrite Hidx.
  cbn [for_of]. unfold bind at 1 2. rewrite Hstep.
  unfold bind at 1.
  match type of Hstep with
  | _ = (_, ?h1) =>
      rewrite (ci_attempt_passes cfg testFn testName N 1 h1 a w2 Hpass)
  end.
  cbn [ret history]. rewrite <- app_assoc. reflexivity.
Qed.

End WrapperOutcome.

Lemma retry_outcome_is_last_attempt_witness :
  1 <= default_arg None (RETRY_COUNT HealthCheck.CONFIG) /\
  exists errs,
    Z.of_nat (List.length errs) < default_arg None (RETRY_COUNT HealthCheck.CONFIG) /\
    history (snd (HealthCheck.testWithRetry HealthCheck.CONFIG
                    (HealthCheck.testApiHealth HealthCheck.CONFIG) "API Health" None
                    api_waking_up))
    = history api_waking_up
      ++ failed_attempts "API Health" (RETRY_DELAY HealthCheck.CONFIG) errs
      ++ [Invoked "API Health"
            (fst (HealthCheck.testWithRetry HealthCheck.CONFIG
                    (HealthCheck.testApiHealth HealthCheck.CONFIG) "API Health" None
                    api_waking_up))] /\
    (forall e,
       fst (HealthCheck.testWithRetry HealthCheck.CONFIG
              (HealthCheck.testApiHealth HealthCheck.CONFIG) "API Health" None
              api_waking_up) = Throw e ->
       Z.of_nat (List.length errs)
       = default_arg None (RETRY_COUNT HealthCheck.CONFIG) - 1) /\
    Integration.testWithRetry HealthCheck.CONFIG
      (HealthCheck.testApiHealth HealthCheck.CONFIG) "API Health" None api_waking_up
    = HealthCheck.testWithRetry HealthCheck.CONFIG
        (HealthCheck.testApiHealth HealthCheck.CONFIG) "API Health" None api_waking_up.
Proof.
  split; [vm_compute; discriminate |].
  apply (retry_outcome_is_last_attempt HealthCheck.CONFIG
           (HealthCheck.testApiHealth HealthCheck.CONFIG) "API Health" None
           api_waking_up).
  vm_compute. discriminate.
Defined.

Lemma ci_retry_reports_last_attempt_witness :
  1 <= default_arg (Some 2) (RETRY_COUNT CIHealthCheck.CONFIG) /\
  exists errs c,
    Z.of_nat (List.length errs) < 2 /\
    history (snd (CIHealthCheck.testWithRetry CIHealthCheck.CONFIG always_down
                    "API Health" (Some 2) idle))
    = history idle
      ++ failed_attempts "API Health" (RETRY_DELAY CIHealthCheck.CONFIG) errs
      ++ [Invoked "API Health" c] /\
    match c with
    | Normal _ =>
        fst (CIHealthCheck.testWithRetry CIHealthCheck.CONFIG always_down
               "API Health" (Some 2) idle) = Normal (VBool true)
    | Throw _ =>
        fst (CIHealthCheck.testWithRetry CIHealthCheck.CONFIG always_down
               "API Health" (Some 2) idle) = Normal (VBool false)
        /\ Z.of_nat (List.length errs) = 2 - 1
    | Exit code =>
        fst (CIHealthCheck.testWithRetry CIHealthCheck.CONFIG always_down
               "API Health" (Some 2) idle) = Exit code
    end.
Proof.
  split; [vm_compute; discriminate |].
  apply (ci_retry_reports_last_attempt CIHealthCheck.CONFIG always_down
           "API Health" (Some 2) idle).
  vm_compute. discriminate.
Defined.

Lemma retry_recovers_on_second_attempt_witness :
  2 <= default_arg None (RETRY_COUNT HealthCheck.CONFIG) /\
  fst (HealthCheck.testApiHealth HealthCheck.CONFIG (world api_waking_up))
  = Throw (Error "connect ECONNREFUSED") /\
  fst (HealthCheck.testWithRetry HealthCheck.CONFIG
         (HealthCheck.testApiHealth HealthCheck.CONFIG) "API Health" None api_waking_up)
  = Normal tt /\
  fst (CIHealthCheck.testWithRetry HealthCheck.CONFIG
         (HealthCheck.testApiHealth HealthCheck.CONFIG) "API Health" None api_waking_up)
  = Normal (VBool true).
Proof.
  split; [vm_compute; discriminate |]. split; [reflexivity |].
  destruct (retry_recovers_on_second_attempt HealthCheck.CONFIG
              (HealthCheck.testApiHealth HealthCheck.CONFIG) "API Health" None
              api_waking_up (Error "connect ECONNREFUSED")
              (snd (HealthCheck.testApiHealth HealthCheck.CONFIG (world api_waking_up))))
    as ((w' & Hhealth) & _ & (w'' & Hci)).
  - vm_compute. discriminate.
  - reflexivity.
  - intros cons. do 2 eexists. reflexivity.
  - rewrite Hhealth, Hci. split; reflexivity.
Defined.

(* ------------------------------------------------------------------ *)
(** * The exit codes of the three test scripts *)

Lemma bind_lift_log {Env B} msg color (k : unit -> M (Harness Env) B) (h : Harness Env) :
  bind (lift (log msg color)) k h
  = k tt (MkHarness
            (MkWorld (env (world h))
               (console (world h) ++ [(color ++ msg ++ colors.reset)%string]))
            (history h)).
Proof. reflexivity. Qed.

Lemma bind_lift_now {Env} {P : Platform Env} {B} (k : Z -> M (Harness Env) B)
    (h : Harness Env) :
  bind (lift now) k h = k (Date_now (env (world h))) (MkHarness (world h) (history h)).
Proof. reflexivity. Qed.

Lemma bind_lift_read_log {Env B} (line : World Env -> string) color
    (k : unit -> M (Harness Env) B) (h : Harness Env) :
  bind (lift (bind (fun w => (Normal w, w)) (fun w => log (line w) color))) k h
  = k tt (MkHarness
            (MkWorld (env (world h))
               (console (world h) ++ [(color ++ line (world h) ++ colors.reset)%string]))
            (history h)).
Proof. reflexivity. Qed.

Ltac script_steps :=
  repeat first
    [ rewrite bind_assoc
    | rewrite bind_lift_log
    | rewrite bind_lift_now
    | rewrite bind_lift_read_log
    | rewrite bind_ret
    | progress cbn [world history env console] ].

Section Scripts.
Context {Env : Type} {P : Platform Env}.
Variable cfg : Config.

Lemma health_retry_passes {A} (testFn : M (World Env) A) testName retries_arg h :
  always_passes testFn ->
  fst (HealthCheck.testWithRetry cfg testFn testName retries_arg h) = Normal tt.
Proof.
  intros Hpass. unfold HealthCheck.testWithRetry.
  set (N := default_arg retries_arg (RETRY_COUNT cfg)).
  destruct (Z_le_gt_dec N 0) as [Hle | Hgt].
  - rewrite (indices_nonpositive _ Hle). reflexivity.
  - unfold indices. replace (Z.to_nat N) with (S (Nat.pred (Z.to_nat N))) by lia.
    cbn [seq map for_of]. destruct (Hpass (world h)) as (a & w' & Hrun).
    unfold bind at 1 2.
    rewrite (health_attempt_passes cfg testFn testName N _ h a w' Hrun).
    reflexivity.
Qed.

Lemma ci_retry_passes {A} (testFn : M (World Env) A) testName retries_arg h :
  1 <= default_arg retries_arg (RETRY_COUNT cfg) ->
  always_passes testFn ->
  fst (CIHealthCheck.testWithRetry cfg testFn testName retries_arg h)
  = Normal (VBool true).
Proof.
  intros HN Hpass. unfold CIHealthCheck.testWithRetry.
  set (N := default_arg retries_arg (RETRY_COUNT cfg)) in *.
  unfold indices. replace (Z.to_nat N) with (S (Nat.pred (Z.to_nat N))) by lia.
  cbn [seq map for_of]. destruct (Hpass (world h)) as (a & w' & Hrun).
  unfold bind at 1 2.
  rewrite (ci_attempt_passes cfg testFn testName N _ h a w' Hrun).
  reflexivity.
Qed.

Lemma ci_retry_skips {A} (testFn : M (World Env) A) testName retries_arg h :
  default_arg retries_arg (RETRY_COUNT cfg) <= 0 ->
  CIHealthCheck.testWithRetry cfg testFn testName retries_arg h = (Normal VUndefined, h).
Proof.
  intros H. unfold CIHealthCheck.testWithRetry.
  rewrite (indices_nonpositive _ H). reflexivity.
Qed.

Lemma ci_attempt_never_exits {A} (testFn : M (World Env) A) testName retries i :
  never_exits testFn ->
  never_exits (CIHealthCheck.testWithRetry_attempt cfg testFn testName retries i tt).
Proof.
  intros Hne h c h' Habs.
  destruct (testFn (world h)) as [[a | e | c0] w'] eqn:Hrun.
  - rewrite (ci_attempt_passes cfg testFn testName retries i h a w' Hrun) in Habs.
    discriminate.
  - destruct (Z.eq_dec i (retries - 1)) as [Hi | Hi].
    + destruct (ci_attempt_gives_up cfg testFn testName retries i h e w' Hrun Hi)
        as (w1 & Hstep).
      rewrite Hstep in Habs. discriminate.
    + destruct (ci_attempt_retries cfg testFn testName retries i h e w' Hrun Hi)
        as (w1 & Hstep).
      rewrite Hstep in Habs. discriminate.
  - exact (Hne _ _ _ Hrun).
Qed.

Lemma ci_retry_never_exits {A} (testFn : M (World Env) A) testName retries_arg :
  never_exits testFn ->
  never_exits (CIHealthCheck.testWithRetry cfg testFn testName retries_arg).
Proof.
  intros Hne. unfold CIHealthCheck.testWithRetry.
  apply never_exits_bind.
  - apply never_exits_for_of. intros i []. apply ci_attempt_never_exits, Hne.
  - intros [[] | v]; apply never_exits_ret.
Qed.

Lemma health_loop_tally tests h :
  Forall (fun t => never_exits (fn t)) tests ->
  exists passed failed h',
    HealthCheck.runHealthChecks_loop cfg tests h = (Normal (passed, failed), h') /\
    0 <= failed /\
    (Forall (fun t => always_passes (fn t)) tests -> failed = 0) /\
    (1 <= RETRY_COUNT cfg -> Exists (fun t => always_fails (fn t)) tests -> 1 <= failed) /\
    (RETRY_COUNT cfg <= 0 -> failed = 0).
Proof.
  intros Hne.
  destruct (for_each_invariant (HealthCheck.runHealthChecks_turn cfg)
              (fun done '(p, f) (_ : Harness Env) =>
                 0 <= f /\
                 (Forall (fun t => always_passes (fn t)) done -> f = 0) /\
                 (1 <= RETRY_COUNT cfg ->
                  Exists (fun t => always_fails (fn t)) done -> 1 <= f) /\
                 (RETRY_COUNT cfg <= 0 -> f = 0))
              (fun t => never_exits (fn t))) with (xs := tests) (done := @nil (TestCase Env))
              (l := (0, 0)) (s := h)
    as ([p f] & h' & Hrun & HP).
  - intros done test [p f] h1 Ht (Hf & Hpass & Hfail & Hnone).
    destruct (health_turn cfg test p f h1 Ht)
      as (p' & f' & w' & Hturn & Hmove & Hok & Hko).
    exists (p', f'). eexists. split; [exact Hturn |].
    split; [lia |]. split; [| split].
    3: { intros Hle. destruct Hok as (_ & -> & _); [| exact (Hnone Hle)].
         rewrite (health_retry_skips cfg (fn test) (name test) None h1 Hle).
         reflexivity. }
    + intros Hall. apply Forall_app in Hall. destruct Hall as (Hdone & Hlast).
      inversion Hlast as [| t ts Ht' _]; subst.
      destruct Hok as (_ & -> & _); [apply health_retry_passes; exact Ht' |].
      exact (Hpass Hdone).
    + intros HN Hex. apply Exists_app in Hex. destruct Hex as [Hex | Hex].
      * specialize (Hfail HN Hex). lia.
      * inversion Hex as [t ts Ht' | t ts Habs]; subst; [| inversion Habs].
        destruct (health_retry_exhausts cfg (fn test) (name test) None h1 HN Ht')
          as (errs & w2 & _ & Hrun).
        destruct (Hko (last errs (Error EmptyString))) as (_ & ->);
          [rewrite Hrun; reflexivity | lia].
  - exact Hne.
  - split; [lia |]. split; [reflexivity |].
    split; [intros _ Habs; inversion Habs | reflexivity].
  - exists p, f, h'. split; [exact Hrun | exact HP].
Qed.

Lemma integration_loop_tally tests h :
  Forall (fun t => never_exits (fn t)) tests ->
  exists passed failed results h',
    Integration.runIntegrationTests_loop cfg tests h
    = (Normal (passed, failed, results), h') /\
    0 <= failed /\
    (Forall (fun t => always_passes (fn t)) tests -> failed = 0) /\
    (1 <= RETRY_COUNT cfg -> Exists (fun t => always_fails (fn t)) tests -> 1 <= failed) /\
    (RETRY_COUNT cfg <= 0 -> failed = 0).
Proof.
  intros Hne.
  destruct (for_each_invariant (Integration.runIntegrationTests_turn cfg)
              (fun done '(p, f, results) (_ : Harness Env) =>
                 0 <= f /\
                 (Forall (fun t => always_passes (fn t)) done -> f = 0) /\
                 (1 <= RETRY_COUNT cfg ->
                  Exists (fun t => always_fails (fn t)) done -> 1 <= f) /\
                 (RETRY_COUNT cfg <= 0 -> f = 0))
              (fun t => never_exits (fn t))) with (xs := tests) (done := @nil (TestCase Env))
              (l := (0, 0, @nil Integration.TestResult)) (s := h)
    as ([[p f] results] & h' & Hrun & HP).
  - intros done test [[p f] results] h1 Ht (Hf & Hpass & Hfail & Hnone).
    destruct (integration_turn cfg test p f results h1 Ht)
      as (p' & f' & r & w' & Hturn & Hmove & _ & Hok & Hko).
    exists (p', f', results ++ [r]). eexists. split; [exact Hturn |].
    split; [lia |]. split; [| split].
    3: { intros Hle. destruct Hok as (Hst & _).
         - rewrite integration_retry_is_health_retry.
           rewrite (health_retry_skips cfg (fn test) (name test) None _ Hle).
           reflexivity.
         - destruct Hmove as [(_ & -> & _) | (_ & _ & Habs)]; [| congruence].
           exact (Hnone Hle). }
    + intros Hall. apply Forall_app in Hall. destruct Hall as (Hdone & Hlast).
      inversion Hlast as [| t ts Ht' _]; subst.
      destruct Hok as (Hst & _);
        [rewrite integration_retry_is_health_retry;
         apply health_retry_passes; exact Ht' |].
      destruct Hmove as [(_ & -> & _) | (_ & _ & Habs)]; [| congruence].
      exact (Hpass Hdone).
    + intros HN Hex. apply Exists_app in Hex. destruct Hex as [Hex | Hex].
      * specialize (Hfail HN Hex). lia.
      * inversion Hex as [t ts Ht' | t ts Habs]; subst; [| inversion Habs].
        destruct (health_retry_exhausts cfg (fn test) (name test) None
                    (MkHarness (world h1) (history h1)) HN Ht')
          as (errs & w2 & _ & Hrun).
        destruct (Hko (last errs (Error EmptyString))) as (_ & -> & _);
          [rewrite integration_retry_is_health_retry, Hrun; reflexivity | lia].
  - exact Hne.
  - split; [lia |]. split; [reflexivity |].
    split; [intros _ Habs; inversion Habs | reflexivity].
  - exists p, f, results, h'. split; [exact Hrun | exact HP].
Qed.

(** One turn of the loop of tests/ci-health-check.js: the boolean the
    wrapper returns moves one of the counters. *)
Lemma ci_turn test passed failed h :
  never_exits (fn test) ->
  exists v h1,
    CIHealthCheck.testWithRetry cfg (fn test) (name test) None h = (Normal v, h1) /\
    CIHealthCheck.runCIHealthChecks_turn cfg test (passed, failed) h
    = (Normal (if truthy v then (passed + 1, failed) else (passed, failed + 1)), h1).
Proof.
  intros Hne. unfold CIHealthCheck.runCIHealthChecks_turn.
  destruct (CIHealthCheck.testWithRetry cfg (fn test) (name test) None h)
    as [[v | e | c] h1] eqn:Hrun.
  - exists v, h1. split; [reflexivity |].
    rewrite (bind_normal _ _ _ _ _ Hrun). destruct (truthy v); reflexivity.
  - exfalso. exact (ci_retry_never_throws cfg (fn test) (name test) None _ _ _ Hrun).
  - exfalso. exact (ci_retry_never_exits (fn test) (name test) None Hne _ _ _ Hrun).
Qed.

Lemma ci_loop_tally tests h :
  Forall (fun t => never_exits (fn t)) tests ->
  exists passed failed h',
    CIHealthCheck.runCIHealthChecks_loop cfg tests h = (Normal (passed, failed), h') /\
    passed + failed = Z.of_nat (List.length tests) /\
    0 <= passed /\ 0 <= failed /\
    (1 <= RETRY_COUNT cfg ->
     Forall (fun t => always_passes (fn t)) tests -> failed = 0) /\
    (1 <= RETRY_COUNT cfg ->
     Exists (fun t => always_fails (fn t)) tests -> 1 <= failed) /\
    (RETRY_COUNT cfg <= 0 ->
     passed = 0 /\ history h' = history h /\ env (world h') = env (world h)).
Proof.
  intros Hne.
  destruct (for_each_invariant (CIHealthCheck.runCIHealthChecks_turn cfg)
              (fun done '(p, f) (h' : Harness Env) =>
                 p + f = Z.of_nat (List.length done) /\
                 0 <= p /\ 0 <= f /\
                 (1 <= RETRY_COUNT cfg ->
                  Forall (fun t => always_passes (fn t)) done -> f = 0) /\
                 (1 <= RETRY_COUNT cfg ->
                  Exists (fun t => always_fails (fn t)) done -> 1 <= f) /\
                 (RETRY_COUNT cfg <= 0 ->
                  p = 0 /\ history h' = history h /\ env (world h') = env (world h)))
              (fun t => never_exits (fn t))) with (xs := tests) (done := @nil (TestCase Env))
              (l := (0, 0)) (s := h)
    as ([p f] & h' & Hrun & HP).
  - intros done test [p f] h1 Ht (Hsum & Hp & Hf & Hpass & Hfail & Hnone).
    destruct (ci_turn test p f h1 Ht) as (v & h2 & Hwrap & Hturn).
    exists (if truthy v then (p + 1, f) else (p, f + 1)), h2.
    split; [exact Hturn |].
    assert (Hlen : Z.of_nat (List.length (done ++ [test]))
                   = Z.of_nat (List.length done) + 1)
      by (rewrite length_app, Nat2Z.inj_add; reflexivity).
    rewrite Hlen.
    destruct (Z_le_gt_dec (RETRY_COUNT cfg) 0) as [Hle | Hgt].
    + rewrite (ci_retry_skips (fn test) (name test) None h1 Hle) in Hwrap.
      injection Hwrap as <- <-. cbn [truthy].
      destruct (Hnone Hle) as (-> & Hh & He).
      split; [lia |]. split; [lia |]. split; [lia |].
      split; [intros; lia |]. split; [intros; lia |].
      intros _. split; [reflexivity |]. split; assumption.
    + assert (HN : 1 <= RETRY_COUNT cfg) by lia.
      assert (Hcount : (if truthy v then (p + 1, f) else (p, f + 1))
                       = (p + 1, f) \/
                       (if truthy v then (p + 1, f) else (p, f + 1))
                       = (p, f + 1))
        by (destruct (truthy v); [left | right]; reflexivity).
      assert (Hok : always_passes (fn test) -> truthy v = true).
      { intros Ht'.
        pose proof (ci_retry_passes (fn test) (name test) None h1 HN Ht') as Hr.
        rewrite Hwrap in Hr. injection Hr as ->. reflexivity. }
      assert (Hko : always_fails (fn test) -> truthy v = false).
      { intros Ht'.
        destruct (ci_retry_exhausts cfg (fn test) (name test) None h1 HN Ht')
          as (errs & w2 & _ & Hr).
        rewrite Hwrap in Hr. injection Hr as -> _. reflexivity. }
      destruct (truthy v) eqn:Hv.
      * split; [lia |]. split; [lia |]. split; [lia |]. split; [| split].
        -- intros _ Hall. apply Forall_app in Hall. exact (Hpass HN (proj1 Hall)).
        -- intros _ Hex. apply Exists_app in Hex. destruct Hex as [Hex | Hex].
           ++ exact (Hfail HN Hex).
           ++ inversion Hex as [t ts Ht' | t ts Habs]; subst; [| inversion Habs].
              specialize (Hko Ht'). discriminate Hko.
        -- intros Habs. lia.
      * split; [lia |]. split; [lia |]. split; [lia |]. split; [| split].
        -- intros _ Hall. apply Forall_app in Hall. destruct Hall as (_ & Hlast).
           inversion Hlast as [| t ts Ht' _]; subst.
           specialize (Hok Ht'). discriminate Hok.
        -- intros _ _. lia.
        -- intros Habs. lia.
  - exact Hne.
  - split; [reflexivity |]. split; [lia |]. split; [lia |].
    split; [reflexivity |]. split; [intros _ Habs; inversion Habs |].
    intros _. repeat split.
  - exists p, f, h'. split; [exact Hrun | exact HP].
Qed.

Lemma for_each_logged {X} (xs : list X) (line : X -> string) color :
  forall h : Harness Env, exists h',
    for_each xs (fun x (_ : unit) => lift (log (line x) color)) tt h = (Normal tt, h') /\
    history h' = history h /\ env (world h') = env (world h).
Proof.
  induction xs as [| x rest IH]; intros h.
  - exists h. repeat split.
  - rewrite for_each_cons, bind_lift_log.
    destruct (IH (MkHarness
                    (MkWorld (env (world h))
                       (console (world h) ++ [(color ++ line x ++ colors.reset)%string]))
                    (history h))) as (h' & Hrun & Hh & He).
    exists h'. split; [exact Hrun |]. split; assumption.
Qed.

Lemma health_script_runs (tests : list (TestCase Env)) (h : Harness Env) :
  Forall (fun t => never_exits (fn t)) tests ->
  exists code h',
    HealthCheck.runHealthChecks_of cfg tests h = (Exit code, h') /\
    (code = 0 \/ code = 1) /\
    (Forall (fun t => always_passes (fn t)) tests -> code = 0) /\
    (1 <= RETRY_COUNT cfg ->
     Exists (fun t => always_fails (fn t)) tests -> code = 1) /\
    (RETRY_COUNT cfg <= 0 -> code = 0).
Proof.
  intros Hne.
  unfold HealthCheck.runHealthChecks_of. script_steps.
  match goal with
  | |- context [bind (HealthCheck.runHealthChecks_loop cfg tests) _ ?h1] =>
      destruct (health_loop_tally tests h1 Hne)
        as (p & f & h2 & Hloop & Hf & Hpass & Hfail & Hnone);
      rewrite (bind_normal _ _ _ _ _ Hloop)
  end.
  script_steps.
  destruct (Z.gtb_spec f 0) as [Hpos | Hzero]; script_steps;
    unfold process_exit; do 2 eexists; (split; [reflexivity |]).
  - split; [right; reflexivity |]. split; [intros Hall | split; [reflexivity |]].
    + specialize (Hpass Hall). lia.
    + intros Hle. specialize (Hnone Hle). lia.
  - split; [left; reflexivity |].
    split; [reflexivity | split; [intros HN Hex | reflexivity]].
    specialize (Hfail HN Hex). lia.
Qed.

Lemma integration_script_runs (tests : list (TestCase Env)) (h : Harness Env) :
  Forall (fun t => never_exits (fn t)) tests ->
  exists code h',
    Integration.runIntegrationTests_of cfg tests h = (Exit code, h') /\
    (code = 0 \/ code = 1) /\
    (Forall (fun t => always_passes (fn t)) tests -> code = 0) /\
    (1 <= RETRY_COUNT cfg ->
     Exists (fun t => always_fails (fn t)) tests -> code = 1) /\
    (RETRY_COUNT cfg <= 0 -> code = 0).
Proof.
  intros Hne.
  unfold Integration.runIntegrationTests_of. script_steps.
  match goal with
  | |- context [bind (Integration.runIntegrationTests_loop cfg tests) _ ?h1] =>
      destruct (integration_loop_tally tests h1 Hne)
        as (p & f & results & h2 & Hloop & Hf & Hpass & Hfail & Hnone);
      rewrite (bind_normal _ _ _ _ _ Hloop)
  end.
  script_steps.
  match goal with
  | |- context [bind (for_each results
                        (fun result _ => lift (log (@?line result) ?color)) tt) _ ?h3] =>
      destruct (for_each_logged results line color h3) as (h4 & Hprint & _);
      rewrite (bind_normal _ _ _ _ _ Hprint)
  end.
  script_steps.
  destruct (Z.gtb_spec f 0) as [Hpos | Hzero]; script_steps;
    unfold process_exit; do 2 eexists; (split; [reflexivity |]).
  - split; [right; reflexivity |]. split; [intros Hall | split; [reflexivity |]].
    + specialize (Hpass Hall). lia.
    + intros Hle. specialize (Hnone Hle). lia.
  - split; [left; reflexivity |].
    split; [reflexivity | split; [intros HN Hex | reflexivity]].
    specialize (Hfail HN Hex). lia.
Qed.

Lemma ci_script_runs (tests : list (TestCase Env)) (h : Harness Env) :
  Forall (fun t => never_exits (fn t)) tests ->
  exists code h',
    CIHealthCheck.runCIHealthChecks_of cfg tests h = (Exit code, h') /\
    (code = 0 \/ code = 1) /\
    (1 <= RETRY_COUNT cfg ->
     Forall (fun t => always_passes (fn t)) tests -> code = 0) /\
    (1 <= RETRY_COUNT cfg ->
     Exists (fun t => always_fails (fn t)) tests -> code = 1) /\
    (RETRY_COUNT cfg <= 0 ->
     (tests = [] -> code = 0) /\ (tests <> [] -> code = 1) /\
     history h' = history h /\ env (world h') = env (world h)).
Proof.
  intros Hne.
  unfold CIHealthCheck.runCIHealthChecks_of. script_steps.
  match goal with
  | |- context [bind (CIHealthCheck.runCIHealthChecks_loop cfg tests) _ ?h1] =>
      destruct (ci_loop_tally tests h1 Hne)
        as (p & f & h2 & Hloop & Hsum & Hp & Hf & Hpass & Hfail & Hnone);
      rewrite (bind_normal _ _ _ _ _ Hloop)
  end.
  script_steps.
  destruct (Z.gtb_spec f 0) as [Hpos | Hzero]; script_steps;
    unfold process_exit; do 2 eexists; (split; [reflexivity |]).
  - split; [right; reflexivity |]. split; [intros HN Hall | split; [reflexivity |]].
    + specialize (Hpass HN Hall). lia.
    + intros Hle. destruct (Hnone Hle) as (-> & Hh & He).
      split; [intros ->; cbn in Hsum; lia |]. split; [reflexivity |].
      cbn [history world env]. split; assumption.
  - split; [left; reflexivity |].
    split; [reflexivity | split; [intros HN Hex |]].
    + specialize (Hfail HN Hex). lia.
    + intros Hle. destruct (Hnone Hle) as (-> & Hh & He).
      split; [reflexivity |].
      split; [intros Hnil; destruct tests; [contradiction | cbn in Hsum; lia] |].
      cbn [history world env]. split; assumption.
Qed.

(** X10: tests/health-check.js and tests/integration/run-tests.js always
    end in [process.exit] with code 0 or 1, whatever their test cases
    do short of exiting themselves.  The code is 0 when every test case
    always passes, 1 when some test case always fails and the wrapper
    has an attempt to make, and 0 whatever the test cases do when the
    wrapper has none. *)
Theorem suite_scripts_exit_code (tests : list (TestCase Env)) (h : Harness Env) :
  Forall (fun t => never_exits (fn t)) tests ->
  (exists code h',
     HealthCheck.runHealthChecks_of cfg tests h = (Exit code, h') /\
     (code = 0 \/ code = 1) /\
     (Forall (fun t => always_passes (fn t)) tests -> code = 0) /\
     (1 <= RETRY_COUNT cfg ->
      Exists (fun t => always_fails (fn t)) tests -> code = 1) /\
     (RETRY_COUNT cfg <= 0 -> code = 0)) /\
  (exists code h',
     Integration.runIntegrationTests_of cfg tests h = (Exit code, h') /\
     (code = 0 \/ code = 1) /\
     (Forall (fun t => always_passes (fn t)) tests -> code = 0) /\
     (1 <= RETRY_COUNT cfg ->
      Exists (fun t => always_fails (fn t)) tests -> code = 1) /\
     (RETRY_COUNT cfg <= 0 -> code = 0)).
Proof.
  intros Hne. split.
  - exact (health_script_runs tests h Hne).
  - exact (integration_script_runs tests h Hne).
Qed.

(** X11: tests/ci-health-check.js always ends in [process.exit] with
    code 0 or 1 as well, and with an attempt to make it agrees with the
    other two scripts.  With none it is the other way round: the
    wrapper returns [undefined], every test case counts as failed, and
    the script exits with 1 without having invoked a single test. *)
Theorem ci_script_exit_code (tests : list (TestCase Env)) (h : Harness Env) :
  Forall (fun t => never_exits (fn t)) tests ->
  exists code h',
    CIHealthCheck.runCIHealthChecks_of cfg tests h = (Exit code, h') /\
    (code = 0 \/ code = 1) /\
    (1 <= RETRY_COUNT cfg ->
     Forall (fun t => always_passes (fn t)) tests -> code = 0) /\
    (1 <= RETRY_COUNT cfg ->
     Exists (fun t => always_fails (fn t)) tests -> code = 1) /\
    (RETRY_COUNT cfg <= 0 -> tests <> [] ->
     code = 1 /\ history h' = history h /\ env (world h') = env (world h)).
Proof.
  intros Hne.
  destruct (ci_script_runs tests h Hne)
    as (code & h' & Hrun & Hcode & Hpass & Hfail & Hnone).
  exists code, h'. split; [exact Hrun |]. split; [exact Hcode |].
  split; [exact Hpass |]. split; [exact Hfail |].
  intros Hle Hne'. destruct (Hnone Hle) as (_ & Hone & Hh & He).
  split; [exact (Hone Hne') |]. split; assumption.
Qed.

End Scripts.

Section ScriptsAsRegistered.
Context {Env : Type} {P : Platform Env}.
Variable cfg : Config.

(** X12: run as main modules, the three test scripts end in
    [process.exit] with code 0 or 1 in every run all of whose requests
    settle (each [http_get] comes to a [NetEvent]): such a run does not
    end with an uncaught error, and the handlers of the scripts'
    [.catch] do not run, the exit being the one of the run function
    itself.  A response whose body never ends leaves [makeRequest]
    pending and the script without an exit; no state of [Env] describes
    that run. *)
Theorem scripts_always_exit (h : Harness Env) :
  (exists code h',
     HealthCheck.main cfg h = (Exit code, h') /\
     HealthCheck.runHealthChecks cfg h = (Exit code, h') /\
     (code = 0 \/ code = 1)) /\
  (exists code h',
     Integration.main cfg h = (Exit code, h') /\
     Integration.runIntegrationTests cfg h = (Exit code, h') /\
     (code = 0 \/ code = 1)) /\
  (exists code h',
     CIHealthCheck.main cfg h = (Exit code, h') /\
     CIHealthCheck.runCIHealthChecks cfg h = (Exit code, h') /\
     (code = 0 \/ code = 1)).
Proof.
  split; [| split].
  - destruct (health_script_runs cfg (HealthCheck.tests cfg) h
                (health_tests_never_exit cfg))
      as (code & h' & Hrun & Hcode & _).
    exists code, h'. split; [| split; [exact Hrun | exact Hcode]].
    unfold HealthCheck.main, try_catch.
    unfold HealthCheck.runHealthChecks. rewrite Hrun. reflexivity.
  - destruct (integration_script_runs cfg (Integration.tests cfg) h
                (integration_tests_never_exit cfg))
      as (code & h' & Hrun & Hcode & _).
    exists code, h'. split; [| split; [exact Hrun | exact Hcode]].
    unfold Integration.main, try_catch.
    unfold Integration.runIntegrationTests. rewrite Hrun. reflexivity.
  - destruct (ci_script_runs cfg (CIHealthCheck.tests cfg) h
                (ci_tests_never_exit cfg))
      as (code & h' & Hrun & Hcode & _).
    exists code, h'. split; [| split; [exact Hrun | exact Hcode]].
    unfold CIHealthCheck.main, try_catch.
    unfold CIHealthCheck.runCIHealthChecks. rewrite Hrun. reflexivity.
Qed.

End ScriptsAsRegistered.

Lemma suite_scripts_exit_code_witness :
  Forall (fun t => never_exits (fn t)) [test_A; test_B] /\
  1 <= RETRY_COUNT HealthCheck.CONFIG /\
  Exists (fun t => always_fails (fn t)) [test_A; test_B] /\
  fst (HealthCheck.runHealthChecks_of HealthCheck.CONFIG [test_A; test_B] idle) = Exit 1 /\
  fst (Integration.runIntegrationTests_of HealthCheck.CONFIG [test_A; test_B] idle)
  = Exit 1.
Proof.
  assert (Hfails : Exists (fun t => always_fails (fn t)) [test_A; test_B])
    by (left; exact always_down_fails).
  assert (HN : 1 <= RETRY_COUNT HealthCheck.CONFIG) by (vm_compute; discriminate).
  split; [exact scenario_tests_never_exit |]. split; [exact HN |].
  split; [exact Hfails |].
  destruct (suite_scripts_exit_code HealthCheck.CONFIG [test_A; test_B] idle
              scenario_tests_never_exit)
    as ((c1 & h1 & Hrun1 & _ & _ & Hone1 & _) & (c2 & h2 & Hrun2 & _ & _ & Hone2 & _)).
  rewrite Hrun1, Hrun2, (Hone1 HN Hfails), (Hone2 HN Hfails). split; reflexivity.
Defined.

Lemma ci_script_exit_code_witness :
  Forall (fun t => never_exits (fn t)) [test_B] /\
  RETRY_COUNT CONFIG_without_attempts <= 0 /\
  always_passes (fn test_B) /\
  fst (CIHealthCheck.runCIHealthChecks_of CONFIG_without_attempts [test_B] idle)
  = Exit 1 /\
  fst (HealthCheck.runHealthChecks_of CONFIG_without_attempts [test_B] idle) = Exit 0.
Proof.
  assert (Hne : Forall (fun t => never_exits (fn t)) [test_B]).
  { constructor; [| constructor]. intros s c s' Habs. discriminate Habs. }
  assert (HN : RETRY_COUNT CONFIG_without_attempts <= 0) by (vm_compute; discriminate).
  split; [exact Hne |]. split; [exact HN |].
  split; [intros s; do 2 eexists; reflexivity |].
  destruct (ci_script_exit_code CONFIG_without_attempts [test_B] idle Hne)
    as (code & h' & Hrun & _ & _ & _ & Hnone).
  rewrite Hrun. destruct (Hnone HN) as (-> & _); [discriminate |].
  split; reflexivity.
Defined.

(* ------------------------------------------------------------------ *)
(** * A service that answers with the wrong status *)

Section Outage.
Context {Env : Type} {P : Platform Env}.
Variable cfg : Config.

Lemma bind_ci_request {B} url (k : ProbeResult -> M (World Env) B)
    (w : World Env) sc hs b e' :
  http_get url [] (TIMEOUT cfg) (env w) = (Responded sc hs b, e') ->
  bind (CIHealthCheck.makeRequest cfg url None) k w
  = k (MkProbeResult sc hs b) (MkWorld e' (console w)).
Proof.
  intros H. apply bind_normal. apply ci_request_responded. exact H.
Qed.

Lemma bind_now {B} (k : Z -> M (World Env) B) (w : World Env) :
  bind now k w = k (Date_now (env w)) w.
Proof. reflexivity. Qed.

Ltac answered Hall :=
  match goal with
  | |- context [bind (HealthCheck.makeRequest cfg ?url ?options) _ _] =>
      let hs := fresh "hs" in let b := fresh "b" in
      let e' := fresh "e'" in let Hget := fresh "Hget" in
      destruct (Hall url options (TIMEOUT cfg)) as (hs & b & e' & Hget);
      erewrite bind_health_request by (cbn [env]; exact Hget)
  | |- context [bind (Integration.makeRequest cfg ?url ?options) _ _] =>
      let hs := fresh "hs" in let b := fresh "b" in
      let e' := fresh "e'" in let Hget := fresh "Hget" in
      destruct (Hall url options (TIMEOUT cfg)) as (hs & b & e' & Hget);
      erewrite bind_integration_request by (cbn [env]; exact Hget)
  | |- context [bind (CIHealthCheck.makeRequest cfg ?url None) _ _] =>
      let hs := fresh "hs" in let b := fresh "b" in
      let e' := fresh "e'" in let Hget := fresh "Hget" in
      destruct (Hall url (@nil (string * string)) (TIMEOUT cfg))
        as (hs & b & e' & Hget);
      erewrite bind_ci_request by (cbn [env]; exact Hget)
  end.

Ltac wrong_status Hall Hsc :=
  steps; try rewrite bind_now; steps; answered Hall; steps;
  try rewrite bind_now; steps;
  match goal with
  | |- context [?sc =? ?expected] =>
      destruct (Z.eqb_spec sc expected) as [Heq | _]; [contradiction |]
  end;
  steps;
  match goal with
  | |- exists what w', (Throw (Error (?p ++ ?q ++ ?r ++ string_of_Z _)), ?w0) = _ =>
      exists (p ++ q ++ r)%string, w0; reflexivity
  | |- exists what w', (Throw (Error (?p ++ string_of_Z _)), ?w0) = _ =>
      exists p, w0; reflexivity
  end.

Lemma health_tests_report_status sc (w : World Env) :
  sc <> 200 -> answers_all_with sc (env w) ->
  Forall (reports_status sc w) (HealthCheck.tests cfg).
Proof.
  intros Hsc Hall. unfold HealthCheck.tests.
  repeat constructor; unfold reports_status; cbn [fn].
  - unfold HealthCheck.testApiHealth. wrong_status Hall Hsc.
  - unfold HealthCheck.testApiDetailedHealth. wrong_status Hall Hsc.
  - unfold HealthCheck.testApiStatus. wrong_status Hall Hsc.
  - unfold HealthCheck.testApiDocs. wrong_status Hall Hsc.
  - unfold HealthCheck.testWebHealth. wrong_status Hall Hsc.
  - unfold HealthCheck.testWebHealthPage. wrong_status Hall Hsc.
  - unfold HealthCheck.testCORS. wrong_status Hall Hsc.
Qed.

Lemma ci_tests_report_status sc (w : World Env) :
  sc <> 200 -> answers_all_with sc (env w) ->
  Forall (reports_status sc w) (CIHealthCheck.tests cfg).
Proof.
  intros Hsc Hall. unfold CIHealthCheck.tests.
  repeat constructor; unfold reports_status; cbn [fn].
  - unfold CIHealthCheck.testApiHealth. wrong_status Hall Hsc.
  - unfold CIHealthCheck.testApiDocs. wrong_status Hall Hsc.
  - unfold CIHealthCheck.testWebFrontend. wrong_status Hall Hsc.
  - unfold CIHealthCheck.testWebHealthPage. wrong_status Hall Hsc.
Qed.

Lemma integration_tests_report_status sc (w : World Env) :
  sc <> 200 -> sc <> 404 -> answers_all_with sc (env w) ->
  Forall (reports_status sc w) (Integration.tests cfg).
Proof.
  intros Hsc Hsc' Hall. unfold Integration.tests.
  repeat constructor; unfold reports_status; cbn [fn].
  - unfold Integration.testApiResponseTime. wrong_status Hall Hsc.
  - unfold Integration.testApiContentTypes. wrong_status Hall Hsc.
  - unfold Integration.testApiErrorHandling. wrong_status Hall Hsc.
  - unfold Integration.testWebPerformance. wrong_status Hall Hsc.
  - unfold Integration.testFullStackCommunication. wrong_status Hall Hsc.
  - unfold Integration.testServiceDependencies. wrong_status Hall Hsc.
  - unfold Integration.testEnvironmentConfig. wrong_status Hall Hsc.
  - unfold Integration.testSecurityHeaders. wrong_status Hall Hsc.
Qed.

(** X13: a service that answers every request with a status other than
    200 makes every test case of tests/health-check.js and of
    tests/ci-health-check.js throw an error whose message ends with
    that status, at its first request; so does every test case of
    tests/integration/run-tests.js unless the status is 404, the one
    its error-handling test asks for. *)
Theorem tests_report_unexpected_status sc (w : World Env) :
  sc <> 200 ->
  answers_all_with sc (env w) ->
  Forall (reports_status sc w) (HealthCheck.tests cfg) /\
  Forall (reports_status sc w) (CIHealthCheck.tests cfg) /\
  (sc <> 404 -> Forall (reports_status sc w) (Integration.tests cfg)).
Proof.
  intros Hsc Hall. split; [| split].
  - exact (health_tests_report_status sc w Hsc Hall).
  - exact (ci_tests_report_status sc w Hsc Hall).
  - intros Hsc'. exact (integration_tests_report_status sc w Hsc Hsc' Hall).
Qed.

Lemma reported_is_failure sc (tests : list (TestCase Env)) :
  (forall w, Forall (reports_status sc w) tests) ->
  Forall (fun t => always_fails (fn t)) tests.
Proof.
  intros Hall. induction tests as [| t rest IH]; constructor.
  - intros w. specialize (Hall w). inversion Hall as [| ? ? (what & w' & Hrun) _]; subst.
    do 2 eexists. exact Hrun.
  - apply IH. intros w. specialize (Hall w). inversion Hall; assumption.
Qed.

(** X14: while such an outage lasts, each of the three test scripts
    run as a main module exits with code 1, provided its wrapper has an
    attempt to make. *)
Theorem outage_fails_every_script sc (h : Harness Env) :
  sc <> 200 -> sc <> 404 ->
  (forall e, answers_all_with sc e) ->
  1 <= RETRY_COUNT cfg ->
  (exists h', HealthCheck.main cfg h = (Exit 1, h')) /\
  (exists h', Integration.main cfg h = (Exit 1, h')) /\
  (exists h', CIHealthCheck.main cfg h = (Exit 1, h')).
Proof.
  intros Hsc Hsc' Hall HN. split; [| split].
  - destruct (health_script_runs cfg (HealthCheck.tests cfg) h
                (health_tests_never_exit cfg))
      as (code & h' & Hrun & _ & _ & Hfail & _).
    rewrite (Hfail HN) in Hrun.
    + exists h'. unfold HealthCheck.main, try_catch, HealthCheck.runHealthChecks.
      rewrite Hrun. reflexivity.
    + pose proof (reported_is_failure sc (HealthCheck.tests cfg)
                    (fun w => health_tests_report_status sc w Hsc (Hall (env w))))
        as Hfails.
      inversion Hfails; subst. left. assumption.
  - destruct (integration_script_runs cfg (Integration.tests cfg) h
                (integration_tests_never_exit cfg))
      as (code & h' & Hrun & _ & _ & Hfail & _).
    rewrite (Hfail HN) in Hrun.
    + exists h'. unfold Integration.main, try_catch, Integration.runIntegrationTests.
      rewrite Hrun. reflexivity.
    + pose proof (reported_is_failure sc (Integration.tests cfg)
                    (fun w => integration_tests_report_status sc w Hsc Hsc'
                                (Hall (env w))))
        as Hfails.
      inversion Hfails; subst. left. assumption.
  - destruct (ci_script_runs cfg (CIHealthCheck.tests cfg) h
                (ci_tests_never_exit cfg))
      as (code & h' & Hrun & _ & _ & Hfail & _).
    rewrite (Hfail HN) in Hrun.
    + exists h'. unfold CIHealthCheck.main, try_catch, CIHealthCheck.runCIHealthChecks.
      rewrite Hrun. reflexivity.
    + pose proof (reported_is_failure sc (CIHealthCheck.tests cfg)
                    (fun w => ci_tests_report_status sc w Hsc (Hall (env w))))
        as Hfails.
      inversion Hfails; subst. left. assumption.
Qed.

End Outage.

Lemma tests_report_unexpected_status_witness :
  503 <> 200 /\
  @answers_all_with Scripted.Env (out_of_service 503) 503
    (env (world idle)) /\
  Forall (reports_status 503 (world idle))
    (@HealthCheck.tests Scripted.Env (out_of_service 503)
       (@HealthCheck.CONFIG Scripted.Env (out_of_service 503))) /\
  fst (@HealthCheck.testApiHealth Scripted.Env (out_of_service 503)
         (@HealthCheck.CONFIG Scripted.Env (out_of_service 503)) (world idle))
  = Throw (Error "API health check failed with status 503").
Proof.
  assert (Hall : @answers_all_with Scripted.Env (out_of_service 503) 503
                   (env (world idle)))
    by (intros url options timeout; do 3 eexists; reflexivity).
  split; [discriminate |]. split; [exact Hall |].
  split; [| reflexivity].
  apply (@tests_report_unexpected_status Scripted.Env (out_of_service 503)
           (@HealthCheck.CONFIG Scripted.Env (out_of_service 503)) 503 (world idle));
    [discriminate | exact Hall].
Defined.

Lemma outage_fails_every_script_witness :
  503 <> 200 /\ 503 <> 404 /\
  (forall e, @answers_all_with Scripted.Env (out_of_service 503) 503 e) /\
  1 <= RETRY_COUNT (@HealthCheck.CONFIG Scripted.Env (out_of_service 503)) /\
  fst (@HealthCheck.main Scripted.Env (out_of_service 503)
         (@HealthCheck.CONFIG Scripted.Env (out_of_service 503)) idle) = Exit 1.
Proof.
  assert (Hall : forall e, @answers_all_with Scripted.Env (out_of_service 503) 503 e)
    by (intros e url options timeout; do 3 eexists; reflexivity).
  assert (HN : 1 <= RETRY_COUNT (@HealthCheck.CONFIG Scripted.Env (out_of_service 503)))
    by (vm_compute; discriminate).
  split; [discriminate |]. split; [discriminate |]. split; [exact Hall |].
  split; [exact HN |].
  destruct (@outage_fails_every_script Scripted.Env (out_of_service 503)
              (@HealthCheck.CONFIG Scripted.Env (out_of_service 503)) 503 idle)
    as ((h' & Hrun) & _); [discriminate | discriminate | exact Hall | exact HN |].
  rewrite Hrun. reflexivity.
Defined.

(* ------------------------------------------------------------------ *)
(** * The suites of run-tests.js and the processes they spawn *)

Section OrchestratorRuns.
Context {Env : Type} {P : Platform Env}.
Variable cfg : Config.

(** A command awaited inside [try], followed by what the [try] goes on
    with, under the [catch] of the suite. *)
Lemma try_runCommand {A} command args options (k : Z -> M (World Env) A)
    (handler : exn -> M (World Env) A) (w : World Env) :
  try_catch (bind (Orchestrator.runCommand command args options) k) handler w
  = match child_spawn command args options (env w) with
    | (Closed (Some code), e') =>
        if code =? 0 then try_catch (k code) handler (MkWorld e' (console w))
        else handler (Error ("Command failed with exit code " ++ string_of_Z code))
               (MkWorld e' (console w))
    | (Closed None, e') =>
        handler (Error "Command failed with exit code null") (MkWorld e' (console w))
    | (SpawnFailed err, e') => handler err (MkWorld e' (console w))
    end.
Proof.
  unfold try_catch, bind, Orchestrator.runCommand.
  destruct (child_spawn command args options (env w)) as [[[code |] | err] e'];
    try reflexivity.
  destruct (code =? 0); reflexivity.
Qed.

Ltac spawned :=
  cbv beta; rewrite try_runCommand; cbn [env];
  match goal with
  | |- context [child_spawn ?c ?a ?o ?e] =>
      destruct (child_spawn c a o e) as [[[? |] | ?] ?] eqn:?
  end;
  cbn [closed_ok fst snd];
  try match goal with
      | |- context [if ?c =? 0 then _ else _] => destruct (c =? 0)
      end.

Lemma health_suite_follows_process (w : World Env) :
  let run := child_spawn "node" ["tests/health-check.js"]
               (MkSpawnOptions (Orchestrator.both_urls cfg) None) (env w) in
  exists cons,
    Orchestrator.runHealthChecks cfg w
    = (Normal (closed_ok (fst run)), MkWorld (snd run) cons).
Proof.
  cbv zeta. unfold Orchestrator.runHealthChecks. rewrite bind_log. spawned;
    eexists; reflexivity.
Qed.

Lemma integration_suite_follows_process (w : World Env) :
  let run := child_spawn "node" ["tests/integration/run-tests.js"]
               (MkSpawnOptions (Orchestrator.both_urls cfg) None) (env w) in
  exists cons,
    Orchestrator.runIntegrationTests cfg w
    = (Normal (closed_ok (fst run)), MkWorld (snd run) cons).
Proof.
  cbv zeta. unfold Orchestrator.runIntegrationTests. rewrite bind_log. spawned;
    eexists; reflexivity.
Qed.

Lemma api_suite_follows_process (w : World Env) :
  let run := child_spawn
               (if (process_platform =? "win32")%string then "python" else "python3")
               ["-m"; "pytest"; "tests/api/"; "-v"]
               (MkSpawnOptions [("API_URL", API_URL cfg)] (Some (process_cwd (env w))))
               (env w) in
  exists cons,
    Orchestrator.runApiTests cfg w
    = (Normal (closed_ok (fst run)), MkWorld (snd run) cons).
Proof.
  cbv zeta. unfold Orchestrator.runApiTests. rewrite bind_log.
  unfold Orchestrator.cwd at 1.
  change (try_catch
            (bind (fun w0 : World Env => (Normal (process_cwd (env w0)), w0)) ?k) ?h ?w0)
    with (try_catch (k (process_cwd (env w0))) h w0) at 1.
  cbn [env]. spawned; eexists; reflexivity.
Qed.

(** X15: the suites that run a test script or pytest return whether
    the process they spawn closed with exit code 0, and never throw: a
    process that closes with another code, is killed by a signal or
    cannot be spawned at all makes them return [false].  The
    environment they leave is the one the process leaves. *)
Theorem script_suites_follow_exit_code (w : World Env) :
  (let run := child_spawn "node" ["tests/health-check.js"]
                (MkSpawnOptions (Orchestrator.both_urls cfg) None) (env w) in
   exists cons,
     Orchestrator.runHealthChecks cfg w
     = (Normal (closed_ok (fst run)), MkWorld (snd run) cons)) /\
  (let run := child_spawn "node" ["tests/integration/run-tests.js"]
                (MkSpawnOptions (Orchestrator.both_urls cfg) None) (env w) in
   exists cons,
     Orchestrator.runIntegrationTests cfg w
     = (Normal (closed_ok (fst run)), MkWorld (snd run) cons)) /\
  (let run := child_spawn
                (if (process_platform =? "win32")%string then "python" else "python3")
                ["-m"; "pytest"; "tests/api/"; "-v"]
                (MkSpawnOptions [("API_URL", API_URL cfg)] (Some (process_cwd (env w))))
                (env w) in
   exists cons,
     Orchestrator.runApiTests cfg w
     = (Normal (closed_ok (fst run)), MkWorld (snd run) cons)).
Proof.
  split; [| split].
  - exact (health_suite_follows_process w).
  - exact (integration_suite_follows_process w).
  - exact (api_suite_follows_process w).
Qed.

Lemma try_read {A B} (f : World Env -> A) (k : A -> M (World Env) B)
    (handler : exn -> M (World Env) B) (w : World Env) :
  try_catch (bind (fun w0 => (Normal (f w0), w0)) k) handler w
  = try_catch (k (f w)) handler w.
Proof. reflexivity. Qed.

Lemma try_log {B} msg color (k : unit -> M (World Env) B)
    (handler : exn -> M (World Env) B) (w : World Env) :
  try_catch (bind (log msg color) k) handler w
  = try_catch (k tt) handler
      (MkWorld (env w) (console w ++ [(color ++ msg ++ colors.reset)%string])).
Proof. reflexivity. Qed.

Lemma try_bind_assoc {A B C} (m : M (World Env) A) (f : A -> M (World Env) B)
    (g : B -> M (World Env) C) (handler : exn -> M (World Env) C) (w : World Env) :
  try_catch (bind (bind m f) g) handler w
  = try_catch (bind m (fun a => bind (f a) g)) handler w.
Proof.
  unfold try_catch. rewrite bind_assoc. reflexivity.
Qed.

Lemma try_ret {A B} (a : A) (k : A -> M (World Env) B)
    (handler : exn -> M (World Env) B) (w : World Env) :
  try_catch (bind (ret a) k) handler w = try_catch (k a) handler w.
Proof. reflexivity. Qed.

(** X16: [runWebTests] installs the dependencies of the web tests only
    when their [node_modules] directory is missing, and a failed
    installation ends the suite there: [npm test] is not run and the
    suite returns [false].  Otherwise it returns whether [npm test]
    closed with exit code 0. *)
Theorem web_tests_install_first (w : World Env) :
  let dir := path_join [process_cwd (env w); "tests"; "web"]%string in
  let install := child_spawn "npm" ["install"; "--no-save"]
                   (MkSpawnOptions [] (Some dir)) (env w) in
  let test_in e := child_spawn "npm" ["test"]
                     (MkSpawnOptions (Orchestrator.both_urls cfg) (Some dir)) e in
  if fs_existsSync (path_join [dir; "node_modules"]%string) (env w) then
    exists cons,
      Orchestrator.runWebTests cfg w
      = (Normal (closed_ok (fst (test_in (env w)))),
         MkWorld (snd (test_in (env w))) cons)
  else if closed_ok (fst install) then
    exists cons,
      Orchestrator.runWebTests cfg w
      = (Normal (closed_ok (fst (test_in (snd install)))),
         MkWorld (snd (test_in (snd install))) cons)
  else
    exists cons,
      Orchestrator.runWebTests cfg w = (Normal false, MkWorld (snd install) cons).
Proof.
  cbv zeta.
  assert (Hstart : forall k handler cons,
            try_catch
              (bind Orchestrator.cwd
                 (fun here =>
                    bind (fun w0 : World Env =>
                            (Normal (fs_existsSync
                                       (path_join [path_join [here; "tests"; "web"];
                                                   "node_modules"]%string)
                                       (env w0)), w0))
                         (k here)))
              handler (MkWorld (env w) cons)
            = try_catch
                (k (process_cwd (env w))
                   (fs_existsSync
                      (path_join [path_join [process_cwd (env w); "tests"; "web"];
                                  "node_modules"]%string) (env w)))
                handler (MkWorld (env w) cons) :> Completion bool * World Env)
    by reflexivity.
  unfold Orchestrator.runWebTests. rewrite bind_log, Hstart. clear Hstart.
  destruct (fs_existsSync _ (env w)); cbn [negb when].
  - rewrite try_ret. spawned; eexists; reflexivity.
  - rewrite !try_bind_assoc, try_log. cbv beta. cbn [env console].
    rewrite !try_bind_assoc, try_runCommand. cbn [env].
    match goal with
    | |- context [child_spawn "npm" ["install"; "--no-save"]%string ?o ?e] =>
        destruct (child_spawn "npm" ["install"; "--no-save"]%string o e)
          as [[[c1 |] | err1] e1] eqn:Hinstall
    end; cbn [closed_ok fst snd].
    + destruct (c1 =? 0).
      * cbv beta. rewrite try_ret. spawned; eexists; reflexivity.
      * eexists; reflexivity.
    + eexists; reflexivity.
    + eexists; reflexivity.
Qed.

(** X17: [runLinting] always runs both linters, the second whatever the
    first came to, and returns whether both closed with exit code 0; it
    never throws. *)
Theorem linting_runs_both_linters (w : World Env) :
  let api := child_spawn "cd" ["apps/api && poetry run ruff check ."]%string
               (MkSpawnOptions [] None) (env w) in
  let web := child_spawn "cd" ["apps/web && npm run lint"]%string
               (MkSpawnOptions [] None) (snd api) in
  exists cons,
    Orchestrator.runLinting w
    = (Normal (closed_ok (fst api) && closed_ok (fst web)), MkWorld (snd web) cons) /\
    Orchestrator.runAllTests_turn (Env := Env)
      (Orchestrator.MkSuite "Linting" Orchestrator.runLinting false) [] w
    = (Normal [Orchestrator.MkSuiteResult "Linting"
                 (if closed_ok (fst api) && closed_ok (fst web) then PASSED else FAILED)
                 (Some (Date_now (snd web) - Date_now (env w))) None false],
       MkWorld (snd web) cons).
Proof.
  cbv zeta.
  assert (Hrun : exists cons,
            Orchestrator.runLinting w
            = (Normal (closed_ok (fst (child_spawn "cd"
                                         ["apps/api && poetry run ruff check ."]%string
                                         (MkSpawnOptions [] None) (env w)))
                       && closed_ok (fst (child_spawn "cd"
                                            ["apps/web && npm run lint"]%string
                                            (MkSpawnOptions [] None)
                                            (snd (child_spawn "cd"
                                                    ["apps/api && poetry run ruff check ."]%string
                                                    (MkSpawnOptions [] None) (env w)))))),
               MkWorld (snd (child_spawn "cd" ["apps/web && npm run lint"]%string
                               (MkSpawnOptions [] None)
                               (snd (child_spawn "cd"
                                       ["apps/api && poetry run ruff check ."]%string
                                       (MkSpawnOptions [] None) (env w))))) cons)).
  { unfold Orchestrator.runLinting. rewrite bind_log.
    rewrite bind_try_catch, bind_log. unfold bind at 1.
    unfold Orchestrator.runCommand at 1. cbn [env].
    destruct (child_spawn "cd" ["apps/api && poetry run ruff check ."]%string
                (MkSpawnOptions [] None) (env w)) as [[[c1 |] | err1] e1];
      cbn [closed_ok fst snd]; [destruct (c1 =? 0) |..];
      cbn [ret app]; steps;
      rewrite bind_try_catch, bind_log; unfold bind at 1;
      unfold Orchestrator.runCommand at 1; cbn [env];
      destruct (child_spawn "cd" ["apps/web && npm run lint"]%string
                  (MkSpawnOptions [] None) e1) as [[[c2 |] | err2] e2];
      cbn [closed_ok fst snd andb]; try destruct (c2 =? 0);
      cbn [ret app]; steps; cbn [filter Orchestrator.lint_passed negb List.length app];
      eexists; reflexivity. }
  destruct Hrun as (cons & Hrun). exists cons. split; [exact Hrun |].
  unfold Orchestrator.runAllTests_turn, try_catch, bind, now.
  cbn [Orchestrator.suite_fn Orchestrator.suite_name Orchestrator.suite_required].
  rewrite Hrun. cbn [env ret app]. reflexivity.
Qed.

End OrchestratorRuns.

(* ------------------------------------------------------------------ *)
(** * What run-tests.js makes of its suites *)

Section OrchestratorResults.
Context {Env : Type} {P : Platform Env}.
Variable cfg : Config.

Lemma always_passes_ret {S A} (a : A) : always_passes (ret (S := S) a).
Proof. intros s. exists a, s. reflexivity. Qed.

Lemma always_passes_log msg color : always_passes (log (Env := Env) msg color).
Proof. intros w. do 2 eexists. reflexivity. Qed.

Lemma always_passes_bind {S A B} (m : M S A) (k : A -> M S B) :
  always_passes m -> (forall a, always_passes (k a)) -> always_passes (bind m k).
Proof.
  intros Hm Hk s. destruct (Hm s) as (a & s1 & Hrun).
  destruct (Hk a s1) as (b & s2 & Hrest).
  exists b, s2. rewrite (bind_normal _ _ _ _ _ Hrun). exact Hrest.
Qed.

(** A [try] whose [catch] always returns, around a body that does not
    exit, always returns. *)
Lemma always_passes_try_catch {S A} (m : M S A) (handler : exn -> M S A) :
  never_exits m -> (forall e, always_passes (handler e)) ->
  always_passes (try_catch m handler).
Proof.
  intros Hm Hh s. unfold try_catch.
  destruct (m s) as [[a | e | c] s1] eqn:Hrun.
  - exists a, s1. reflexivity.
  - exact (Hh e s1).
  - exfalso. exact (Hm _ _ _ Hrun).
Qed.

Ltac returns :=
  repeat match goal with
    | |- always_passes (bind _ _) => apply always_passes_bind; [| intros ? ]
    | |- always_passes (log _ _) => apply always_passes_log
    | |- always_passes (ret _) => apply always_passes_ret
    | |- always_passes (try_catch _ _) =>
        apply always_passes_try_catch; [no_exit | intros ? ]
    end.

(** No suite of the script rejects: each catches what its commands
    throw. *)
Lemma suites_always_return :
  Forall (fun s => always_passes (Orchestrator.suite_fn s)) (Orchestrator.testSuites cfg).
Proof.
  repeat constructor; cbn [Orchestrator.suite_fn];
    [ unfold Orchestrator.runHealthChecks
    | unfold Orchestrator.runIntegrationTests
    | unfold Orchestrator.runApiTests
    | unfold Orchestrator.runWebTests
    | unfold Orchestrator.runLinting ]; returns.
Qed.

(** The entry a suite that returns [passed] gets in [results]. *)
Lemma turn_of_returning suite results (w w' : World Env) passed :
  Orchestrator.suite_fn suite w = (Normal passed, w') ->
  Orchestrator.runAllTests_turn suite results w
  = (Normal (results ++ [Orchestrator.MkSuiteResult (Orchestrator.suite_name suite)
                           (if passed then PASSED else FAILED)
                           (Some (Date_now (env w') - Date_now (env w))) None
                           (Orchestrator.suite_required suite)]), w').
Proof.
  intros Hrun. unfold Orchestrator.runAllTests_turn, try_catch, bind, now.
  rewrite Hrun. reflexivity.
Qed.

Lemma returning_loop suites :
  Forall (fun s => always_passes (Orchestrator.suite_fn s)) suites ->
  forall acc (w : World Env), exists rs w',
    for_each suites Orchestrator.runAllTests_turn acc w = (Normal (acc ++ rs), w') /\
    map Orchestrator.name rs = map Orchestrator.suite_name suites /\
    map Orchestrator.required rs = map Orchestrator.suite_required suites /\
    Forall (fun r => Orchestrator.status r <> ERROR /\ Orchestrator.error r = None
                     /\ Orchestrator.duration r <> None) rs.
Proof.
  intros Hall. induction Hall as [| suite rest Hsuite _ IH]; intros acc w.
  - exists [], w. rewrite for_each_nil, app_nil_r. repeat split. constructor.
  - destruct (Hsuite w) as (passed & w1 & Hrun).
    rewrite for_each_cons, (bind_normal _ _ _ _ _ (turn_of_returning _ acc _ _ _ Hrun)).
    match goal with
    | |- context [for_each rest _ (acc ++ [?r]) w1] =>
        destruct (IH (acc ++ [r]) w1) as (rs & w2 & Hrest & Hnames & Hreq & Hok);
        exists (r :: rs), w2
    end.
    split; [rewrite Hrest, <- app_assoc; reflexivity |].
    cbn [map Orchestrator.name Orchestrator.required].
    split; [f_equal; exact Hnames |]. split; [f_equal; exact Hreq |].
    constructor; [| exact Hok]. cbn.
    split; [destruct passed; discriminate |]. split; [reflexivity | discriminate].
Qed.

(** The environment the pre-flight probe leaves, when both requests
    went out. *)
Lemma checkServices_env (w : World Env) :
  sent (api_probe cfg w) ->
  sent (web_probe cfg w) ->
  exists healthy cons,
    Orchestrator.checkServices cfg w
    = (Normal healthy,
       MkWorld (snd (http_get (WEB_URL cfg) [] 5000
                       (snd (http_get (API_URL cfg ++ "/health") [] 5000 (env w)))))
               cons).
Proof.
  unfold api_probe, web_probe. intros Hapi Hweb.
  unfold Orchestrator.checkServices.
  unfold bind at 1. unfold log at 1. cbv beta iota.
  unfold bind at 1. rewrite checkService_resolves by exact Hapi. cbv beta iota.
  unfold bind at 1. rewrite checkService_resolves by exact Hweb. cbv beta iota.
  cbn [env].
  set (a := answered_200 _). set (b := answered_200 _).
  destruct a, b; cbn; do 2 eexists; reflexivity.
Qed.

(** X18: whenever [runAllTests] gets to the end of its loop over the
    suites, [results] has one entry per suite, in order, and none of
    them is an ERROR: every entry is PASSED or FAILED with a duration
    and no error message.  The [catch] of that loop never runs for the
    suites the script registers. *)
Theorem suites_never_report_error (w w' : World Env) results :
  Orchestrator.runAllTests_suites cfg (Orchestrator.testSuites cfg) w
  = (Normal results, w') ->
  map Orchestrator.name results
  = ["Health Checks"; "Integration Tests"; "API Tests"; "Web Tests"; "Linting"]%string /\
  Forall (fun r => Orchestrator.status r <> ERROR /\ Orchestrator.error r = None
                   /\ Orchestrator.duration r <> None) results.
Proof.
  unfold Orchestrator.runAllTests_suites. steps.
  match goal with
  | |- context [bind (Orchestrator.checkServices cfg) _ ?w0] =>
      unfold bind at 1;
      destruct (Orchestrator.checkServices cfg w0) as [[healthy | e | c] w1]
  end; [| discriminate | discriminate].
  unfold Orchestrator.runAllTests_after_preflight. destruct healthy as [a b].
  rewrite bind_log.
  match goal with
  | |- context [for_each _ _ [] ?w2] =>
      destruct (returning_loop (Orchestrator.testSuites cfg) suites_always_return [] w2)
        as (rs & w3 & Hloop & Hnames & _ & Hok)
  end.
  rewrite Hloop. cbn [app]. intros Heq. injection Heq as <- _.
  split; [exact Hnames | exact Hok].
Qed.

Lemma optional_never_required rs :
  Forall (fun b => b = false) (map Orchestrator.required rs) ->
  existsb required_failure rs = false.
Proof.
  induction rs as [| r rest IH]; cbn [map existsb]; intros Hall; [reflexivity |].
  inversion Hall as [| ? ? Hr Hrest]; subst.
  unfold required_failure at 1. rewrite Hr. cbn [andb orb]. exact (IH Hrest).
Qed.

(** X19: the exit code of the whole run is decided by two processes.
    When both pre-flight requests went out, [run-tests.js] without a
    flag exits with 0 exactly when [node tests/health-check.js], spawned
    in the environment the probe leaves, and
    [node tests/integration/run-tests.js], spawned after it, both close
    with exit code 0, and with 1 otherwise; what the probe found and
    what pytest, Jest and the linters come to do not enter. *)
Theorem exit_code_follows_two_processes (w : World Env) :
  sent (api_probe cfg w) ->
  sent (web_probe cfg w) ->
  let probed := snd (http_get (WEB_URL cfg) [] 5000
                       (snd (http_get (API_URL cfg ++ "/health") [] 5000 (env w)))) in
  let health := child_spawn "node" ["tests/health-check.js"]
                  (MkSpawnOptions (Orchestrator.both_urls cfg) None) probed in
  let integration := child_spawn "node" ["tests/integration/run-tests.js"]
                       (MkSpawnOptions (Orchestrator.both_urls cfg) None) (snd health) in
  Orchestrator.exit_code (Orchestrator.run_all cfg w)
  = Some (if closed_ok (fst health) && closed_ok (fst integration) then 0 else 1).
Proof.
  intros Hapi Hweb. cbv zeta.
  assert (Hsuites : exists rs w1,
            Orchestrator.runAllTests_suites cfg (Orchestrator.testSuites cfg) w
            = (Normal rs, w1) /\
            existsb required_failure rs
            = negb (closed_ok (fst (child_spawn "node" ["tests/health-check.js"]
                       (MkSpawnOptions (Orchestrator.both_urls cfg) None)
                       (snd (http_get (WEB_URL cfg) [] 5000
                               (snd (http_get (API_URL cfg ++ "/health") [] 5000
                                       (env w))))))))
              || negb (closed_ok (fst (child_spawn "node"
                         ["tests/integration/run-tests.js"]
                         (MkSpawnOptions (Orchestrator.both_urls cfg) None)
                         (snd (child_spawn "node" ["tests/health-check.js"]
                                 (MkSpawnOptions (Orchestrator.both_urls cfg) None)
                                 (snd (http_get (WEB_URL cfg) [] 5000
                                         (snd (http_get (API_URL cfg ++ "/health") []
                                                 5000 (env w))))))))))).
  { unfold Orchestrator.runAllTests_suites. steps.
    match goal with
    | |- context [bind (Orchestrator.checkServices cfg) _ ?w0] =>
        destruct (checkServices_env w0 Hapi Hweb) as ([a b] & cons & Hcheck);
        rewrite (bind_normal _ _ _ _ _ Hcheck)
    end.
    unfold Orchestrator.runAllTests_after_preflight. rewrite bind_log. cbn [env console].
    unfold Orchestrator.testSuites.
    match goal with
    | |- context [for_each _ _ [] ?w2] =>
        destruct (health_suite_follows_process cfg w2) as (cons1 & Hhealth)
    end.
    cbn [env] in Hhealth.
    rewrite for_each_cons.
    rewrite (bind_normal _ _ _ _ _
               (turn_of_returning
                  (Orchestrator.MkSuite "Health Checks" (Orchestrator.runHealthChecks cfg)
                     true) [] _ _ _ Hhealth)).
    match goal with
    | |- context [for_each _ _ _ ?w3] =>
        destruct (integration_suite_follows_process cfg w3) as (cons2 & Hintegration)
    end.
    cbn [env] in Hintegration.
    rewrite for_each_cons.
    rewrite (bind_normal _ _ _ _ _
               (turn_of_returning
                  (Orchestrator.MkSuite "Integration Tests"
                     (Orchestrator.runIntegrationTests cfg) true) _ _ _ _ Hintegration)).
    pose proof suites_always_return as Hall. unfold Orchestrator.testSuites in Hall.
    inversion Hall as [| ? ? _ Hall1]; subst.
    inversion Hall1 as [| ? ? _ Hall2]; subst.
    match goal with
    | |- context [for_each ?rest _ ?acc ?w4] =>
        destruct (returning_loop rest Hall2 acc w4)
          as (rs & w5 & Hloop & _ & Hreq & _)
    end.
    do 2 eexists. split; [exact Hloop |].
    cbn [app existsb Orchestrator.suite_name Orchestrator.suite_required env].
    rewrite optional_never_required
      by (rewrite Hreq; repeat constructor).
    unfold required_failure. cbn [Orchestrator.required Orchestrator.status andb].
    rewrite orb_false_r.
    do 2 match goal with
         | |- context [closed_ok ?ev] => destruct (closed_ok ev)
         end; reflexivity. }
  destruct Hsuites as (rs & w1 & Hsuites & Hfail).
  destruct (runAllTests_exits cfg (Orchestrator.testSuites cfg) w rs w1 Hsuites)
    as (w2 & Hrun).
  unfold Orchestrator.exit_code.
  rewrite (run_all_after_exit cfg w _ w2 Hrun). cbn [fst]. rewrite Hfail.
  do 2 match goal with
       | |- context [closed_ok ?ev] => destruct (closed_ok ev)
       end; reflexivity.
Qed.

(** A [log] before a computation that exits having printed [lines]
    puts its line before them. *)
Lemma log_then_exit_prints (msg color : string) (m : M (World Env) unit) code lines :
  (forall w, m w = (Exit code, MkWorld (env w) (console w ++ lines))) ->
  forall w, bind (log msg color) (fun _ => m) w
            = (Exit code,
               MkWorld (env w) (console w ++ (color ++ msg ++ colors.reset)%string :: lines)).
Proof.
  intros Hm w. rewrite bind_log. rewrite Hm. cbn [env console].
  rewrite <- app_assoc. reflexivity.
Qed.

(** X20: [--help] and [-h] come first: with either among the
    arguments the script prints the usage, its seventeen lines and
    nothing else, and exits with 0 without sending a request or
    spawning a process, whatever else is asked for. *)
Theorem help_flag_wins (args : list string) (w : World Env) :
  Orchestrator.has_flag args "--help" = true
  \/ Orchestrator.has_flag args "-h" = true ->
  Orchestrator.main cfg args w
  = (Exit 0, MkWorld (env w) (console w ++ printed usage)).
Proof.
  intros Hhelp. unfold Orchestrator.main.
  replace (Orchestrator.has_flag args "--help" || Orchestrator.has_flag args "-h")
    with true
    by (destruct Hhelp as [-> | ->]; [| rewrite orb_true_r]; reflexivity).
  unfold printed, usage. cbn [map].
  revert w. repeat apply log_then_exit_prints.
  intros w. rewrite app_nil_r. destruct w; reflexivity.
Qed.

(** X21: a flag that selects one suite skips the pre-flight probe and
    every other suite, and the script exits with 0 exactly when that
    suite's process closes with exit code 0.  Of several such flags the
    first in the order [--health-only], [--integration], [--api-only]
    is the one obeyed. *)
Theorem single_suite_flag_decides (args : list string) (w : World Env) :
  Orchestrator.has_flag args "--help" = false ->
  Orchestrator.has_flag args "-h" = false ->
  (Orchestrator.has_flag args "--health-only" = true ->
   let run := child_spawn "node" ["tests/health-check.js"]
                (MkSpawnOptions (Orchestrator.both_urls cfg) None) (env w) in
   exists cons,
     Orchestrator.main cfg args w
     = (Exit (if closed_ok (fst run) then 0 else 1), MkWorld (snd run) cons)) /\
  (Orchestrator.has_flag args "--health-only" = false ->
   Orchestrator.has_flag args "--integration" = true ->
   let run := child_spawn "node" ["tests/integration/run-tests.js"]
                (MkSpawnOptions (Orchestrator.both_urls cfg) None) (env w) in
   exists cons,
     Orchestrator.main cfg args w
     = (Exit (if closed_ok (fst run) then 0 else 1), MkWorld (snd run) cons)) /\
  (Orchestrator.has_flag args "--health-only" = false ->
   Orchestrator.has_flag args "--integration" = false ->
   Orchestrator.has_flag args "--api-only" = true ->
   let run := child_spawn
                (if (process_platform =? "win32")%string then "python" else "python3")
                ["-m"; "pytest"; "tests/api/"; "-v"]
                (MkSpawnOptions [("API_URL", API_URL cfg)] (Some (process_cwd (env w))))
                (env w) in
   exists cons,
     Orchestrator.main cfg args w
     = (Exit (if closed_ok (fst run) then 0 else 1), MkWorld (snd run) cons)).
Proof.
  intros Hhelp Hh. unfold Orchestrator.main. rewrite Hhelp, Hh. cbn [orb].
  split; [| split].
  - intros ->. cbv zeta.
    destruct (health_suite_follows_process cfg w) as (cons & Hrun).
    exists cons. unfold Orchestrator.exit_with.
    rewrite (bind_normal _ _ _ _ _ Hrun). reflexivity.
  - intros -> ->. cbv zeta.
    destruct (integration_suite_follows_process cfg w) as (cons & Hrun).
    exists cons. unfold Orchestrator.exit_with.
    rewrite (bind_normal _ _ _ _ _ Hrun). reflexivity.
  - intros -> -> ->. cbv zeta.
    destruct (api_suite_follows_process cfg w) as (cons & Hrun).
    exists cons. unfold Orchestrator.exit_with.
    rewrite (bind_normal _ _ _ _ _ Hrun). reflexivity.
Qed.

(** X22: an argument that is none of the flags the script reads changes
    nothing: the script runs everything, pre-flight probe included.
    This holds for [--no-services], which the usage text lists as
    skipping the service availability check. *)
Theorem unknown_flags_are_ignored (args : list string) :
  (forall flag, In flag known_flags -> Orchestrator.has_flag args flag = false) ->
  ~ In "--no-services"%string known_flags /\
  Orchestrator.main cfg args = Orchestrator.run_all cfg.
Proof.
  intros Hnone. split.
  - cbn. intros H. repeat (destruct H as [H | H]; [discriminate H |]). exact H.
  - unfold Orchestrator.main.
    rewrite !Hnone by (cbn; tauto). reflexivity.
Qed.

End OrchestratorResults.

Lemma suites_never_report_error_witness :
  fst (Orchestrator.runAllTests_suites Orchestrator.CONFIG
         (Orchestrator.testSuites Orchestrator.CONFIG) services_up)
  = Normal [Orchestrator.MkSuiteResult "Health Checks" PASSED (Some 0) None true;
            Orchestrator.MkSuiteResult "Integration Tests" PASSED (Some 0) None true;
            Orchestrator.MkSuiteResult "API Tests" FAILED (Some 0) None false;
            Orchestrator.MkSuiteResult "Web Tests" PASSED (Some 0) None false;
            Orchestrator.MkSuiteResult "Linting" FAILED (Some 0) None false] /\
  Forall (fun r => Orchestrator.status r <> ERROR /\ Orchestrator.error r = None
                   /\ Orchestrator.duration r <> None)
    [Orchestrator.MkSuiteResult "Health Checks" PASSED (Some 0) None true;
     Orchestrator.MkSuiteResult "Integration Tests" PASSED (Some 0) None true;
     Orchestrator.MkSuiteResult "API Tests" FAILED (Some 0) None false;
     Orchestrator.MkSuiteResult "Web Tests" PASSED (Some 0) None false;
     Orchestrator.MkSuiteResult "Linting" FAILED (Some 0) None false].
Proof.
  split; [vm_compute; reflexivity |].
  apply (suites_never_report_error Orchestrator.CONFIG services_up
           (snd (Orchestrator.runAllTests_suites Orchestrator.CONFIG
                   (Orchestrator.testSuites Orchestrator.CONFIG) services_up))).
  vm_compute. reflexivity.
Defined.

Lemma exit_code_follows_two_processes_witness :
  sent (api_probe Orchestrator.CONFIG health_script_fails) /\
  sent (web_probe Orchestrator.CONFIG health_script_fails) /\
  Orchestrator.exit_code (Orchestrator.run_all Orchestrator.CONFIG health_script_fails)
  = Some (if closed_ok (Closed (Some 1)) && closed_ok (Closed (Some 0)) then 0 else 1).
Proof.
  split; [exact I |]. split; [exact I |].
  etransitivity;
    [apply (exit_code_follows_two_processes Orchestrator.CONFIG health_script_fails);
     exact I |].
  vm_compute. reflexivity.
Defined.

Lemma help_flag_wins_witness :
  (Orchestrator.has_flag ["--lint-only"; "-h"; "--health-only"]%string "--help" = true
   \/ Orchestrator.has_flag ["--lint-only"; "-h"; "--health-only"]%string "-h" = true) /\
  Orchestrator.main Orchestrator.CONFIG ["--lint-only"; "-h"; "--health-only"]%string
    services_up
  = (Exit 0, MkWorld (env services_up) (printed usage)) /\
  List.length (printed usage) = 17%nat.
Proof.
  split; [right; reflexivity |]. split; [| reflexivity].
  apply (help_flag_wins Orchestrator.CONFIG). right. reflexivity.
Defined.

Lemma single_suite_flag_decides_witness :
  Orchestrator.has_flag ["--api-only"; "--integration"]%string "--help" = false /\
  Orchestrator.has_flag ["--api-only"; "--integration"]%string "-h" = false /\
  Orchestrator.has_flag ["--api-only"; "--integration"]%string "--health-only" = false /\
  Orchestrator.has_flag ["--api-only"; "--integration"]%string "--integration" = true /\
  Orchestrator.exit_code
    (Orchestrator.main Orchestrator.CONFIG ["--api-only"; "--integration"]%string
       services_up)
  = Some 0.
Proof.
  repeat (split; [reflexivity |]).
  destruct (single_suite_flag_decides Orchestrator.CONFIG
              ["--api-only"; "--integration"]%string services_up eq_refl eq_refl)
    as (_ & Hintegration & _).
  destruct (Hintegration eq_refl eq_refl) as (cons & Hrun).
  unfold Orchestrator.exit_code. rewrite Hrun. reflexivity.
Defined.

Lemma unknown_flags_are_ignored_witness :
  (forall flag, In flag known_flags ->
     Orchestrator.has_flag ["--no-services"]%string flag = false) /\
  Orchestrator.main Orchestrator.CONFIG ["--no-services"]%string
  = Orchestrator.run_all Orchestrator.CONFIG /\
  fst (Orchestrator.checkServices Orchestrator.CONFIG services_down)
  = Normal (false, false).
Proof.
  assert (Hnone : forall flag, In flag known_flags ->
            Orchestrator.has_flag ["--no-services"]%string flag = false).
  { intros flag Hin. cbn in Hin.
    repeat (destruct Hin as [<- | Hin]; [reflexivity |]). contradiction. }
  split; [exact Hnone |]. split; [| reflexivity].
  exact (proj2 (unknown_flags_are_ignored Orchestrator.CONFIG
                  ["--no-services"]%string Hnone)).
Defined.

(* ------------------------------------------------------------------ *)
(** * More of what the test cases accept *)

Section AcceptanceMore.
Context {Env : Type} {P : Platform Env}.
Variable cfg : Config.

(** X23: [testCORS] sends the [Origin] of the frontend and then looks
    at the status code only: it returns exactly when the answer is a
    200, whatever its headers, [Access-Control-Allow-Origin] included,
    and its body. *)
Theorem cors_test_checks_status_only (w : World Env) sc hs b e' :
  http_get (API_URL cfg ++ "/health")%string
    [("Origin", WEB_URL cfg); ("Access-Control-Request-Method", "GET")]%string
    (TIMEOUT cfg) (env w)
  = (Responded sc hs b, e') ->
  (fst (HealthCheck.testCORS cfg w) = Normal VUndefined <-> sc = 200) /\
  (sc <> 200 ->
   fst (HealthCheck.testCORS cfg w)
   = Throw (Error ("CORS test failed with status " ++ string_of_Z sc))).
Proof.
  intros Hget. unfold HealthCheck.testCORS. steps.
  erewrite bind_health_request by (cbn [env]; exact Hget). steps.
  destruct (Z.eqb_spec sc 200) as [-> | Hsc]; steps; cbn [fst].
  - split; [split; reflexivity | intros Habs; contradiction].
  - split; [split; [discriminate | contradiction] | reflexivity].
Qed.

Ltac wrong_type :=
  cbn [fst]; split;
    [ discriminate
    | unfold answers_with_type;
      let H := fresh in
      intros H; decompose record H; subst; try congruence ].

Ltac endpoint Hget :=
  erewrite bind_integration_request by (cbn [env]; exact Hget); steps;
  match goal with
  | |- context [?sc =? 200] =>
      destruct (Z.eqb_spec sc 200) as [-> | ?]; steps; [| wrong_type]
  end;
  match goal with
  | |- context [assoc "content-type"%string ?hs] =>
      let ct := fresh "ct" in
      let Hct := fresh "Hct" in
      destruct (assoc "content-type"%string hs) as [ct |] eqn:Hct; steps;
      [| wrong_type];
      let Hempty := fresh "Hempty" in
      destruct (String.eqb_spec ct EmptyString) as [Hempty | Hempty];
      [ subst ct; steps; wrong_type |];
      match goal with
      | |- context [includes ct ?ty] =>
          let Hty := fresh "Hty" in
          destruct (includes ct ty) eqn:Hty; steps; [| wrong_type]
      end
  end.

(** X25: [testApiContentTypes] asks for its four endpoints in order
    and returns exactly when each answers 200 with a [content-type]
    that contains the expected type.  It stops at the first endpoint
    that does not: when [/health] answers another status, the error
    names [/health] and no further request is made. *)
Theorem content_types_accepts_exactly (w : World Env)
    sc1 hs1 b1 e1 sc2 hs2 b2 e2 sc3 hs3 b3 e3 sc4 hs4 b4 e4 :
  http_get (API_URL cfg ++ "/health")%string [] (TIMEOUT cfg) (env w)
  = (Responded sc1 hs1 b1, e1) ->
  http_get (API_URL cfg ++ "/health/detailed")%string [] (TIMEOUT cfg) e1
  = (Responded sc2 hs2 b2, e2) ->
  http_get (API_URL cfg ++ "/api/status")%string [] (TIMEOUT cfg) e2
  = (Responded sc3 hs3 b3, e3) ->
  http_get (API_URL cfg ++ "/docs")%string [] (TIMEOUT cfg) e3
  = (Responded sc4 hs4 b4, e4) ->
  (fst (Integration.testApiContentTypes cfg w) = Normal VUndefined
   <-> answers_with_type sc1 hs1 "application/json"
       /\ answers_with_type sc2 hs2 "application/json"
       /\ answers_with_type sc3 hs3 "application/json"
       /\ answers_with_type sc4 hs4 "text/html") /\
  (sc1 <> 200 ->
   exists cons,
     Integration.testApiContentTypes cfg w
     = (Throw (Error ("Endpoint " ++ "/health" ++ " failed with status "
                      ++ string_of_Z sc1)),
        MkWorld e1 cons)).
Proof.
  intros H1 H2 H3 H4. split.
  - unfold Integration.testApiContentTypes. steps.
    endpoint H1. endpoint H2. endpoint H3. endpoint H4.
    cbn [fst]. split; [intros _ | reflexivity].
    unfold answers_with_type.
    repeat split; eexists; repeat split; eassumption.
  - intros Hsc. unfold Integration.testApiContentTypes. steps.
    erewrite bind_integration_request by (cbn [env]; exact H1). steps.
    destruct (Z.eqb_spec sc1 200) as [Heq | _]; [contradiction |].
    steps. eexists. reflexivity.
Qed.

(** X24: the loop of tests/ci-health-check.js goes through every test
    case, throws nothing and counts each test case once; with no
    attempt to make it counts every one of them as failed, where the
    loop of tests/health-check.js counts them as passed. *)
Theorem ci_suite_counters_add_up (tests : list (TestCase Env)) (h : Harness Env) :
  Forall (fun t => never_exits (fn t)) tests ->
  exists passed failed h',
    CIHealthCheck.runCIHealthChecks_loop cfg tests h = (Normal (passed, failed), h') /\
    passed + failed = Z.of_nat (List.length tests) /\
    0 <= passed /\ 0 <= failed /\
    (RETRY_COUNT cfg <= 0 ->
     failed = Z.of_nat (List.length tests) /\ history h' = history h).
Proof.
  intros Hne.
  destruct (ci_loop_tally cfg tests h Hne)
    as (p & f & h' & Hloop & Hsum & Hp & Hf & _ & _ & Hnone).
  exists p, f, h'. split; [exact Hloop |]. split; [exact Hsum |].
  split; [exact Hp |]. split; [exact Hf |].
  intros Hle. destruct (Hnone Hle) as (-> & Hh & _). split; [lia | exact Hh].
Qed.

End AcceptanceMore.

Lemma cors_test_checks_status_only_witness :
  http_get "http://localhost:8000/health"%string
    [("Origin", "http://localhost:3000"); ("Access-Control-Request-Method", "GET")]%string
    10000 (env healthy_services)
  = (Responded 200 json_headers body_status_ok, env healthy_services) /\
  assoc "access-control-allow-origin"%string json_headers = None /\
  fst (HealthCheck.testCORS HealthCheck.CONFIG healthy_services) = Normal VUndefined.
Proof.
  split; [reflexivity |]. split; [reflexivity |].
  destruct (cors_test_checks_status_only HealthCheck.CONFIG healthy_services
              200 json_headers body_status_ok (env healthy_services))
    as (Hiff & _); [reflexivity |].
  apply Hiff. reflexivity.
Defined.

Lemma ci_suite_counters_add_up_witness :
  Forall (fun t => never_exits (fn t)) [test_A; test_B] /\
  RETRY_COUNT CONFIG_without_attempts <= 0 /\
  fst (CIHealthCheck.runCIHealthChecks_loop CONFIG_without_attempts [test_A; test_B] idle)
  = Normal (0, 2).
Proof.
  split; [exact scenario_tests_never_exit |].
  assert (HN : RETRY_COUNT CONFIG_without_attempts <= 0) by (vm_compute; discriminate).
  split; [exact HN |].
  destruct (ci_suite_counters_add_up CONFIG_without_attempts [test_A; test_B] idle
              scenario_tests_never_exit)
    as (p & f & h' & Hloop & Hsum & _ & _ & Hnone).
  rewrite Hloop. destruct (Hnone HN) as (-> & _).
  cbn [fst List.length] in *. do 2 f_equal. lia.
Defined.

Lemma content_types_accepts_exactly_witness :
  http_get "http://localhost:8000/health"%string [] 15000 (env healthy_services)
  = (Responded 200 json_headers body_status_ok, env healthy_services) /\
  http_get "http://localhost:8000/health/detailed"%string [] 15000 (env healthy_services)
  = (Responded 200 json_headers body_detailed_health, env healthy_services) /\
  http_get "http://localhost:8000/api/status"%string [] 15000 (env healthy_services)
  = (Responded 200 json_headers body_api_status, env healthy_services) /\
  http_get "http://localhost:8000/docs"%string [] 15000 (env healthy_services)
  = (Responded 200 [("content-type", "text/html; charset=utf-8")]%string body_docs,
     env healthy_services) /\
  fst (Integration.testApiContentTypes Integration.CONFIG healthy_services)
  = Normal VUndefined.
Proof.
  do 4 (split; [reflexivity |]).
  destruct (content_types_accepts_exactly Integration.CONFIG healthy_services
              200 json_headers body_status_ok (env healthy_services)
              200 json_headers body_detailed_health (env healthy_services)
              200 json_headers body_api_status (env healthy_services)
              200 [("content-type", "text/html; charset=utf-8")]%string body_docs
              (env healthy_services))
    as (Hiff & _); [reflexivity | reflexivity | reflexivity | reflexivity |].
  assert (Hjson : answers_with_type 200 json_headers "application/json").
  { split; [reflexivity |]. exists "application/json"%string.
    split; [reflexivity |]. split; [discriminate | reflexivity]. }
  apply Hiff. split; [exact Hjson |]. split; [exact Hjson |]. split; [exact Hjson |].
  split; [reflexivity |]. eexists.
  split; [reflexivity |]. split; [discriminate | reflexivity].
Defined.

Section ResponseTime.
Context {Env : Type} {P : Platform Env}.
Variable cfg : Config.

(** X26: a slow API does not fail [testApiResponseTime]: when the
    answer is a 200 the test returns the time the request took, however
    long; beyond 5000 ms it logs the warning that the response time is
    slow, up to 5000 ms the line that reports the time, and nothing
    else after the line that announces the test.  Any other status
    fails the test before either line. *)
Theorem response_time_is_never_a_failure (w : World Env) sc hs b e' :
  http_get (API_URL cfg ++ "/health")%string [] (TIMEOUT cfg) (env w)
  = (Responded sc hs b, e') ->
  let responseTime := Date_now e' - Date_now (env w) in
  let announced :=
    (colors.reset ++ (colors.cyan ++ "Testing API Response Time..." ++ colors.reset)
       ++ colors.reset)%string in
  (sc = 200 -> 5000 < responseTime ->
   Integration.testApiResponseTime cfg w
   = (Normal (VNumber responseTime),
      MkWorld e'
        (console w
         ++ [announced;
             (colors.reset
                ++ ("  " ++ colors.yellow ++ "⚠️  API response time is slow: "
                      ++ string_of_Z responseTime ++ "ms" ++ colors.reset)
                ++ colors.reset)%string]))) /\
  (sc = 200 -> responseTime <= 5000 ->
   Integration.testApiResponseTime cfg w
   = (Normal (VNumber responseTime),
      MkWorld e'
        (console w
         ++ [announced;
             (colors.reset
                ++ ("  " ++ colors.green ++ "✓ API response time: "
                      ++ string_of_Z responseTime ++ "ms" ++ colors.reset)
                ++ colors.reset)%string]))) /\
  (sc <> 200 ->
   Integration.testApiResponseTime cfg w
   = (Throw (Error ("API health check failed with status " ++ string_of_Z sc)),
      MkWorld e' (console w ++ [announced]))).
Proof.
  intros Hget responseTime announced. subst responseTime announced.
  unfold Integration.testApiResponseTime. steps.
  assert (Hnow : forall B (k : Z -> M (World Env) B) (w0 : World Env),
            bind now k w0 = k (Date_now (env w0)) w0) by reflexivity.
  rewrite Hnow. cbn [env].
  erewrite bind_integration_request by (cbn [env]; exact Hget).
  rewrite Hnow. cbn [env]. steps.
  destruct (Z.eqb_spec sc 200) as [-> | Hsc]; steps.
  - split; [| split]; [intros _ Hslow | intros _ Hfast | intros Habs; contradiction].
    + replace (Date_now e' - Date_now (env w) >? 5000) with true
        by (symmetry; apply Z.gtb_lt; lia).
      steps. cbn [env console]. rewrite <- app_assoc. reflexivity.
    + replace (Date_now e' - Date_now (env w) >? 5000) with false
        by (symmetry; rewrite Z.gtb_ltb; apply Z.ltb_ge; lia).
      steps. cbn [env console]. rewrite <- app_assoc. reflexivity.
  - split; [| split]; [intros Habs; contradiction | intros Habs; contradiction | intros _].
    reflexivity.
Qed.

End ResponseTime.

Lemma response_time_is_never_a_failure_witness :
  @http_get _ (slow_network 6000) "http://localhost:8000/health"%string [] 15000
    (env healthy_services)
  = (Responded 200 json_headers body_status_ok,
     @timer_elapse _ Scripted.platform 6000 (env healthy_services)) /\
  5000 < 6000 /\
  @Integration.testApiResponseTime _ (slow_network 6000) Integration.CONFIG healthy_services
  = (Normal (VNumber 6000),
     MkWorld (@timer_elapse _ Scripted.platform 6000 (env healthy_services))
       [(colors.reset ++ (colors.cyan ++ "Testing API Response Time..." ++ colors.reset)
           ++ colors.reset)%string;
        (colors.reset
           ++ ("  " ++ colors.yellow ++ "⚠️  API response time is slow: 6000ms"
                 ++ colors.reset)
           ++ colors.reset)%string]) /\
  @http_get _ (slow_network 5000) "http://localhost:8000/health"%string [] 15000
    (env healthy_services)
  = (Responded 200 json_headers body_status_ok,
     @timer_elapse _ Scripted.platform 5000 (env healthy_services)) /\
  @Integration.testApiResponseTime _ (slow_network 5000) Integration.CONFIG healthy_services
  = (Normal (VNumber 5000),
     MkWorld (@timer_elapse _ Scripted.platform 5000 (env healthy_services))
       [(colors.reset ++ (colors.cyan ++ "Testing API Response Time..." ++ colors.reset)
           ++ colors.reset)%string;
        (colors.reset
           ++ ("  " ++ colors.green ++ "✓ API response time: 5000ms" ++ colors.reset)
           ++ colors.reset)%string]).
Proof.
  split; [reflexivity |]. split; [lia |]. split; [| split; [reflexivity |]].
  - destruct (@response_time_is_never_a_failure _ (slow_network 6000)
                Integration.CONFIG healthy_services
                200 json_headers body_status_ok
                (@timer_elapse _ Scripted.platform 6000 (env healthy_services)))
      as (Hslow & _); [reflexivity |].
    etransitivity; [apply Hslow; [reflexivity | vm_compute; reflexivity] |].
    vm_compute. reflexivity.
  - destruct (@response_time_is_never_a_failure _ (slow_network 5000)
                Integration.CONFIG healthy_services
                200 json_headers body_status_ok
                (@timer_elapse _ Scripted.platform 5000 (env healthy_services)))
      as (_ & Hfast & _); [reflexivity |].
    etransitivity; [apply Hfast; [reflexivity | vm_compute; discriminate] |].
    vm_compute. reflexivity.
Defined.
